(** * md-to-docx-cli: the conversion pipeline and the wizard

    A shallow embedding of [App.tsx] (the [convert] pipeline: style
    sanitising, TOC insertion, document type, output path, persist, open,
    watch and debounce), of the command-line entry (the flags declared
    with [meow] and their defaults) and of [Wizard.tsx] (the step
    navigation), with the properties the specification states about them.

    JavaScript strings are modelled as [string], read as the UTF-8 bytes
    of the text; JavaScript numbers as binary64 floats ([PrimFloat.float]);
    objects used as maps as [gmap string _]. *)

From Stdlib Require Import ZArith Strings.Ascii Floats.PrimFloat Floats.SpecFloat Floats.FloatOps.
From stdpp Require Import gmap strings list fin_maps pretty.

Local Open Scope string_scope.

(** ** Strings *)

Module Str.

(** [s.includes(pat)]: [pat] occurs in [s] at some position. *)
Fixpoint includes (pat s : string) : bool :=
  String.prefix pat s ||
  match s with
  | EmptyString => false
  | String _ s' => includes pat s'
  end.

(** Number of positions of [s] at which [pat] occurs. *)
Fixpoint occurrences (pat s : string) : nat :=
  (if String.prefix pat s then 1 else 0) +
  match s with
  | EmptyString => 0
  | String _ s' => occurrences pat s'
  end.

Definition rev (s : string) : string :=
  String.string_of_list_ascii (List.rev (String.list_ascii_of_string s)).

(** [s.endsWith(suf)]. *)
Definition endsWith (suf s : string) : bool :=
  String.prefix (rev suf) (rev s).

(** Truthiness of an optional string: [undefined] and [""] are falsy. *)
Definition truthy (o : option string) : bool :=
  match o with
  | Some (String _ _) => true
  | _ => false
  end.

(** The text whose UTF-8 encoding is the given bytes. *)
Definition utf8 (bytes : list nat) : string :=
  String.string_of_list_ascii (List.map Ascii.ascii_of_nat bytes).

End Str.

(** ** Numbers: [Number(string)] and [Number.isFinite] *)

Module JsNumber.

Local Open Scope nat_scope.

Definition byte (c : Ascii.ascii) : nat := Ascii.nat_of_ascii c.

(** White space and line terminators of one, two and three UTF-8 bytes:
    TAB, LF, VT, FF, CR, SP; U+00A0; U+1680, U+2000..U+200A, U+2028,
    U+2029, U+202F, U+205F, U+3000, U+FEFF. *)
Definition is_ws1 (c : Ascii.ascii) : bool :=
  let n := byte c in
  ((9 <=? n) && (n <=? 13)) || (n =? 32).

Definition is_ws2 (c1 c2 : Ascii.ascii) : bool :=
  (byte c1 =? 194) && (byte c2 =? 160).

Definition is_ws3 (c1 c2 c3 : Ascii.ascii) : bool :=
  let '(a, b, c) := (byte c1, byte c2, byte c3) in
  ((a =? 225) && (b =? 154) && (c =? 128)) ||
  ((a =? 226) && (b =? 128) &&
     (((128 <=? c) && (c <=? 138)) || (c =? 168) || (c =? 169) || (c =? 175))) ||
  ((a =? 226) && (b =? 129) && (c =? 159)) ||
  ((a =? 227) && (b =? 128) && (c =? 128)) ||
  ((a =? 239) && (b =? 187) && (c =? 191)).

(** Leading white space removed. *)
Fixpoint trimStart (s : string) : string :=
  match s with
  | String c1 s1 =>
      if is_ws1 c1 then trimStart s1 else
      match s1 with
      | String c2 s2 =>
          if is_ws2 c1 c2 then trimStart s2 else
          match s2 with
          | String c3 s3 => if is_ws3 c1 c2 c3 then trimStart s3 else s
          | EmptyString => s
          end
      | EmptyString => s
      end
  | EmptyString => s
  end.

(** The same on the reversed text: the bytes of a character come last
    byte first. *)
Fixpoint trimStartRev (s : string) : string :=
  match s with
  | String c1 s1 =>
      if is_ws1 c1 then trimStartRev s1 else
      match s1 with
      | String c2 s2 =>
          if is_ws2 c2 c1 then trimStartRev s2 else
          match s2 with
          | String c3 s3 => if is_ws3 c3 c2 c1 then trimStartRev s3 else s
          | EmptyString => s
          end
      | EmptyString => s
      end
  | EmptyString => s
  end.

Definition trim (s : string) : string :=
  Str.rev (trimStartRev (Str.rev (trimStart s))).

(** A text made of white space only. *)
Definition blank (s : string) : bool :=
  match trimStart s with
  | EmptyString => true
  | String _ _ => false
  end.

(** Digits. *)
Definition digit_of (radix : Z) (c : Ascii.ascii) : option Z :=
  let n := Z.of_nat (byte c) in
  let d :=
    if (48 <=? n)%Z && (n <=? 57)%Z then Some (n - 48)%Z
    else if (97 <=? n)%Z && (n <=? 102)%Z then Some (n - 87)%Z
    else if (65 <=? n)%Z && (n <=? 70)%Z then Some (n - 55)%Z
    else None in
  match d with
  | Some v => if (v <? radix)%Z then Some v else None
  | None => None
  end.

(** The longest run of digits at the head of [s], most significant
    first, and what follows it. *)
Fixpoint span_digits (radix : Z) (s : string) : list Z * string :=
  match s with
  | String c s' =>
      match digit_of radix c with
      | Some d => let '(ds, r) := span_digits radix s' in (d :: ds, r)
      | None => ([], s)
      end
  | EmptyString => ([], s)
  end.

Definition digits_value (radix : Z) (ds : list Z) : Z :=
  fold_left (fun acc d => (acc * radix + d)%Z) ds 0%Z.

(** The binary64 nearest to [num / den] (ties to even), for [0 <= num]
    and [0 < den]: the quotient is taken with 64 bits or more and a
    sticky bit, then rounded once. *)
Definition round_ratio (neg : bool) (num den : Z) : float :=
  if (num =? 0)%Z then (if neg then neg_zero else zero)
  else
    let k := (Z.log2 den + 64)%Z in
    let q := (Z.shiftl num k / den)%Z in
    let r := (Z.shiftl num k mod den)%Z in
    let m := (2 * q + (if (r =? 0)%Z then 0 else 1))%Z in
    SF2Prim (binary_normalize prec emax (if neg then - m else m) (- k - 1) neg).

(** [mant * 10 ^ e10] rounded to binary64. *)
Definition of_decimal (neg : bool) (mant e10 : Z) : float :=
  if (0 <=? e10)%Z then round_ratio neg (mant * 10 ^ e10) 1
  else round_ratio neg mant (10 ^ (- e10)).

(** ExponentPart_opt followed by the end of the text. *)
Definition parse_exponent (s : string) : option Z :=
  match s with
  | EmptyString => Some 0%Z
  | String c s1 =>
      if (byte c =? 101) || (byte c =? 69) then
        let '(neg, s2) :=
          match s1 with
          | String sg s2' =>
              if byte sg =? 45 then (true, s2')
              else if byte sg =? 43 then (false, s2')
              else (false, s1)
          | EmptyString => (false, s1)
          end in
        match span_digits 10 s2 with
        | ((_ :: _) as ds, EmptyString) =>
            let v := digits_value 10 ds in Some (if neg then (- v)%Z else v)
        | _ => None
        end
      else None
  end.

(** StrUnsignedDecimalLiteral. *)
Definition parse_unsigned_decimal (neg : bool) (s : string) : float :=
  if String.eqb s "Infinity" then (if neg then neg_infinity else infinity)
  else
    let '(ip, r1) := span_digits 10 s in
    let '(fp, r2) :=
      match r1 with
      | String c r1' => if byte c =? 46 then span_digits 10 r1' else ([], r1)
      | EmptyString => ([], r1)
      end in
    match ip, fp with
    | [], [] => nan
    | _, _ =>
        match parse_exponent r2 with
        | Some e =>
            of_decimal neg (digits_value 10 (ip ++ fp))
                       (e - Z.of_nat (List.length fp))
        | None => nan
        end
    end.

(** NonDecimalIntegerLiteral: 0x, 0o, 0b and their upper-case forms. *)
Definition parse_non_decimal (s : string) : option float :=
  match s with
  | String z (String p ds) =>
      if byte z =? 48 then
        let radix :=
          if (byte p =? 120) || (byte p =? 88) then Some 16%Z
          else if (byte p =? 111) || (byte p =? 79) then Some 8%Z
          else if (byte p =? 98) || (byte p =? 66) then Some 2%Z
          else None in
        match radix with
        | Some r =>
            Some match span_digits r ds with
                 | ((_ :: _) as v, EmptyString) => round_ratio false (digits_value r v) 1
                 | _ => nan
                 end
        | None => None
        end
      else None
  | _ => None
  end.

(** [Number(s)] for a string [s] (StringToNumber). *)
Definition Number (s : string) : float :=
  match trim s with
  | EmptyString => zero
  | String c rest as t =>
      match parse_non_decimal t with
      | Some f => f
      | None =>
          if byte c =? 45 then parse_unsigned_decimal true rest
          else if byte c =? 43 then parse_unsigned_decimal false rest
          else parse_unsigned_decimal false t
      end
  end.

(** [Number.isFinite] on a number. *)
Definition isFinite (f : float) : bool := PrimFloat.is_finite f.

End JsNumber.

(** ** Values *)

(** A JavaScript value as [JSON.parse], the style defaults and the flags
    produce them. The fields of an object are its own properties, in
    insertion order, each key once. *)
#[warnings="-register-all"]
Inductive value :=
| VUndefined
| VNull
| VBool (b : bool)
| VNum (n : float)
| VStr (s : string)
| VArr (items : list value)
| VObj (fields : list (string * value)).

Inductive jstype := TUndefined | TObject | TBoolean | TNumber | TString.

Definition typeof (v : value) : jstype :=
  match v with
  | VUndefined => TUndefined
  | VNull | VArr _ | VObj _ => TObject
  | VBool _ => TBoolean
  | VNum _ => TNumber
  | VStr _ => TString
  end.

(** [Boolean(v)]. *)
Definition Boolean (v : value) : bool :=
  match v with
  | VUndefined | VNull => false
  | VBool b => b
  | VNum n => negb (PrimFloat.is_nan n || PrimFloat.is_zero n)
  | VStr s => negb (String.eqb s "")
  | VArr _ | VObj _ => true
  end.

(** [v ?? d]. *)
Definition nullish (v d : value) : value :=
  match v with
  | VUndefined | VNull => d
  | _ => v
  end.

Fixpoint assoc (k : string) (fields : list (string * value)) : value :=
  match fields with
  | [] => VUndefined
  | (k', v) :: rest => if String.eqb k k' then v else assoc k rest
  end.

(** [o?.k] for the two properties the program reads, [style] and
    [documentType]: only an object can own them. *)
Definition get_opt (o : value) (k : string) : value :=
  match o with
  | VObj fields => assoc k fields
  | _ => VUndefined
  end.

(** The own enumerable properties that [{...v}] copies. The properties of
    an array and of a string are indexed by position (for a string, one per
    code unit; its bytes here, the same for ASCII text). *)
Definition own_entries (v : value) : list (string * value) :=
  match v with
  | VObj fields => fields
  | VArr items => imap (fun i x => (pretty i, x)) items
  | VStr s =>
      imap (fun i c => (pretty i, VStr (String c EmptyString)))
           (String.list_ascii_of_string s)
  | _ => []
  end.

(** [{...m, ...v}]: a later property replaces an earlier one. *)
Definition assign (m : gmap string value) (entries : list (string * value))
  : gmap string value :=
  foldl (fun acc kv => <[kv.1 := kv.2]> acc) m entries.

(** [Object.fromEntries]. *)
Definition fromEntries (entries : list (string * value)) : gmap string value :=
  assign ∅ entries.

(** ** Flags ([App.tsx]) *)

Record Flags := {
  output : option string;
  type : option string;
  toc : option bool;
  rtl : option bool;
  align : option string;
  style : option string;
  open : option bool;
  watch : option bool;
  verbose : option bool;
  compact : option bool
}.

(** Truthiness of an optional boolean flag. *)
Definition on (o : option bool) : bool := default false o.

(** ** Style: whitelist, defaults, merge and sanitise ([convert]) *)

Module Style.

Definition numericStyleKeys : gset string :=
  list_to_set
    [ "titleSize"; "headingSpacing"; "paragraphSpacing"; "lineSpacing";
      "heading1Size"; "heading2Size"; "heading3Size"; "heading4Size";
      "heading5Size"; "paragraphSize"; "listItemSize"; "codeBlockSize";
      "blockquoteSize"; "tocFontSize"; "tocHeading1FontSize";
      "tocHeading2FontSize"; "tocHeading3FontSize"; "tocHeading4FontSize";
      "tocHeading5FontSize" ].

Definition booleanStyleKeys : gset string :=
  list_to_set
    [ "tocHeading1Bold"; "tocHeading2Bold"; "tocHeading3Bold";
      "tocHeading4Bold"; "tocHeading5Bold"; "tocHeading1Italic";
      "tocHeading2Italic"; "tocHeading3Italic"; "tocHeading4Italic";
      "tocHeading5Italic" ].

Definition stringStyleKeys : gset string :=
  list_to_set
    [ "paragraphAlignment"; "headingAlignment"; "heading1Alignment";
      "heading2Alignment"; "heading3Alignment"; "heading4Alignment";
      "heading5Alignment"; "blockquoteAlignment"; "direction" ].

(** The keys of the three classes together. *)
Definition schema : gset string :=
  numericStyleKeys ∪ booleanStyleKeys ∪ stringStyleKeys.

(** [set.has(key)]. *)
Definition has (set : gset string) (key : string) : bool :=
  bool_decide (key ∈ set).

(** [Boolean(rc?.style) || Boolean(styleFromFile) || Boolean(flags.align)
    || Boolean(flags.rtl)]; an absent file is [undefined]. *)
Definition userWantsCustomStyle
    (rc styleFromFile : value) (flags : Flags) : bool :=
  Boolean (get_opt rc "style") || Boolean styleFromFile ||
  Str.truthy (align flags) || on (rtl flags).

#[warnings="-inexact-float"]
Definition defaultNumericStyle (custom : bool) : list (string * value) :=
  if custom then
    [ ("titleSize", VNum 32); ("headingSpacing", VNum 240);
      ("paragraphSpacing", VNum 240); ("lineSpacing", VNum 1.15);
      ("heading1Size", VNum 32); ("heading2Size", VNum 28);
      ("heading3Size", VNum 24); ("heading4Size", VNum 20);
      ("heading5Size", VNum 18); ("paragraphSize", VNum 24);
      ("listItemSize", VNum 24); ("codeBlockSize", VNum 20);
      ("blockquoteSize", VNum 24); ("tocFontSize", VNum 22) ]
  else [].

(** [x || {}] then spread. *)
Definition or_empty (v : value) : list (string * value) :=
  if Boolean v then own_entries v else [].

Definition mergedRaw (rc styleFromFile : value) (flags : Flags)
  : gmap string value :=
  let m0 := fromEntries
              (defaultNumericStyle (userWantsCustomStyle rc styleFromFile flags)) in
  let m1 := assign m0 (or_empty (get_opt rc "style")) in
  let m2 := assign m1 (or_empty styleFromFile) in
  let m3 := assign m2 (match align flags with
                       | Some (String _ _ as a) => [("paragraphAlignment", VStr a)]
                       | _ => []
                       end) in
  assign m3 (if on (rtl flags) then [("direction", VStr "RTL")] else []).

(** [typeof value === "string" ? Number(value) : value]. *)
Definition num (v : value) : value :=
  match v with
  | VStr s => VNum (JsNumber.Number s)
  | _ => v
  end.

(** [Number.isFinite(v)]: no coercion, a value that is not a number is
    not finite. *)
Definition Number_isFinite (v : value) : bool :=
  match v with
  | VNum n => JsNumber.isFinite n
  | _ => false
  end.

(** The predicate of the [filter] over [Object.entries(mergedRaw)]. *)
Definition keep (kv : string * value) : bool :=
  let '(key, v) := kv in
  if has numericStyleKeys key then Number_isFinite (num v)
  else if has booleanStyleKeys key then
    match typeof v with TBoolean => true | _ => false end
  else if has stringStyleKeys key then
    match v with
    | VStr s => Nat.ltb 0 (String.length s)
    | _ => false
    end
  else false.

(** The function of the [map] over the kept entries. *)
Definition convert_entry (kv : string * value) : string * value :=
  let '(key, v) := kv in
  if has numericStyleKeys key then (key, num v) else (key, v).

Definition sanitizedStyleEntries (merged : gmap string value)
  : list (string * value) :=
  List.filter keep (map_to_list merged).

Definition sanitizedStyle (merged : gmap string value) : gmap string value :=
  fromEntries (List.map convert_entry (sanitizedStyleEntries merged)).

End Style.

(** ** Table of contents marker and converter options ([convert]) *)

Definition nl : string := String (Ascii.ascii_of_nat 10) EmptyString.

Definition tocMarker : string := "[TOC]".

(** The template [`\n[TOC]\n\n${markdown}`]. *)
Definition withToc (markdown : string) : string :=
  nl +:+ tocMarker +:+ nl +:+ nl +:+ markdown.

Definition effectiveMarkdown (flags : Flags) (markdown : string) : string :=
  if on (toc flags) && negb (Str.includes tocMarker markdown)
  then withToc markdown
  else markdown.

(** [Options] of the converter library. *)
Record Options := {
  documentType : value;
  styleOption : option (gmap string value)
}.

Definition flagValue (o : option string) : value :=
  match o with
  | Some s => VStr s
  | None => VUndefined
  end.

(** [flags.type ?? rc?.documentType ?? "document"]; the style is passed
    only when the user asked for one and an entry survived. *)
Definition options (rc styleFromFile : value) (flags : Flags) : Options :=
  let sanitized := Style.sanitizedStyle (Style.mergedRaw rc styleFromFile flags) in
  {| documentType :=
       nullish (nullish (flagValue (type flags)) (get_opt rc "documentType"))
               (VStr "document");
     styleOption :=
       if Style.userWantsCustomStyle rc styleFromFile flags
          && negb (Nat.eqb (size sanitized) 0)
       then Some sanitized
       else None |}.

(** ** [node:path], POSIX flavour *)

Module Path.

Definition sep : string := "/".

Definition is_sep (c : Ascii.ascii) : bool := Ascii.eqb c "/"%char.
Definition is_dot (c : Ascii.ascii) : bool := Ascii.eqb c "."%char.

Definition chars (s : string) : list Ascii.ascii := String.list_ascii_of_string s.
Definition text (cs : list Ascii.ascii) : string := String.string_of_list_ascii cs.

(** The stretches between separators: ["a//b"] gives [a], [], [b]. *)
Fixpoint split (cs : list Ascii.ascii) : list (list Ascii.ascii) :=
  match cs with
  | [] => [[]]
  | c :: rest =>
      let segs := split rest in
      if is_sep c then [] :: segs
      else match segs with
           | seg :: others => (c :: seg) :: others
           | [] => [[c]]
           end
  end.

(** One step of [normalizeString]: [res] holds the segments kept so far,
    the last one first. *)
Definition push_segment (allowAboveRoot : bool)
    (res : list string) (seg : string) : list string :=
  if String.eqb seg "" || String.eqb seg "." then res
  else if String.eqb seg ".." then
    match res with
    | last :: before =>
        if String.eqb last ".."
        then (if allowAboveRoot then ".." :: res else res)
        else before
    | [] => if allowAboveRoot then [".."] else []
    end
  else seg :: res.

Definition normalizeString (path : string) (allowAboveRoot : bool) : string :=
  String.concat sep
    (List.rev (foldl (push_segment allowAboveRoot) []
                     (List.map text (split (chars path))))).

Definition isAbsolute (path : string) : bool :=
  match path with
  | String c _ => is_sep c
  | EmptyString => false
  end.

Definition normalize (path : string) : string :=
  if String.eqb path "" then "."
  else
    let absolute := isAbsolute path in
    let trailingSeparator := Str.endsWith sep path in
    let p := normalizeString path (negb absolute) in
    if String.eqb p "" then
      (if absolute then "/" else if trailingSeparator then "./" else ".")
    else
      (if absolute then "/" else "") +:+ p +:+
      (if trailingSeparator then "/" else "").

Definition join (args : list string) : string :=
  match List.filter (fun a => negb (String.eqb a "")) args with
  | [] => "."
  | parts => normalize (String.concat sep parts)
  end.

Record Parsed := { root : string; dir : string; base : string;
                   ext : string; name : string }.

Fixpoint take_until (p : Ascii.ascii -> bool) (cs : list Ascii.ascii)
  : list Ascii.ascii * list Ascii.ascii :=
  match cs with
  | [] => ([], [])
  | c :: rest =>
      if p c then ([], cs)
      else let '(a, b) := take_until p rest in (c :: a, b)
  end.

Fixpoint drop_seps (cs : list Ascii.ascii) : list Ascii.ascii :=
  match cs with
  | c :: rest => if is_sep c then drop_seps rest else cs
  | [] => []
  end.

(** Name and extension of a base name, read from its end as [parse]
    does: the extension starts at the last dot, unless that dot opens
    the base name or the base name is [..]. *)
Definition split_ext (rbase : list Ascii.ascii) : string * string :=
  let whole := text (List.rev rbase) in
  match take_until is_dot rbase with
  | (rext, _dot :: rname) =>
      match List.rev rname with
      | [] => (whole, "")
      | first :: _ =>
          if is_dot first
             && Nat.eqb (List.length rext) 0 && Nat.eqb (List.length rname) 1
          then (whole, "")
          else (text (List.rev rname), text (_dot :: List.rev rext))
      end
  | (_, []) => (whole, "")
  end.

(** [path.parse]: the scan runs from the end of the path, skips the
    trailing separators, collects the base name up to the separator
    before it, and the directory is what precedes that separator. *)
Definition parse (path : string) : Parsed :=
  let absolute := isAbsolute path in
  let body := if absolute then List.tail (chars path) else chars path in
  let '(rbase, rrest) := take_until is_sep (drop_seps (List.rev body)) in
  let '(nm, ex) := split_ext rbase in
  {| root := if absolute then "/" else "";
     dir := match rrest with
            | _ :: rdir => (if absolute then "/" else "") +:+ text (List.rev rdir)
            | [] => if absolute then "/" else ""
            end;
     base := text (List.rev rbase);
     ext := ex;
     name := nm |}.

End Path.

(** ** Output path ([resolveOutputPath] and its use in [convert]) *)

Definition docxName (inPath : string) : string :=
  Path.name (Path.parse inPath) +:+ ".docx".

Definition resolveOutputPath (inPath : string) (desired : option string) : string :=
  match desired with
  | Some (String _ _ as d) =>
      if Str.endsWith Path.sep d then Path.join [d; docxName inPath] else d
  | _ =>
      let p := Path.parse inPath in
      Path.join [Path.dir p; Path.name p +:+ ".docx"]
  end.

(** ** The world outside the program *)

Inductive StatKind := IsFile | IsDirectory | IsOther.

(** Outcome of [readFile(path, "utf8")]: the text, an error whose code is
    [ENOENT], or another error; errors carry their message. *)
Inductive ReadResult :=
| ReadOk (text : string)
| ReadNoEntry (message : string)
| ReadFailed (message : string).

Definition Blob := string.

(** What the file system, [JSON.parse], the converter library, the [open]
    package and [fs.watch] answer. A thrown error is given by its message. *)
Record World := {
  stat : string -> option StatKind;
  readFile : string -> ReadResult;
  JSON_parse : string -> string + value;
  convertMarkdownToDocx : string -> Options -> string + Blob;
  writeFile : string -> Blob -> option string;
  openFile : string -> option string;
  watchFile : string -> option string
}.

(** [tryStat]: [null] when [stat] throws. *)
Definition tryStat (w : World) (p : string) : option StatKind := stat w p.

Definition jsonError (filePath message : string) : string :=
  "Failed to read or parse JSON: " +:+ filePath +:+ nl +:+ message.

(** [loadJsonIfExists]: [undefined] for no path and for a missing file, an
    error for a file that cannot be read or parsed. *)
Definition loadJsonIfExists (w : World) (filePath : option string) : string + value :=
  match filePath with
  | Some (String _ _ as p) =>
      match readFile w p with
      | ReadOk text =>
          match JSON_parse w text with
          | inr v => inr v
          | inl message => inl (jsonError p message)
          end
      | ReadNoEntry _ => inr VUndefined
      | ReadFailed message => inl (jsonError p message)
      end
  | _ => inr VUndefined
  end.

(** The output path as [convert] computes it: [resolveOutputPath], then the
    check that the desired output is a directory on disk. *)
Definition outputPath (w : World) (flags : Flags) (inPath : string) : string :=
  let outPath := resolveOutputPath inPath (output flags) in
  match output flags with
  | Some (String _ _ as o) =>
      match tryStat w o with
      | Some IsDirectory => Path.join [o; docxName inPath]
      | _ => outPath
      end
  | _ => outPath
  end.

(** ** The state of [App] and the calls it makes *)

(** The status line; each constructor stands for one message of
    [setStatus]. *)
#[warnings="-register-all"]
Inductive Status :=
| Validating
| Reading
| Preparing
| Converting (detail : option (value * bool * bool))
| Writing (outPath : option string)
| Done (outPath : string)
| Opening (outPath : string)
| Watching (prev : option Status).

(** Calls that change the world. *)
Inductive Call :=
| CallWriteFile (path : string) (data : Blob)
| CallOpenFile (path : string)
| CallWatchFile (path : string).

Record Session := {
  status : option Status;
  error : option string;
  busy : bool;
  fileWatcherRef : option string;
  debounceTimerRef : option nat;
  calls : list Call
}.

Definition initialSession : Session :=
  {| status := None; error := None; busy := false;
     fileWatcherRef := None; debounceTimerRef := None; calls := [] |}.

(** State and exceptions: a computation ends with a value or with the
    message of the error it threw; the state written before a throw stays. *)
Module M.

Definition t (A : Type) : Type := Session -> Session * (string + A).

Definition ret {A} (a : A) : t A := fun s => (s, inr a).

Definition bind {A B} (m : t A) (k : A -> t B) : t B :=
  fun s =>
    match m s with
    | (s', inr a) => k a s'
    | (s', inl e) => (s', inl e)
    end.

Definition throw {A} (e : string) : t A := fun s => (s, inl e).

Definition lift {A} (r : string + A) : t A :=
  match r with
  | inr a => ret a
  | inl e => throw e
  end.

(** A call that returns nothing and may throw. *)
Definition attempt (r : option string) : t unit :=
  match r with
  | None => ret tt
  | Some e => throw e
  end.

Definition try_catch (m : t unit) (handler : string -> t unit) : t unit :=
  fun s =>
    match m s with
    | (s', inl e) => handler e s'
    | done => done
    end.

Definition finally (m : t unit) (cleanup : t unit) : t unit :=
  fun s =>
    match m s with
    | (s', r) => (fst (cleanup s'), r)
    end.

Definition get : t Session := fun s => (s, inr s).

Definition modify (f : Session -> Session) : t unit := fun s => (f s, inr tt).

Definition when (b : bool) (m : t unit) : t unit := if b then m else ret tt.

End M.

Notation "'let*' x ':=' m 'in' k" := (M.bind m (fun x => k))
  (at level 10, x name, m at level 100, k at level 200).
Notation "m ';;' k" := (M.bind m (fun _ => k))
  (at level 100, k at level 200, right associativity).

Definition setStatusWith (f : option Status -> option Status) : M.t unit :=
  M.modify (fun s =>
    {| status := f (status s); error := error s; busy := busy s;
       fileWatcherRef := fileWatcherRef s;
       debounceTimerRef := debounceTimerRef s; calls := calls s |}).

Definition setStatus (v : option Status) : M.t unit := setStatusWith (fun _ => v).

Definition setError (v : option string) : M.t unit :=
  M.modify (fun s =>
    {| status := status s; error := v; busy := busy s;
       fileWatcherRef := fileWatcherRef s;
       debounceTimerRef := debounceTimerRef s; calls := calls s |}).

Definition setBusy (v : bool) : M.t unit :=
  M.modify (fun s =>
    {| status := status s; error := error s; busy := v;
       fileWatcherRef := fileWatcherRef s;
       debounceTimerRef := debounceTimerRef s; calls := calls s |}).

Definition setFileWatcher (v : option string) : M.t unit :=
  M.modify (fun s =>
    {| status := status s; error := error s; busy := busy s;
       fileWatcherRef := v;
       debounceTimerRef := debounceTimerRef s; calls := calls s |}).

Definition setDebounceTimer (v : option nat) (s : Session) : Session :=
  {| status := status s; error := error s; busy := busy s;
     fileWatcherRef := fileWatcherRef s;
     debounceTimerRef := v; calls := calls s |}.

Definition call (c : Call) : M.t unit :=
  M.modify (fun s =>
    {| status := status s; error := error s; busy := busy s;
       fileWatcherRef := fileWatcherRef s;
       debounceTimerRef := debounceTimerRef s; calls := calls s ++ [c] |}).

(** ** [convert] *)

Definition rcFile : string := ".mdtodocxrc.json".

(** The status while converting; the verbose one shows the type and the
    rtl and toc flags. *)
Definition convertingStatus (flags : Flags) (opts : Options) : Status :=
  Converting (if on (verbose flags)
              then Some (documentType opts, on (rtl flags), on (toc flags))
              else None).

Definition inputNotFound (inPath : string) : string :=
  "Input not found or not a file: " +:+ inPath.

Definition watcherFailed (message : string) : string :=
  "Failed to start file watcher: " +:+ message.

(** The [try] block of [convert]. *)
Definition convertBody (w : World) (flags : Flags) (inPath : string) : M.t unit :=
  setBusy true ;;
  setError None ;;
  setStatus (Some Validating) ;;
  (match tryStat w inPath with
   | Some IsFile => M.ret tt
   | _ => M.throw (inputNotFound inPath)
   end) ;;
  setStatus (Some Reading) ;;
  let* markdown :=
    match readFile w inPath with
    | ReadOk text => M.ret text
    | ReadNoEntry message | ReadFailed message => M.throw message
    end in
  setStatus (Some Preparing) ;;
  let* rc := M.lift (loadJsonIfExists w (Some rcFile)) in
  let* styleFromFile := M.lift (loadJsonIfExists w (style flags)) in
  let opts := options rc styleFromFile flags in
  setStatus (Some (convertingStatus flags opts)) ;;
  let* blob :=
    M.lift (convertMarkdownToDocx w (effectiveMarkdown flags markdown) opts) in
  let outPath := outputPath w flags inPath in
  setStatus (Some (Writing (if on (verbose flags) then Some outPath else None))) ;;
  call (CallWriteFile outPath blob) ;;
  M.attempt (writeFile w outPath blob) ;;
  setStatus (Some (Done outPath)) ;;
  M.when (on (open flags))
    (setStatus (Some (Opening outPath)) ;;
     call (CallOpenFile outPath) ;;
     M.attempt (openFile w outPath)) ;;
  let* s := M.get in
  M.when (on (watch flags) && negb (bool_decide (is_Some (fileWatcherRef s))))
    (M.try_catch
       (call (CallWatchFile inPath) ;;
        M.attempt (watchFile w inPath) ;;
        setFileWatcher (Some inPath) ;;
        setStatusWith (fun prev => Some (Watching prev)))
       (fun message =>
          setStatus None ;;
          setError (Some (watcherFailed message)))).

(** [convert]: the [catch] stores the message of whatever was thrown, the
    [finally] clears [busy]. *)
Definition convert (w : World) (flags : Flags) (inPath : string) : M.t unit :=
  M.finally
    (M.try_catch (convertBody w flags inPath) (fun e => setError (Some e)))
    (setBusy false).

(** The session after one call of [convert]. *)
Definition runConvert (w : World) (flags : Flags) (inPath : string)
    (s : Session) : Session :=
  fst (convert w flags inPath s).

(** *** Outcomes of the phases, read off the world *)

(** A phase before the write fails: the status it leaves and the message
    of the error. *)
Inductive PrePersistFailure (w : World) (flags : Flags) (inPath : string)
  : Status -> string -> Prop :=
| InputNotFound :
    tryStat w inPath <> Some IsFile ->
    PrePersistFailure w flags inPath Validating (inputNotFound inPath)
| ReadError (message : string) :
    tryStat w inPath = Some IsFile ->
    readFile w inPath = ReadNoEntry message \/
    readFile w inPath = ReadFailed message ->
    PrePersistFailure w flags inPath Reading message
| ConfigParseError (markdown message : string) :
    tryStat w inPath = Some IsFile ->
    readFile w inPath = ReadOk markdown ->
    loadJsonIfExists w (Some rcFile) = inl message ->
    PrePersistFailure w flags inPath Preparing message
| StyleParseError (markdown message : string) (rc : value) :
    tryStat w inPath = Some IsFile ->
    readFile w inPath = ReadOk markdown ->
    loadJsonIfExists w (Some rcFile) = inr rc ->
    loadJsonIfExists w (style flags) = inl message ->
    PrePersistFailure w flags inPath Preparing message
| ConversionFailed (markdown message : string) (rc styleFromFile : value) :
    tryStat w inPath = Some IsFile ->
    readFile w inPath = ReadOk markdown ->
    loadJsonIfExists w (Some rcFile) = inr rc ->
    loadJsonIfExists w (style flags) = inr styleFromFile ->
    convertMarkdownToDocx w (effectiveMarkdown flags markdown)
                          (options rc styleFromFile flags) = inl message ->
    PrePersistFailure w flags inPath
      (convertingStatus flags (options rc styleFromFile flags)) message.

(** Every phase up to and including the write succeeds: [blob] is what
    the converter returned and the write put at the output path. *)
Inductive Persisted (w : World) (flags : Flags) (inPath : string)
  : Blob -> Prop :=
| PersistedOk (markdown : string) (rc styleFromFile : value) (blob : Blob) :
    tryStat w inPath = Some IsFile ->
    readFile w inPath = ReadOk markdown ->
    loadJsonIfExists w (Some rcFile) = inr rc ->
    loadJsonIfExists w (style flags) = inr styleFromFile ->
    convertMarkdownToDocx w (effectiveMarkdown flags markdown)
                          (options rc styleFromFile flags) = inr blob ->
    writeFile w (outputPath w flags inPath) blob = None ->
    Persisted w flags inPath blob.

(** ** The flags as the command-line entry hands them over *)

Module Cli.

(** The flags typed on the command line; [interactive] is read by the
    command line only. *)
Record Given := {
  given : Flags;
  interactive : option bool;
  input : option string
}.

(** The [default] of each declared flag applies when the flag is not
    typed: [type] is ["document"], every boolean flag is [false];
    [output], [align] and [style] have none. *)
Definition flags (g : Given) : Flags :=
  let f := given g in
  {| output := output f;
     type := Some (default "document" (type f));
     toc := Some (default false (toc f));
     rtl := Some (default false (rtl f));
     align := align f;
     style := style f;
     open := Some (default false (open f));
     watch := Some (default false (watch f));
     verbose := Some (default false (verbose f));
     compact := Some (default false (compact f)) |}.

Definition shouldUseWizard (g : Given) : bool :=
  default false (interactive g) || negb (Str.truthy (input g)).

Definition nothingTyped : Flags :=
  {| output := None; type := None; toc := None; rtl := None; align := None;
     style := None; open := None; watch := None; verbose := None;
     compact := None |}.

End Cli.

(** ** The watcher, its debounce timer and the event loop *)

Module Loop.

Record Timer := { id : nat; due : Z }.

(** The session of [App], the timers that are set and not yet run or
    cleared, the next timer id, and the times at which a timer called
    [convert] again. *)
Record t := {
  session : Session;
  timers : list Timer;
  nextTimer : nat;
  reconversions : list Z
}.

Definition debounceDelay : Z := 200.

Definition withSession (f : Session -> Session) (l : t) : t :=
  {| session := f (session l); timers := timers l;
     nextTimer := nextTimer l; reconversions := reconversions l |}.

Definition clearTimeout (i : nat) (l : t) : t :=
  {| session := session l;
     timers := List.filter (fun tm => negb (Nat.eqb (id tm) i)) (timers l);
     nextTimer := nextTimer l; reconversions := reconversions l |}.

Definition setTimeout (now delay : Z) (l : t) : nat * t :=
  (nextTimer l,
   {| session := session l;
      timers := timers l ++ [{| id := nextTimer l; due := now + delay |}];
      nextTimer := S (nextTimer l); reconversions := reconversions l |}).

(** The listener given to [watchFile]. *)
Definition onChange (now : Z) (l : t) : t :=
  let l1 := match debounceTimerRef (session l) with
            | Some i => clearTimeout i l
            | None => l
            end in
  let '(i, l2) := setTimeout now debounceDelay l1 in
  withSession (setDebounceTimer (Some i)) l2.

(** The callback of the timer: [void convert(inPath)]. *)
Definition onTimer (w : World) (flags : Flags) (inPath : string)
    (now : Z) (l : t) : t :=
  {| session := runConvert w flags inPath (session l);
     timers := timers l; nextTimer := nextTimer l;
     reconversions := reconversions l ++ [now] |}.

Definition expired (now : Z) (tm : Timer) : bool := (due tm <=? now)%Z.

(** The loop reaches its timers at time [now]: each expired timer is
    taken off and its callback runs. *)
Definition turn (w : World) (flags : Flags) (inPath : string)
    (now : Z) (l : t) : t :=
  let ready := List.filter (expired now) (timers l) in
  let l' := {| session := session l;
               timers := List.filter (fun tm => negb (expired now tm)) (timers l);
               nextTimer := nextTimer l; reconversions := reconversions l |} in
  foldl (fun acc _ => onTimer w flags inPath now acc) l' ready.

(** A change notification of the watched file, or a turn of the loop,
    at a time in milliseconds. *)
Inductive Event := Change (now : Z) | Turn (now : Z).

Definition time (e : Event) : Z :=
  match e with Change now | Turn now => now end.

(** A notification reaches the listener only if a watcher is installed. *)
Definition step (w : World) (flags : Flags) (inPath : string)
    (l : t) (e : Event) : t :=
  match e with
  | Change now =>
      if bool_decide (is_Some (fileWatcherRef (session l)))
      then onChange now l else l
  | Turn now => turn w flags inPath now l
  end.

Definition run (w : World) (flags : Flags) (inPath : string)
    (l : t) (events : list Event) : t :=
  foldl (step w flags inPath) l events.

(** [App] after its first [convert], before any event. *)
Definition start (w : World) (flags : Flags) (inPath : string) : t :=
  {| session := runConvert w flags inPath initialSession;
     timers := []; nextTimer := 0; reconversions := [] |}.

(** Times do not go back, starting from [from]. *)
Fixpoint ordered (from : Z) (events : list Event) : bool :=
  match events with
  | [] => true
  | e :: rest => (from <=? time e)%Z && ordered (time e) rest
  end.


(** When the timer of the last notification is due. *)
Fixpoint lastDue (d : Z) (events : list Event) : Z :=
  match events with
  | [] => d
  | Change now :: rest => lastDue (now + debounceDelay) rest
  | Turn _ :: rest => lastDue d rest
  end.




End Loop.

(** ** The wizard ([Wizard.tsx]) *)

Module Step.
Inductive t :=
| welcome | pickType | toc | rtl | align | style | output | watch
| verbose | open | confirm | run.

Definition eqb (a b : t) : bool :=
  match a, b with
  | welcome, welcome | pickType, pickType | toc, toc | rtl, rtl
  | align, align | style, style | output, output | watch, watch
  | verbose, verbose | open, open | confirm, confirm | run, run => true
  | _, _ => false
  end.
End Step.

Module Wizard.

Definition stepOrder : list Step.t :=
  [ Step.welcome; Step.pickType; Step.toc; Step.rtl; Step.align; Step.style;
    Step.output; Step.watch; Step.verbose; Step.open; Step.confirm; Step.run ].

Record State := {
  step : Step.t;
  inputPath : string;
  flags : Flags
}.

Definition initial (initialInputPath : option string) (initialFlags : Flags) : State :=
  {| step := Step.welcome;
     inputPath := default "" initialInputPath;
     flags := initialFlags |}.

Definition setStep (s : Step.t) (st : State) : State :=
  {| step := s; inputPath := inputPath st; flags := flags st |}.

Definition setInputPath (p : string) (st : State) : State :=
  {| step := step st; inputPath := p; flags := flags st |}.

(** [setFlag(key, value)], one case per key the wizard sets. *)
Inductive FlagUpdate :=
| SetType (v : option string)
| SetToc (v : option bool)
| SetRtl (v : option bool)
| SetAlign (v : option string)
| SetStyle (v : option string)
| SetOutput (v : option string)
| SetWatch (v : option bool)
| SetVerbose (v : option bool)
| SetOpen (v : option bool).

Definition updateFlags (u : FlagUpdate) (f : Flags) : Flags :=
  {| output := match u with SetOutput v => v | _ => output f end;
     type := match u with SetType v => v | _ => type f end;
     toc := match u with SetToc v => v | _ => toc f end;
     rtl := match u with SetRtl v => v | _ => rtl f end;
     align := match u with SetAlign v => v | _ => align f end;
     style := match u with SetStyle v => v | _ => style f end;
     open := match u with SetOpen v => v | _ => open f end;
     watch := match u with SetWatch v => v | _ => watch f end;
     verbose := match u with SetVerbose v => v | _ => verbose f end;
     compact := compact f |}.

Definition setFlag (u : FlagUpdate) (st : State) : State :=
  {| step := step st; inputPath := inputPath st;
     flags := updateFlags u (flags st) |}.

Definition next (s : Step.t) (st : State) : State := setStep s st.

(** [stepOrder.indexOf(step)]. *)
Fixpoint indexOf (s : Step.t) (l : list Step.t) (i : Z) : Z :=
  match l with
  | [] => (-1)%Z
  | x :: rest => if Step.eqb x s then i else indexOf s rest (i + 1)%Z
  end.

(** [stepOrder[Math.max(0, idx - 1)]]. *)
Definition goPrev (st : State) : State :=
  let idx := indexOf (step st) stepOrder 0 in
  match stepOrder !! Z.to_nat (Z.max 0 (idx - 1)) with
  | Some prev => setStep prev st
  | None => st
  end.

(** The value of an entry of a [SelectInput]. *)
Inductive ItemValue := IStr (s : string) | IBool (b : bool) | IUndefined.

Definition navItems : list ItemValue :=
  [ IStr "__nav_back__"; IStr "__nav_cancel__" ].
Definition itemsType : list ItemValue := [ IStr "document"; IStr "report" ].
Definition itemsYesNo : list ItemValue := [ IBool true; IBool false ].
Definition itemsAlign : list ItemValue :=
  [ IStr "LEFT"; IStr "RIGHT"; IStr "CENTER"; IStr "JUSTIFIED"; IUndefined ].

Definition asString (v : ItemValue) : option string :=
  match v with IStr s => Some s | _ => None end.
Definition asBool (v : ItemValue) : option bool :=
  match v with IBool b => Some b | _ => None end.

(** The [onSelect] that [withNav] builds around the step's own. *)
Definition withNav (onSelect : ItemValue -> State -> State)
    (item : ItemValue) (st : State) : State :=
  match item with
  | IStr "__nav_back__" => goPrev st
  | IStr "__nav_cancel__" => setStep Step.welcome st
  | _ => onSelect item st
  end.

(** The entries shown at a step and what selecting one does. *)
Definition menu (s : Step.t)
  : option (list ItemValue * (ItemValue -> State -> State)) :=
  match s with
  | Step.pickType =>
      Some (itemsType, fun v st => next Step.toc (setFlag (SetType (asString v)) st))
  | Step.toc =>
      Some (itemsYesNo, fun v st => next Step.rtl (setFlag (SetToc (asBool v)) st))
  | Step.rtl =>
      Some (itemsYesNo, fun v st => next Step.align (setFlag (SetRtl (asBool v)) st))
  | Step.align =>
      Some (itemsAlign, fun v st => next Step.style (setFlag (SetAlign (asString v)) st))
  | Step.watch =>
      Some (itemsYesNo, fun v st => next Step.verbose (setFlag (SetWatch (asBool v)) st))
  | Step.verbose =>
      Some (itemsYesNo, fun v st => next Step.open (setFlag (SetVerbose (asBool v)) st))
  | Step.open =>
      Some (itemsYesNo, fun v st => next Step.confirm (setFlag (SetOpen (asBool v)) st))
  | _ => None
  end.

(** [v || undefined]. *)
Definition orUndefined (v : string) : option string :=
  match v with
  | EmptyString => None
  | _ => Some v
  end.

(** [toLowerCase] on the letters A to Z; no other character lowers to
    one of the letters the shortcuts test. *)
Definition lowerChar (c : Ascii.ascii) : Ascii.ascii :=
  let n := Ascii.nat_of_ascii c in
  if Nat.leb 65 n && Nat.leb n 90 then Ascii.ascii_of_nat (n + 32) else c.

Fixpoint toLowerCase (s : string) : string :=
  match s with
  | EmptyString => EmptyString
  | String c rest => String (lowerChar c) (toLowerCase rest)
  end.

(** The handler of [useInput]: b or Esc goes back, c or q cancels, r
    runs from [confirm]. *)
Definition onKey (input : string) (escape : bool) (st : State) : State :=
  if escape || String.eqb (toLowerCase input) "b" then goPrev st
  else if String.eqb (toLowerCase input) "c" || String.eqb (toLowerCase input) "q"
  then setStep Step.welcome st
  else if String.eqb (toLowerCase input) "r" && Step.eqb (step st) Step.confirm
  then next Step.run st
  else st.

(** What the user does: choose the entry at a position of the list on
    screen (the two navigation entries come first), pick a file, edit or
    submit the text field, press a key. *)
Inductive Action :=
| Select (position : nat)
| PickFile (fullPath : string)
| Edit (v : string)
| Submit
| Key (input : string) (escape : bool).

Definition dispatch (a : Action) (st : State) : State :=
  match a with
  | Select position =>
      match menu (step st) with
      | Some (items, onSelect) =>
          match ((navItems ++ items)%list) !! position with
          | Some item => withNav onSelect item st
          | None => st
          end
      | None => st
      end
  | PickFile fullPath =>
      match step st with
      | Step.welcome => next Step.pickType (setInputPath fullPath st)
      | _ => st
      end
  | Edit v =>
      match step st with
      | Step.style => setFlag (SetStyle (orUndefined v)) st
      | Step.output => setFlag (SetOutput (orUndefined v)) st
      | _ => st
      end
  | Submit =>
      match step st with
      | Step.style => next Step.output st
      | Step.output => next Step.watch st
      | Step.confirm => next Step.run st
      | _ => st
      end
  | Key input escape => onKey input escape st
  end.


End Wizard.

(** ** More of the style merge: one source at a time *)

Module Layers.

(** The value a list of entries gives a key when it is spread into an
    object: the last entry with that key. *)
Fixpoint lastEntry (k : string) (entries : list (string * value)) : option value :=
  match entries with
  | [] => None
  | (k', v) :: rest =>
      match lastEntry k rest with
      | Some v' => Some v'
      | None => if String.eqb k k' then Some v else None
      end
  end.

(** The five sources of [mergedRaw], the strongest first: the rtl flag,
    the align flag, the style file, the style block of the config file,
    the numeric defaults. *)
Definition sources (rc styleFromFile : value) (flags : Flags)
  : list (list (string * value)) :=
  [ if on (rtl flags) then [("direction", VStr "RTL")] else [];
    match align flags with
    | Some (String _ _ as a) => [("paragraphAlignment", VStr a)]
    | _ => []
    end;
    Style.or_empty styleFromFile;
    Style.or_empty (get_opt rc "style");
    Style.defaultNumericStyle (Style.userWantsCustomStyle rc styleFromFile flags) ].

(** The first source, in that order, that has the key. *)
Fixpoint firstOf (k : string) (layers : list (list (string * value))) : option value :=
  match layers with
  | [] => None
  | layer :: weaker =>
      match lastEntry k layer with
      | Some v => Some v
      | None => firstOf k weaker
      end
  end.

End Layers.

(** ** Reading a run of [convert] *)

Definition isWatchCall (c : Call) : bool :=
  match c with
  | CallWatchFile _ => true
  | _ => false
  end.

(** The test before the watcher is set up:
    [flags.watch && !fileWatcherRef.current]. *)
Definition installsWatcher (flags : Flags) (s : Session) : bool :=
  on (watch flags) && negb (bool_decide (is_Some (fileWatcherRef s))).

(** ** What [App] shows ([App]'s render, the four status blocks) *)

Module View.

Inductive Banner :=
| Working (status : option Status)
| Info (done : bool) (status : Status)
| ErrorBanner (message : string)
| Ready.

(** [status.startsWith("Done:")], on the messages the statuses stand
    for: only [Done: ...] starts so, and the watching message starts
    with the message it was appended to. *)
Fixpoint startsWithDone (st : Status) : bool :=
  match st with
  | Done _ => true
  | Watching (Some prev) => startsWithDone prev
  | _ => false
  end.

(** [ready] is [Boolean(pathValue)]. A status is a non-empty text, so it
    is truthy when set; an error is truthy when set and not empty. *)
Definition banners (pathValue : string) (s : Session) : list Banner :=
  ((if busy s then [Working (status s)] else []) ++
   (match status s with
    | Some st =>
        if negb (busy s) && negb (Str.truthy (error s))
        then [Info (startsWithDone st) st] else []
    | None => []
    end) ++
   (match error s with
    | Some (String _ _ as message) => [ErrorBanner message]
    | _ => []
    end) ++
   (if negb (busy s) && negb (bool_decide (is_Some (status s)))
       && negb (Str.truthy (error s)) && Str.truthy (Some pathValue)
    then [Ready] else []))%list.

End View.

(** ** The live check of the typed path ([App], second effect) *)

Module PathEntry.

Record Check := {
  pathCheckMessage : option string;
  pathIsValid : option bool
}.

(** The callback of the validation timer. [tryStat] never throws, so the
    [catch] around it has nothing to catch. *)
Definition validate (w : World) (pathValue : string) : Check :=
  match tryStat w pathValue with
  | Some IsFile =>
      {| pathCheckMessage := Some "Looks good. Press Enter to convert.";
         pathIsValid := Some true |}
  | Some _ =>
      {| pathCheckMessage := Some "Path exists but is not a file.";
         pathIsValid := Some false |}
  | None =>
      {| pathCheckMessage := Some "File not found.";
         pathIsValid := Some false |}
  end.

(** The effect on [pathValue], once its timer has run: nothing when the
    path came from the command line or the wizard, a reset for an empty
    text, the check otherwise. *)
Definition effect (w : World) (inputPath : option string) (pathValue : string)
    (before : Check) : Check :=
  if Str.truthy inputPath then before
  else if negb (Str.truthy (Some pathValue))
  then {| pathCheckMessage := None; pathIsValid := None |}
  else validate w pathValue.

End PathEntry.

(** ** Unmounting [App] (the cleanup of its first effect) *)

Module Lifecycle.



End Lifecycle.

(** ** More of the wizard: position, progress, what it hands to [App] *)

Module WizardView.

(** The index of the current step in [stepOrder]. *)
Definition stepIndex (st : Wizard.State) : Z :=
  Wizard.indexOf (Wizard.step st) Wizard.stepOrder 0.

(** [progress]: [run] is left out of the total. *)
Definition progress (st : Wizard.State) : Z * Z :=
  let idx := stepIndex st in
  let total := (Z.of_nat (length Wizard.stepOrder) - 1)%Z in
  (Z.min (idx + 1) total, total).

(** The wizard after a sequence of actions. *)
Definition after (actions : list Wizard.Action) (st : Wizard.State) : Wizard.State :=
  foldl (fun acc a => Wizard.dispatch a acc) st actions.

(** At [run] the wizard renders [App] with its input path and flags. *)
Definition handsOver (st : Wizard.State) : option (string * Flags) :=
  match Wizard.step st with
  | Step.run => Some (Wizard.inputPath st, Wizard.flags st)
  | _ => None
  end.


(** One pass through the wizard: the file picked, the entry chosen in
    each menu, the texts left in the two text fields. *)
Record Choices := {
  pick : string;
  report : bool;
  tocYes : bool;
  rtlYes : bool;
  alignEntry : nat;
  styleText : string;
  outputText : string;
  watchYes : bool;
  verboseYes : bool;
  openYes : bool
}.

(** Yes is the first entry after the two navigation entries, No the
    second. *)
Definition yesNo (yes : bool) : Wizard.Action :=
  Wizard.Select (if yes then 2 else 3).

Definition walk (c : Choices) : list Wizard.Action :=
  [ Wizard.PickFile (pick c);
    Wizard.Select (if report c then 3 else 2);
    yesNo (tocYes c);
    yesNo (rtlYes c);
    Wizard.Select (2 + alignEntry c);
    Wizard.Edit (styleText c); Wizard.Submit;
    Wizard.Edit (outputText c); Wizard.Submit;
    yesNo (watchYes c);
    yesNo (verboseYes c);
    yesNo (openYes c);
    Wizard.Submit ].

(** The flags that say what was chosen; [compact] is not asked. *)
Definition chosen (c : Choices) (before : Flags) : Flags :=
  {| output := Wizard.orUndefined (outputText c);
     type := Some (if report c then "report" else "document");
     toc := Some (tocYes c);
     rtl := Some (rtlYes c);
     align := default None
                ([Some "LEFT"; Some "RIGHT"; Some "CENTER"; Some "JUSTIFIED"; None]
                   !! alignEntry c);
     style := Wizard.orUndefined (styleText c);
     open := Some (openYes c);
     watch := Some (watchYes c);
     verbose := Some (verboseYes c);
     compact := compact before |}.

End WizardView.

(** ** [path.dirname], POSIX flavour *)

Module PathDir.

(** The scan runs from the end of the path down to its second character:
    it skips the trailing separators and the last component, and the
    result is what stands before the separator it then meets. *)
Definition dirname (path : string) : string :=
  match Path.chars path with
  | [] => "."
  | c0 :: tail =>
      let hasRoot := Path.is_sep c0 in
      match Path.take_until Path.is_sep (Path.drop_seps (List.rev tail)) with
      | (_, _ :: rdir) =>
          match rdir with
          | [] => if hasRoot then "//" else Path.text [c0]
          | _ => Path.text (c0 :: List.rev rdir)
          end
      | (_, []) => if hasRoot then "/" else "."
      end
  end.

End PathDir.

(** ** The file picker ([FilePicker.tsx]) *)

Module FilePicker.

(** An entry of [readdir(dir, {withFileTypes: true})]. *)
Record Dirent := { name : string; kind : StatKind }.

Record Item := { label : string; value : string; key : string }.

(** What the picker takes from outside: the working directory of the
    process, the directory listing (a thrown error is its message), and
    the order that [sort] with [localeCompare] on the labels gives. *)
Record Env := {
  cwd : string;
  readdir : string -> string + list Dirent;
  readText : string -> ReadResult;
  sortByLabel : list Item -> list Item
}.

Definition startingDir (env : Env) (initialPath : option string) : string :=
  match initialPath with
  | Some (String _ _ as p) =>
      let parsed := Path.parse p in
      if Path.isAbsolute p
      then (match Path.dir parsed with
            | EmptyString => cwd env
            | d => d
            end)
      else Path.join [cwd env; Path.dir parsed]
  | _ => cwd env
  end.

(** [!d.name.startsWith(".")]. *)
Definition visible (d : Dirent) : bool := negb (String.prefix "." (name d)).

(** The test of the regular expression that ends in [.md], [.mdx] or
    [.markdown], letters in either case. *)
Definition isMarkdown (n : string) : bool :=
  let l := Wizard.toLowerCase n in
  Str.endsWith ".md" l || Str.endsWith ".mdx" l || Str.endsWith ".markdown" l.

Definition isDirectory (d : Dirent) : bool :=
  match kind d with IsDirectory => true | _ => false end.

Definition isFile (d : Dirent) : bool :=
  match kind d with IsFile => true | _ => false end.

Definition dirItem (d : Dirent) : Item :=
  {| label := Str.utf8 [240; 159; 147; 129] +:+ " " +:+ name d +:+ "/";
     value := "dir:" +:+ name d;
     key := "dir:" +:+ name d |}.

Definition fileItem (d : Dirent) : Item :=
  {| label := Str.utf8 [240; 159; 147; 132] +:+ " " +:+ name d;
     value := "file:" +:+ name d;
     key := "file:" +:+ name d |}.

Definition specials (onlyMarkdown : bool) : list Item :=
  [ {| label := Str.utf8 [226; 172; 134; 239; 184; 143] +:+ "  Parent directory (..)";
       value := "parent"; key := "special:parent" |};
    {| label := Str.utf8 [240; 159; 148; 142] +:+ " Change directory...";
       value := "changeDir"; key := "special:changeDir" |};
    {| label := Str.utf8 [226; 156; 141; 239; 184; 143] +:+ "  Enter file path...";
       value := "enterFile"; key := "special:enterFile" |};
    {| label :=
         if onlyMarkdown
         then Str.utf8 [240; 159; 148; 128] +:+ " Filter: *.md (on) "
              +:+ Str.utf8 [226; 128; 148] +:+ " toggle to show all"
         else Str.utf8 [240; 159; 148; 128] +:+ " Filter: all files (on) "
              +:+ Str.utf8 [226; 128; 148] +:+ " toggle to *.md";
       value := "toggleFilter"; key := "special:toggleFilter" |} ].

Definition dirs (env : Env) (dirents : list Dirent) : list Item :=
  sortByLabel env
    (List.map dirItem (List.filter (fun d => isDirectory d && visible d) dirents)).

Definition files (env : Env) (onlyMarkdown : bool) (dirents : list Dirent)
  : list Item :=
  sortByLabel env
    (List.map fileItem
       (List.filter (fun d => if onlyMarkdown then isMarkdown (name d) else true)
          (List.filter (fun d => isFile d && visible d) dirents))).

Record State := {
  currentDir : string;
  entries : list Item;
  error : option string;
  onlyMarkdown : bool;
  enteringDir : bool;
  enteringFile : bool;
  tempPath : string;
  preview : string;
  loading : bool
}.

Definition initial (env : Env) (initialPath : option string) : State :=
  {| currentDir := startingDir env initialPath; entries := []; error := None;
     onlyMarkdown := true; enteringDir := false; enteringFile := false;
     tempPath := ""; preview := ""; loading := false |}.

(** [refresh], once it has settled. *)
Definition refresh (env : Env) (st : State) : State :=
  match readdir env (currentDir st) with
  | inr dirents =>
      {| currentDir := currentDir st;
         entries := (specials (onlyMarkdown st) ++ dirs env dirents
                     ++ files env (onlyMarkdown st) dirents)%list;
         error := None; onlyMarkdown := onlyMarkdown st;
         enteringDir := enteringDir st; enteringFile := enteringFile st;
         tempPath := tempPath st; preview := preview st; loading := false |}
  | inl message =>
      {| currentDir := currentDir st; entries := []; error := Some message;
         onlyMarkdown := onlyMarkdown st;
         enteringDir := enteringDir st; enteringFile := enteringFile st;
         tempPath := tempPath st; preview := preview st; loading := false |}
  end.

Definition setCurrentDir (d : string) (st : State) : State :=
  {| currentDir := d; entries := entries st; error := error st;
     onlyMarkdown := onlyMarkdown st; enteringDir := enteringDir st;
     enteringFile := enteringFile st; tempPath := tempPath st;
     preview := preview st; loading := loading st |}.

Definition setOnlyMarkdown (b : bool) (st : State) : State :=
  {| currentDir := currentDir st; entries := entries st; error := error st;
     onlyMarkdown := b; enteringDir := enteringDir st;
     enteringFile := enteringFile st; tempPath := tempPath st;
     preview := preview st; loading := loading st |}.

Definition setEntering (dir file : bool) (temp : string) (st : State) : State :=
  {| currentDir := currentDir st; entries := entries st; error := error st;
     onlyMarkdown := onlyMarkdown st; enteringDir := dir;
     enteringFile := file; tempPath := temp;
     preview := preview st; loading := loading st |}.

Definition setPreview (text : string) (st : State) : State :=
  {| currentDir := currentDir st; entries := entries st; error := error st;
     onlyMarkdown := onlyMarkdown st; enteringDir := enteringDir st;
     enteringFile := enteringFile st; tempPath := tempPath st;
     preview := text; loading := loading st |}.

Definition isLF (c : Ascii.ascii) : bool := Ascii.eqb c (Ascii.ascii_of_nat 10).
Definition isCR (c : Ascii.ascii) : bool := Ascii.eqb c (Ascii.ascii_of_nat 13).

Definition startLine (c : Ascii.ascii) (lines : list string) : list string :=
  match lines with
  | line :: others => String c line :: others
  | [] => [String c EmptyString]
  end.

(** [txt.split(/\r?\n/)]: a line ends at a line feed, and a carriage
    return right before the line feed goes with it. *)
Fixpoint splitLines (txt : string) : list string :=
  match txt with
  | EmptyString => [EmptyString]
  | String c rest =>
      if isLF c then EmptyString :: splitLines rest
      else match rest with
           | String c2 rest2 =>
               if isCR c && isLF c2 then EmptyString :: splitLines rest2
               else startLine c (splitLines rest)
           | EmptyString => [String c EmptyString]
           end
  end.

(** [txt.split(/\r?\n/).slice(0, 20).join("\n")]. *)
Definition firstLines (txt : string) : string :=
  String.concat nl (take 20 (splitLines txt)).

(** [v.slice(n)]. *)
Fixpoint slice (n : nat) (v : string) : string :=
  match n, v with
  | S n', String _ rest => slice n' rest
  | _, _ => v
  end.

(** [isAbsolute(tempPath) ? tempPath : join(currentDir, tempPath)]. *)
Definition resolveTyped (st : State) : string :=
  if Path.isAbsolute (tempPath st) then tempPath st
  else Path.join [currentDir st; tempPath st].

(** [onSelect] of the list: the state it sets and the path it submits,
    if any. *)
Definition onSelect (v : string) (st : State) : State * option string :=
  if String.prefix "dir:" v
  then (setCurrentDir (Path.join [currentDir st; slice 4 v]) st, None)
  else if String.eqb v "parent"
  then (setCurrentDir (PathDir.dirname (currentDir st)) st, None)
  else if String.eqb v "changeDir"
  then (setEntering true (enteringFile st) (tempPath st) st, None)
  else if String.eqb v "enterFile"
  then (setEntering (enteringDir st) true (tempPath st) st, None)
  else if String.eqb v "toggleFilter"
  then (setOnlyMarkdown (negb (onlyMarkdown st)) st, None)
  else if String.prefix "file:" v
  then (st, Some (Path.join [currentDir st; slice 5 v]))
  else (st, None).

(** [onHighlight] of the list, once the file has been read: the first
    lines of a file entry, nothing for any other entry. *)
Definition onHighlight (env : Env) (v : string) (st : State) : State :=
  if String.prefix "file:" v
  then match readText env (Path.join [currentDir st; slice 5 v]) with
       | ReadOk txt => setPreview (firstLines txt) st
       | _ => setPreview "" st
       end
  else setPreview "" st.

(** [onSubmit] of the text field shown while a path is being typed: the
    directory field comes first in the render. *)
Definition onSubmitText (st : State) : State * option string :=
  if enteringDir st
  then (setEntering false (enteringFile st) "" (setCurrentDir (resolveTyped st) st),
        None)
  else if enteringFile st
  then (setEntering (enteringDir st) false "" st, Some (resolveTyped st))
  else (st, None).

Inductive Action :=
| Select (position : nat)
| Highlight (position : nat)
| Type_ (text : string)
| SubmitText.

(** The effect that calls [refresh] runs when the directory or the filter
    has changed. *)
Definition settle (env : Env) (before after : State) : State :=
  if String.eqb (currentDir before) (currentDir after)
     && Bool.eqb (onlyMarkdown before) (onlyMarkdown after)
  then after else refresh env after.

(** What a handler leaves behind: the state it sets and the path it
    submits, or the [TypeError] it throws. *)
Definition Outcome : Type := option (State * option string).

(** [onSelect] reads [item.value] with no guard, [onHighlight] reads
    [item?.value ?? ""]: handed no item, the first throws and the second
    goes on with the empty string. *)
Definition handle (env : Env) (a : Action) (st : State) : Outcome :=
  match a with
  | Select position =>
      if enteringDir st || enteringFile st then Some (st, None)
      else match entries st !! position with
           | Some item => Some (onSelect (value item) st)
           | None => None
           end
  | Highlight position =>
      if enteringDir st || enteringFile st then Some (st, None)
      else Some (onHighlight env
                   (match entries st !! position with
                    | Some item => value item
                    | None => ""
                    end) st, None)
  | Type_ text =>
      if enteringDir st || enteringFile st
      then Some (setEntering (enteringDir st) (enteringFile st) text st, None)
      else Some (st, None)
  | SubmitText => Some (onSubmitText st)
  end.

Definition dispatch (env : Env) (a : Action) (st : State) : Outcome :=
  match handle env a st with
  | Some (st', submitted) => Some (settle env st st', submitted)
  | None => None
  end.

(** The picker once mounted: the first [refresh] has run. *)
Definition mounted (env : Env) (initialPath : option string) : State :=
  refresh env (initial env initialPath).

(** The picker after a sequence of actions, and the paths it submitted,
    the first one first; nothing once a handler has thrown. *)
Definition run (env : Env) (actions : list Action) (st : State)
  : option (State * list string) :=
  foldl (fun acc a =>
           match acc with
           | Some (st0, paths) =>
               match dispatch env a st0 with
               | Some (st', submitted) =>
                   Some (st', (paths ++ match submitted with
                                        | Some p => [p]
                                        | None => []
                                        end)%list)
               | None => None
               end
           | None => None
           end)
        (Some (st, [])) actions.

End FilePicker.


(** A carriage return and a line feed, as one line break of a text file. *)
Definition crlf : string := Str.utf8 [13; 10].

(** The command-line entry renders the wizard when [--interactive] is set
    or no input is given, and [App] on the input otherwise. *)
Module Entry.

Inductive Root :=
| RootWizard (initialInputPath : option string) (initialFlags : Flags)
| RootApp (inputPath : option string) (flags : Flags).

Definition render (g : Cli.Given) : Root :=
  if Cli.shouldUseWizard g
  then RootWizard (Cli.input g) (Cli.flags g)
  else RootApp (Cli.input g) (Cli.flags g).

(** [!inputPath] in [App]: the text field for the path is shown, the
    conversion is not started on mount and the live check is on. *)
Definition asksForPath (inputPath : option string) : bool :=
  negb (Str.truthy inputPath).

End Entry.

(** The wizard with the file picker it shows at [welcome]. *)
Module Interactive.

(** The picker is mounted while the step is [welcome]. *)
Record State := {
  wizard : Wizard.State;
  picker : option FilePicker.State
}.

Inductive Action :=
| ToPicker (a : FilePicker.Action)
| ToWizard (a : Wizard.Action).

Definition atWelcome (w : Wizard.State) : bool :=
  Step.eqb (Wizard.step w) Step.welcome.

(** [<FilePicker initialPath={inputPath} ...>], mounted anew. *)
Definition mount (env : FilePicker.Env) (w : Wizard.State) : FilePicker.State :=
  FilePicker.mounted env (Some (Wizard.inputPath w)).

Definition start (env : FilePicker.Env) (initialInputPath : option string)
    (initialFlags : Flags) : State :=
  let w := Wizard.initial initialInputPath initialFlags in
  {| wizard := w; picker := Some (mount env w) |}.

(** The picker after the wizard has moved from [before] to [after]: kept
    while the step stays at [welcome], mounted anew on coming back to
    [welcome], gone at any other step. *)
Definition rendered (env : FilePicker.Env) (before : State)
    (after : Wizard.State) (kept : option FilePicker.State)
  : option FilePicker.State :=
  if atWelcome after
  then (if atWelcome (wizard before) then kept else Some (mount env after))
  else None.

(** One action; [None] when a handler of the picker has thrown. The
    [onSubmit] of the picker is the wizard's [PickFile]; the user has no
    other way to it. *)
Definition step (env : FilePicker.Env) (a : Action) (s : State) : option State :=
  match a with
  | ToPicker pa =>
      match picker s with
      | Some ps =>
          match FilePicker.dispatch env pa ps with
          | Some (ps', Some fullPath) =>
              let w := Wizard.dispatch (Wizard.PickFile fullPath) (wizard s) in
              Some {| wizard := w; picker := rendered env s w (Some ps') |}
          | Some (ps', None) => Some {| wizard := wizard s; picker := Some ps' |}
          | None => None
          end
      | None => Some s
      end
  | ToWizard (Wizard.PickFile _) => Some s
  | ToWizard wa =>
      let w := Wizard.dispatch wa (wizard s) in
      Some {| wizard := w; picker := rendered env s w (picker s) |}
  end.

Definition run (env : FilePicker.Env) (actions : list Action) (s : State)
  : option State :=
  foldl (fun acc a => match acc with
                      | Some s0 => step env a s0
                      | None => None
                      end)
        (Some s) actions.

(** A path the picker may have submitted: not empty, and absolute when
    the working directory is. *)
Definition picked (env : FilePicker.Env) (p : string) : Prop :=
  p <> "" /\
  (Path.isAbsolute (FilePicker.cwd env) = true -> Path.isAbsolute p = true).

(** What every state of a session satisfies: past [welcome] the input
    path is one the picker submitted, and the picker on screen is in an
    absolute directory when the working directory is one. *)
Definition sound (env : FilePicker.Env) (s : State) : Prop :=
  (atWelcome (wizard s) = false -> picked env (Wizard.inputPath (wizard s))) /\
  (forall ps, picker s = Some ps ->
     Path.isAbsolute (FilePicker.cwd env) = true ->
     Path.isAbsolute (FilePicker.currentDir ps) = true).

End Interactive.

(** ** Sample inputs *)

Definition tocRequested : Flags :=
  {| output := None; type := Some "report"; toc := Some true; rtl := None;
     align := None; style := None; open := None; watch := None;
     verbose := None; compact := None |}.

Definition sampleMergedStyle : gmap string value :=
  <[ "titleSize" := VStr "24" ]>
  (<[ "tocHeading1Bold" := VStr "true" ]>
  (<[ "tocHeading2Bold" := VBool true ]>
  (<[ "direction" := VStr "RTL" ]>
  (<[ "lineSpacing" := VStr "wide" ]>
  (<[ "fontFamily" := VStr "Arial" ]> ∅))))).

(** A space, a tab, a line feed, a no-break space (U+00A0) and an
    ideographic space (U+3000). *)
Definition blankText : string :=
  Str.utf8 [32; 9; 10; 194; 160; 227; 128; 128].

(** Case analysis on membership in a set given by its list. *)
Ltac each_key H :=
  apply elem_of_list_to_set in H;
  repeat (apply elem_of_cons in H as [->|H]);
  try (by apply elem_of_nil in H).

(** Flags with nothing but a desired output. *)
Definition outputFlag (o : option string) : Flags :=
  {| output := o; type := None; toc := None; rtl := None; align := None;
     style := None; open := None; watch := None; verbose := None;
     compact := None |}.

(** A world with a markdown file [doc.md] (and [notes/readme.md]), a
    directory [build], no config file, a converter that returns a fixed
    archive, and a disk that accepts the write. [openFails] and
    [converterFails] make the [open] package and the converter throw. *)
Definition sampleWorld (openFails converterFails : bool) : World :=
  {| stat := fun p =>
       if String.eqb p "doc.md" || String.eqb p "notes/readme.md" then Some IsFile
       else if String.eqb p "build" then Some IsDirectory
       else None;
     readFile := fun p =>
       if String.eqb p "doc.md" || String.eqb p "notes/readme.md"
       then ReadOk ("# Title" +:+ nl +:+ nl +:+ "Body")
       else ReadNoEntry "ENOENT: no such file or directory";
     JSON_parse := fun _ => inl "Unexpected token";
     convertMarkdownToDocx := fun _ _ =>
       if converterFails then inl "Invalid markdown" else inr "PK-docx";
     writeFile := fun _ _ => None;
     openFile := fun _ =>
       if openFails then Some "spawn xdg-open ENOENT" else None;
     watchFile := fun _ => None |}.

(** [--open --watch]. *)
Definition openAndWatch : Flags :=
  {| output := None; type := Some "document"; toc := Some false;
     rtl := Some false; align := None; style := None; open := Some true;
     watch := Some true; verbose := Some false; compact := Some false |}.

(** Pure parts of [convert] stay folded when a run is simplified. *)
Arguments loadJsonIfExists : simpl never.
Arguments options : simpl never.
Arguments effectiveMarkdown : simpl never.
Arguments outputPath : simpl never.
Arguments convertingStatus : simpl never.

(** The config file of the README: [{"documentType": "report", "style":
    {"paragraphAlignment": "JUSTIFIED", "direction": "LTR"}}]. *)
Definition readmeConfig : value :=
  VObj [ ("documentType", VStr "report");
         ("style", VObj [ ("paragraphAlignment", VStr "JUSTIFIED");
                          ("direction", VStr "LTR") ]) ].

(** [md-to-docx README.md]: an input and no flag. *)
Definition onlyInput : Cli.Given :=
  {| Cli.given := Cli.nothingTyped; Cli.interactive := None;
     Cli.input := Some "README.md" |}.

(** A wizard that has reached the output step with flags recorded. *)
Definition midWizard : Wizard.State :=
  {| Wizard.step := Step.output;
     Wizard.inputPath := "notes/readme.md";
     Wizard.flags :=
       {| output := Some "build/"; type := Some "report"; toc := Some true;
          rtl := Some false; align := Some "CENTER"; style := Some "style.json";
          open := Some false; watch := Some false; verbose := Some false;
          compact := Some false |} |}.

Definition atStep (s : Step.t) : Wizard.State :=
  {| Wizard.step := s; Wizard.inputPath := Wizard.inputPath midWizard;
     Wizard.flags := Wizard.flags midWizard |}.

(** A computation that leaves the debounce timer as it found it. *)
Definition keepsTimer {A} (m : M.t A) : Prop :=
  forall s, debounceTimerRef (m s).1 = debounceTimerRef s.

(** Five notifications 10 ms apart, with turns of the loop in between and
    up to 239 ms. *)
Definition fiveChanges : list Loop.Event :=
  [ Loop.Change 10; Loop.Turn 15; Loop.Change 20; Loop.Change 30;
    Loop.Change 40; Loop.Turn 100; Loop.Turn 239 ].

(** [App] on [doc.md] with [--open --watch], after its first conversion. *)
Definition watching : Loop.t :=
  Loop.start (sampleWorld false false) openAndWatch "doc.md".

(** [--align CENTER] and nothing else. *)
Definition alignCenter : Flags :=
  {| output := None; type := None; toc := None; rtl := None;
     align := Some "CENTER"; style := None; open := None; watch := None;
     verbose := None; compact := None |}.

(** ** Further sample inputs *)

(** A style file that sets what the flags also set. *)
Definition rivalStyleFile : value :=
  VObj [ ("paragraphAlignment", VStr "LEFT"); ("direction", VStr "LTR");
         ("titleSize", VStr "40") ].

(** [--align CENTER --rtl]. *)
Definition centerRtl : Flags :=
  {| output := None; type := None; toc := None; rtl := Some true;
     align := Some "CENTER"; style := Some "style.json"; open := None;
     watch := None; verbose := None; compact := None |}.

(** Numeric keys with values of several types. *)
Definition mixedNumbers : gmap string value :=
  <[ "titleSize" := VNum 30 ]>
  (<[ "headingSpacing" := VNum infinity ]>
  (<[ "paragraphSpacing" := VBool true ]>
  (<[ "lineSpacing" := VNull ]>
  (<[ "heading1Size" := VStr "18" ]> ∅)))).

(** The sample world, with a watcher that cannot start. *)
Definition watchFailsWorld : World :=
  {| stat := stat (sampleWorld false false);
     readFile := readFile (sampleWorld false false);
     JSON_parse := JSON_parse (sampleWorld false false);
     convertMarkdownToDocx := convertMarkdownToDocx (sampleWorld false false);
     writeFile := writeFile (sampleWorld false false);
     openFile := openFile (sampleWorld false false);
     watchFile := fun _ => Some "EMFILE: too many open files" |}.

(** A session that still shows the error of an earlier run. *)
Definition staleSession : Session :=
  {| status := Some Reading; error := Some "EACCES: permission denied";
     busy := true; fileWatcherRef := None; debounceTimerRef := None;
     calls := [] |}.

(** A pass through the wizard: [notes/readme.md] as a report, with a table
    of contents, centred, written to [build/], opened when done. *)
Definition samplePass : WizardView.Choices :=
  {| WizardView.pick := "notes/readme.md"; WizardView.report := true;
     WizardView.tocYes := true; WizardView.rtlYes := false;
     WizardView.alignEntry := 2; WizardView.styleText := "";
     WizardView.outputText := "build/"; WizardView.watchYes := false;
     WizardView.verboseYes := false; WizardView.openYes := true |}.

(** A directory as [readdir] gives it: a folder, a hidden folder, two
    Markdown files, a text file and a hidden file. *)
Definition sampleDirents : list FilePicker.Dirent :=
  [ {| FilePicker.name := "docs"; FilePicker.kind := IsDirectory |};
    {| FilePicker.name := ".git"; FilePicker.kind := IsDirectory |};
    {| FilePicker.name := "CHANGES.MD"; FilePicker.kind := IsFile |};
    {| FilePicker.name := "README.md"; FilePicker.kind := IsFile |};
    {| FilePicker.name := "todo.txt"; FilePicker.kind := IsFile |};
    {| FilePicker.name := ".env"; FilePicker.kind := IsFile |} ].

(** A process started in [/home/user], where only that directory can be
    listed; its entries come in the order of their labels already, so
    sorting has nothing to move. *)
Definition sampleEnv : FilePicker.Env :=
  {| FilePicker.cwd := "/home/user";
     FilePicker.readdir := fun dir =>
       if String.eqb dir "/home/user" then inr sampleDirents
       else inl "ENOENT: no such file or directory, scandir";
     FilePicker.readText := fun _ => ReadOk ("# Title" +:+ nl +:+ "text");
     FilePicker.sortByLabel := fun items => items |}.

(** The user picks the text field for a directory, types a folder that
    does not exist, and confirms. *)
Definition intoMissingFolder : list FilePicker.Action :=
  [ FilePicker.Select 1; FilePicker.Type_ "missing"; FilePicker.SubmitText ].

(** The user looks at the first file of the list and then picks it. *)
Definition pickFirstFile : list FilePicker.Action :=
  [ FilePicker.Highlight 5; FilePicker.Select 5 ].

(** The picker pointed at a folder that does not exist. *)
Definition inMissingFolder : FilePicker.State :=
  FilePicker.setCurrentDir "/home/user/missing" (FilePicker.initial sampleEnv None).

(** Keys pressed while the listing has failed. *)
Definition keysAfterFailure : list FilePicker.Action :=
  [ FilePicker.Highlight 0; FilePicker.Type_ "docs"; FilePicker.SubmitText ].

Definition docsFolder : FilePicker.Dirent :=
  {| FilePicker.name := "docs"; FilePicker.kind := IsDirectory |}.

Definition readmeFile : FilePicker.Dirent :=
  {| FilePicker.name := "README.md"; FilePicker.kind := IsFile |}.

Definition todoFile : FilePicker.Dirent :=
  {| FilePicker.name := "todo.txt"; FilePicker.kind := IsFile |}.

(** A whole interactive session: the user picks the second file of the
    listing and goes through the wizard with the entries of [samplePass]. *)
Definition sampleSession : list Interactive.Action :=
  Interactive.ToPicker (FilePicker.Select 6)
    :: List.map Interactive.ToWizard (List.tail (WizardView.walk samplePass)).

(** The command line [md-to-docx -i]. *)
Definition interactiveOnly : Cli.Given :=
  {| Cli.given := Cli.nothingTyped; Cli.interactive := Some true;
     Cli.input := None |}.

(** * Properties *)

(** ** [Number] on sample texts *)

Example Number_samples :
  JsNumber.Number "24" = 24%float /\
  JsNumber.Number " 1.15 " = 0x1.2666666666666p+0%float /\
  JsNumber.Number "-0.1e1" = (-1)%float /\
  JsNumber.Number "0x1F" = 31%float /\
  JsNumber.Number ".5" = 0.5%float /\
  JsNumber.Number "5." = 5%float /\
  JsNumber.Number "1e-7" = 0x1.ad7f29abcaf48p-24%float /\
  JsNumber.Number "123456789012345678901234567890" = 0x1.8ee90ff6c373ep+96%float /\
  JsNumber.Number "5e-324" = 0x0.0000000000001p-1022%float /\
  JsNumber.Number "2.5e-324" = 0x0.0000000000001p-1022%float /\
  JsNumber.Number "2.4e-324" = 0%float /\
  JsNumber.Number "9007199254740993" = 9007199254740992%float /\
  JsNumber.Number "1.7976931348623157e308" = 0x1.fffffffffffffp+1023%float /\
  JsNumber.Number "1.7976931348623159e308" = infinity /\
  JsNumber.Number "1e999" = infinity /\
  JsNumber.Number "-Infinity" = neg_infinity /\
  JsNumber.isFinite (JsNumber.Number "abc") = false /\
  JsNumber.isFinite (JsNumber.Number "12px") = false /\
  JsNumber.isFinite (JsNumber.Number ".") = false /\
  JsNumber.isFinite (JsNumber.Number "0x") = false /\
  JsNumber.isFinite (JsNumber.Number "1e") = false /\
  JsNumber.isFinite (JsNumber.Number "- 1") = false /\
  JsNumber.isFinite (JsNumber.Number "true") = false.
Proof. vm_compute. repeat split. Qed.

Example Path_samples :
  Path.join ["notes"; "readme.docx"] = "notes/readme.docx" /\
  Path.join [""; "readme.docx"] = "readme.docx" /\
  Path.join ["build/"; "readme.docx"] = "build/readme.docx" /\
  Path.join ["a/../../b/"; "./c//d.docx"] = "../b/c/d.docx" /\
  Path.join ["/a/.."; ".."] = "/" /\
  Path.join [""; ""] = "." /\
  Path.dir (Path.parse "/a/b.tar.gz") = "/a" /\
  Path.name (Path.parse "/a/b.tar.gz") = "b.tar" /\
  Path.ext (Path.parse "/a/b.tar.gz") = ".gz" /\
  Path.dir (Path.parse "/readme.md") = "/" /\
  Path.dir (Path.parse "a//b") = "a/" /\
  Path.name (Path.parse "notes/.bashrc") = ".bashrc" /\
  Path.name (Path.parse "x/..") = ".." /\
  Path.name (Path.parse "x/...") = ".." /\
  Path.name (Path.parse "x/..foo") = "." /\
  Path.name (Path.parse "dir/sub///") = "sub" /\
  Path.dir (Path.parse "dir/sub///") = "dir" /\
  Path.name (Path.parse "readme") = "readme".
Proof. vm_compute. repeat split. Qed.

(** ** Strings *)

Lemma append_cons (c : ascii) (a b : string) :
  String c a +:+ b = String c (a +:+ b).
Proof. reflexivity. Qed.

Lemma prefix_spec (p s : string) :
  String.prefix p s = true <-> exists r, s = p +:+ r.
Proof.
  revert s; induction p as [|a p IH]; intros s; simpl.
  - split; [intros _; by exists s | by destruct s].
  - destruct s as [|b s]; simpl.
    + split; [done | by intros [r Hr]].
    + destruct (Ascii.ascii_dec a b) as [->|Hab].
      * rewrite IH. split; intros [r Hr]; exists r;
          rewrite append_cons in *; congruence.
      * split; [done | intros [r Hr]; rewrite append_cons in Hr; congruence].
Qed.

Lemma includes_nil (pat : string) :
  Str.includes pat "" = String.prefix pat "" || false.
Proof. reflexivity. Qed.

Lemma includes_cons (pat : string) (c : ascii) (s : string) :
  Str.includes pat (String c s) = String.prefix pat (String c s) || Str.includes pat s.
Proof. reflexivity. Qed.

Lemma occurrences_cons (pat : string) (c : ascii) (s : string) :
  Str.occurrences pat (String c s)
  = (if String.prefix pat (String c s) then 1 else 0) + Str.occurrences pat s.
Proof. reflexivity. Qed.

(** [includes] finds exactly the texts that have [pat] somewhere inside. *)
Lemma includes_spec (pat s : string) :
  Str.includes pat s = true <-> exists a b, s = a +:+ pat +:+ b.
Proof.
  induction s as [|c s IH].
  - rewrite includes_nil, orb_false_r, prefix_spec. split.
    + intros [r Hr]. by exists "", r.
    + intros [a [b Hab]]. destruct a; [by exists b | done].
  - rewrite includes_cons, orb_true_iff, IH, prefix_spec. split.
    + intros [[r Hr] | [a [b Hab]]].
      * by exists "", r.
      * exists (String c a), b. by rewrite append_cons, Hab.
    + intros [a [b Hab]]. destruct a as [|c' a]; [|rewrite append_cons in Hab].
      * left. by exists b.
      * right. exists a, b. congruence.
Qed.

Lemma includes_false_occurrences (pat s : string) :
  Str.includes pat s = false -> Str.occurrences pat s = 0.
Proof.
  induction s as [|c s IH].
  - rewrite includes_nil. intros H; apply orb_false_iff in H as [Hp _].
    unfold Str.occurrences. by rewrite Hp.
  - rewrite includes_cons, occurrences_cons.
    intros H; apply orb_false_iff in H as [Hp Hs].
    by rewrite Hp, IH.
Qed.

(** ** C3: inserting the marker *)

Lemma withToc_includes (t : string) : Str.includes tocMarker (withToc t) = true.
Proof. reflexivity. Qed.

Lemma withToc_occurrences (t : string) :
  Str.occurrences tocMarker (withToc t) = S (Str.occurrences tocMarker t).
Proof. reflexivity. Qed.

Lemma effectiveMarkdown_cases (flags : Flags) (t : string) :
  effectiveMarkdown flags t
  = if on (toc flags)
    then (if Str.includes tocMarker t then t else withToc t)
    else t.
Proof.
  unfold effectiveMarkdown.
  by destruct (on (toc flags)), (Str.includes tocMarker t).
Qed.

(** C3. Inserting the table-of-contents marker is idempotent: for every
    markdown text and every value of the flags, a second insertion changes
    nothing. With the toc flag set, a text that contains the literal
    marker [[TOC]] is returned as it is, and a text that does not gets a
    line break, the marker line and a blank line in front of it, so that
    the marker occurs in the result exactly once. *)
Theorem C3_toc_insertion_idempotent (flags : Flags) (t : string) :
  effectiveMarkdown flags (effectiveMarkdown flags t) = effectiveMarkdown flags t /\
  (on (toc flags) = true ->
     (Str.includes "[TOC]" t = true -> effectiveMarkdown flags t = t) /\
     (Str.includes "[TOC]" t = false ->
        effectiveMarkdown flags t = nl +:+ "[TOC]" +:+ nl +:+ nl +:+ t /\
        Str.occurrences "[TOC]" (effectiveMarkdown flags t) = 1)).
Proof.
  change "[TOC]" with tocMarker. split.
  - rewrite !effectiveMarkdown_cases.
    destruct (on (toc flags)); [|done].
    destruct (Str.includes tocMarker t) eqn:Hin.
    + by rewrite Hin.
    + by rewrite withToc_includes.
  - intros Hon. rewrite !effectiveMarkdown_cases, Hon. split.
    + intros Hin. by rewrite Hin.
    + intros Hin. rewrite Hin. split; [done |].
      by rewrite withToc_occurrences, includes_false_occurrences.
Qed.

Lemma C3_toc_insertion_witness :
  effectiveMarkdown tocRequested ("# Title" +:+ nl +:+ nl +:+ "Body")
  = nl +:+ "[TOC]" +:+ nl +:+ nl +:+ "# Title" +:+ nl +:+ nl +:+ "Body" /\
  Str.occurrences "[TOC]"
    (effectiveMarkdown tocRequested ("# Title" +:+ nl +:+ nl +:+ "Body")) = 1.
Proof.
  destruct (C3_toc_insertion_idempotent tocRequested
              ("# Title" +:+ nl +:+ nl +:+ "Body")) as [_ H].
  destruct (H eq_refl) as [_ H2].
  exact (H2 eq_refl).
Defined.

(** ** Objects built from entries *)

Lemma assign_snoc (m : gmap string value) (l : list (string * value))
    (kv : string * value) :
  assign m (l ++ [kv]) = <[kv.1 := kv.2]> (assign m l).
Proof. unfold assign. by rewrite foldl_app. Qed.

(** With each key once, an object built from entries holds exactly them. *)
Lemma fromEntries_lookup (l : list (string * value)) (k : string) (v : value) :
  NoDup l.*1 -> fromEntries l !! k = Some v <-> (k, v) ∈ l.
Proof.
  unfold fromEntries.
  induction l as [|kv l IH] using rev_ind; intros Hnd; [|destruct kv as [k' v']].
  - unfold assign; simpl. rewrite lookup_empty. split; [done | by intros ?%elem_of_nil].
  - rewrite fmap_app in Hnd. apply NoDup_app in Hnd as (Hl & Hfresh & _).
    rewrite assign_snoc, elem_of_app, list_elem_of_singleton. simpl.
    destruct (decide (k' = k)) as [->|Hne].
    + rewrite lookup_insert_eq. split.
      * intros [= ->]. by right.
      * intros [Hin | [= ->]]; [|done]. exfalso.
        apply (Hfresh k); [|by left].
        apply list_elem_of_fmap. by exists (k, v).
    + rewrite lookup_insert_ne by done. rewrite IH by done.
      split; [tauto | intros [?|[= <- _]]; done].
Qed.

Lemma filter_fst_NoDup (p : string * value -> bool) (l : list (string * value)) :
  NoDup l.*1 -> NoDup (List.filter p l).*1.
Proof.
  induction l as [|kv l IH]; simpl; [done |].
  intros [Hnot Hnd]%NoDup_cons. destruct (p kv); simpl; [|by apply IH].
  apply NoDup_cons. split; [|by apply IH].
  intros [kv' [Heq Hin]]%list_elem_of_fmap. apply Hnot.
  apply list_elem_of_fmap. exists kv'. split; [done |].
  apply list_elem_of_In, filter_In in Hin as [Hin _]. by apply list_elem_of_In.
Qed.

Lemma convert_entry_fst (kv : string * value) : (Style.convert_entry kv).1 = kv.1.
Proof. destruct kv as [k v]. unfold Style.convert_entry. by destruct (Style.has _ _). Qed.

Lemma convert_entries_fst (l : list (string * value)) :
  (List.map Style.convert_entry l).*1 = l.*1.
Proof.
  induction l as [|kv l IH]; [done |].
  change (List.map Style.convert_entry (kv :: l))
    with (Style.convert_entry kv :: List.map Style.convert_entry l).
  by rewrite !fmap_cons, convert_entry_fst, IH.
Qed.

(** ** C2, C5, C10: the sanitised style *)

(** An entry is in the sanitised style exactly when the merged style
    holds its key with a value that passes the filter; the value is the
    converted one. *)
Lemma sanitizedStyle_lookup (m : gmap string value) (k : string) (v' : value) :
  Style.sanitizedStyle m !! k = Some v' <->
  exists v, m !! k = Some v /\ Style.keep (k, v) = true /\
            Style.convert_entry (k, v) = (k, v').
Proof.
  unfold Style.sanitizedStyle, Style.sanitizedStyleEntries.
  rewrite fromEntries_lookup.
  - rewrite list_elem_of_In, in_map_iff. split.
    + intros [[k0 v0] [Hconv [Hin Hkeep]%filter_In]].
      apply list_elem_of_In, elem_of_map_to_list in Hin.
      assert (k0 = k) as ->.
      { pose proof (convert_entry_fst (k0, v0)) as H. rewrite Hconv in H. symmetry. exact H. }
      exists v0. split; [exact Hin | split; [exact Hkeep | exact Hconv]].
    + intros (v & Hm & Hkeep & Hconv). exists (k, v). split; [exact Hconv |].
      apply filter_In. split; [|exact Hkeep].
      by apply list_elem_of_In, elem_of_map_to_list.
  - rewrite convert_entries_fst.
    apply filter_fst_NoDup, NoDup_fst_map_to_list.
Qed.

Lemma sanitizedStyle_lookup_None (m : gmap string value) (k : string) :
  (forall v, m !! k = Some v -> Style.keep (k, v) = false) ->
  Style.sanitizedStyle m !! k = None.
Proof.
  intros H. destruct (Style.sanitizedStyle m !! k) as [v'|] eqn:E; [|done].
  apply sanitizedStyle_lookup in E as (v & Hm & Hkeep & _).
  rewrite (H v Hm) in Hkeep. discriminate Hkeep.
Qed.

Lemma has_true (set : gset string) (k : string) : Style.has set k = true <-> k ∈ set.
Proof. unfold Style.has. apply bool_decide_eq_true. Qed.

Lemma has_false (set : gset string) (k : string) : Style.has set k = false <-> k ∉ set.
Proof. unfold Style.has. apply bool_decide_eq_false. Qed.

(** The three classes of the whitelist share no key. *)
Lemma boolean_not_numeric (k : string) :
  k ∈ Style.booleanStyleKeys -> Style.has Style.numericStyleKeys k = false.
Proof. intros Hk. unfold Style.booleanStyleKeys in Hk. each_key Hk; by vm_compute. Qed.

Lemma string_not_numeric (k : string) :
  k ∈ Style.stringStyleKeys -> Style.has Style.numericStyleKeys k = false.
Proof. intros Hk. unfold Style.stringStyleKeys in Hk. each_key Hk; by vm_compute. Qed.

Lemma string_not_boolean (k : string) :
  k ∈ Style.stringStyleKeys -> Style.has Style.booleanStyleKeys k = false.
Proof. intros Hk. unfold Style.stringStyleKeys in Hk. each_key Hk; by vm_compute. Qed.

Lemma keep_numeric (k : string) (v : value) :
  k ∈ Style.numericStyleKeys ->
  Style.keep (k, v) = Style.Number_isFinite (Style.num v).
Proof. intros Hk%has_true. unfold Style.keep. by rewrite Hk. Qed.

Lemma keep_boolean (k : string) (v : value) :
  k ∈ Style.booleanStyleKeys ->
  Style.keep (k, v) = match v with VBool _ => true | _ => false end.
Proof.
  intros Hk. unfold Style.keep.
  rewrite (boolean_not_numeric k Hk). apply has_true in Hk. rewrite Hk.
  by destruct v.
Qed.

Lemma keep_string (k : string) (v : value) :
  k ∈ Style.stringStyleKeys ->
  Style.keep (k, v)
  = match v with VStr (String _ _) => true | _ => false end.
Proof.
  intros Hk. unfold Style.keep.
  rewrite (string_not_numeric k Hk), (string_not_boolean k Hk).
  apply has_true in Hk. rewrite Hk.
  destruct v as [| | | |s| |]; try done. by destruct s.
Qed.

Lemma keep_unknown (k : string) (v : value) :
  k ∉ Style.schema -> Style.keep (k, v) = false.
Proof.
  unfold Style.schema. rewrite !not_elem_of_union.
  intros [[Hn%has_false Hb%has_false] Hs%has_false].
  unfold Style.keep. by rewrite Hn, Hb, Hs.
Qed.

Lemma convert_entry_numeric (k : string) (v : value) :
  k ∈ Style.numericStyleKeys -> Style.convert_entry (k, v) = (k, Style.num v).
Proof. intros Hk%has_true. unfold Style.convert_entry. by rewrite Hk. Qed.

Lemma convert_entry_other (k : string) (v : value) :
  Style.has Style.numericStyleKeys k = false -> Style.convert_entry (k, v) = (k, v).
Proof. intros Hk. unfold Style.convert_entry. by rewrite Hk. Qed.

Lemma Number_isFinite_inv (v : value) :
  Style.Number_isFinite v = true ->
  exists n, v = VNum n /\ JsNumber.isFinite n = true.
Proof. destruct v; try done. intros H. by eexists. Qed.

(** C2. For every merged style [m] and every key [k]: an entry of the
    sanitised style has its key in the whitelist, and its value has the
    type of the key's class: a finite number under a numeric key, a
    boolean (the one of [m], unchanged) under a boolean key, a non-empty
    string (the one of [m]) under a string key. A key outside the
    whitelist is absent from the result, and so is a boolean key whose
    value in [m] is a string, such as ["true"]: nothing is coerced to a
    boolean. *)
Theorem C2_sanitized_style_sound (m : gmap string value) (k : string) :
  (forall v, Style.sanitizedStyle m !! k = Some v ->
     k ∈ Style.schema /\
     (k ∈ Style.numericStyleKeys ->
        exists n, v = VNum n /\ JsNumber.isFinite n = true) /\
     (k ∈ Style.booleanStyleKeys ->
        exists b, v = VBool b /\ m !! k = Some (VBool b)) /\
     (k ∈ Style.stringStyleKeys ->
        exists s, v = VStr s /\ s <> "" /\ m !! k = Some (VStr s))) /\
  (k ∉ Style.schema -> Style.sanitizedStyle m !! k = None) /\
  (k ∈ Style.booleanStyleKeys ->
     forall s, m !! k = Some (VStr s) -> Style.sanitizedStyle m !! k = None).
Proof.
  split; [|split].
  - intros v' (v & Hm & Hkeep & Hconv)%sanitizedStyle_lookup.
    split; [|split; [|split]].
    + destruct (decide (k ∈ Style.schema)) as [Hin | Hout]; [exact Hin |].
      rewrite (keep_unknown k v Hout) in Hkeep. discriminate Hkeep.
    + intros Hk. rewrite (keep_numeric k v Hk) in Hkeep.
      rewrite (convert_entry_numeric k v Hk) in Hconv.
      injection Hconv as <-. exact (Number_isFinite_inv _ Hkeep).
    + intros Hk. rewrite (keep_boolean k v Hk) in Hkeep.
      rewrite (convert_entry_other k v (boolean_not_numeric k Hk)) in Hconv.
      injection Hconv as <-. destruct v; try discriminate Hkeep.
      eexists. split; [reflexivity | exact Hm].
    + intros Hk. rewrite (keep_string k v Hk) in Hkeep.
      rewrite (convert_entry_other k v (string_not_numeric k Hk)) in Hconv.
      injection Hconv as <-.
      destruct v as [| | | |s| |]; try discriminate Hkeep.
      destruct s; [discriminate Hkeep |].
      eexists. split; [reflexivity | split; [discriminate | exact Hm]].
  - intros Hout. apply sanitizedStyle_lookup_None.
    intros v _. exact (keep_unknown k v Hout).
  - intros Hk s Hm. apply sanitizedStyle_lookup_None.
    intros v Hv. rewrite (keep_boolean k v Hk).
    rewrite Hm in Hv. injection Hv as <-. reflexivity.
Qed.

Lemma C2_sanitized_style_witness :
  ("titleSize" ∈ Style.schema /\
   (exists n, VNum 24 = VNum n /\ JsNumber.isFinite n = true)) /\
  Style.sanitizedStyle sampleMergedStyle !! "fontFamily" = None /\
  Style.sanitizedStyle sampleMergedStyle !! "tocHeading1Bold" = None.
Proof.
  destruct (C2_sanitized_style_sound sampleMergedStyle "titleSize") as (H1 & _ & _).
  destruct (C2_sanitized_style_sound sampleMergedStyle "fontFamily") as (_ & H2 & _).
  destruct (C2_sanitized_style_sound sampleMergedStyle "tocHeading1Bold") as (_ & _ & H3).
  split; [|split].
  - destruct (H1 (VNum 24) ltac:(by vm_compute)) as (Hs & Hn & _).
    split; [exact Hs | apply Hn; by vm_compute].
  - apply H2. by vm_compute.
  - apply (H3 ltac:(by vm_compute) "true"). by vm_compute.
Defined.

(** What the sanitised style holds under a numeric key whose value in the
    merged style is a string. *)
Lemma sanitizedStyle_numeric_string (m : gmap string value) (k s : string) :
  k ∈ Style.numericStyleKeys -> m !! k = Some (VStr s) ->
  Style.sanitizedStyle m !! k
  = if JsNumber.isFinite (JsNumber.Number s)
    then Some (VNum (JsNumber.Number s)) else None.
Proof.
  intros Hk Hm. destruct (JsNumber.isFinite (JsNumber.Number s)) eqn:Hfin.
  - apply sanitizedStyle_lookup. exists (VStr s).
    rewrite (keep_numeric k _ Hk), (convert_entry_numeric k _ Hk).
    split; [exact Hm | split; [exact Hfin | reflexivity]].
  - apply sanitizedStyle_lookup_None. intros v Hv.
    rewrite Hm in Hv. injection Hv as <-.
    rewrite (keep_numeric k _ Hk). exact Hfin.
Qed.

(** C5. Under a numeric key, a string of the merged style whose
    conversion [Number(s)] is finite (a numeric-looking string, such as
    ["24"]) is replaced by that number; a string whose conversion is not
    finite leaves no entry; so the string is coerced exactly when the
    result is finite. ["24"] converts to 24. *)
Theorem C5_numeric_coercion (m : gmap string value) (k s : string) :
  k ∈ Style.numericStyleKeys -> m !! k = Some (VStr s) ->
  (JsNumber.isFinite (JsNumber.Number s) = true ->
     Style.sanitizedStyle m !! k = Some (VNum (JsNumber.Number s))) /\
  (JsNumber.isFinite (JsNumber.Number s) = false ->
     Style.sanitizedStyle m !! k = None) /\
  (Style.sanitizedStyle m !! k = Some (VNum (JsNumber.Number s)) <->
     JsNumber.isFinite (JsNumber.Number s) = true) /\
  JsNumber.Number "24" = 24%float.
Proof.
  intros Hk Hm. rewrite (sanitizedStyle_numeric_string m k s Hk Hm).
  destruct (JsNumber.isFinite (JsNumber.Number s)); repeat split; done.
Qed.

Lemma C5_numeric_coercion_witness :
  Style.sanitizedStyle sampleMergedStyle !! "titleSize" = Some (VNum 24) /\
  Style.sanitizedStyle sampleMergedStyle !! "lineSpacing" = None.
Proof.
  split.
  - apply (C5_numeric_coercion sampleMergedStyle "titleSize" "24");
      by vm_compute.
  - apply (C5_numeric_coercion sampleMergedStyle "lineSpacing" "wide");
      by vm_compute.
Defined.

(** ** C10: empty and blank strings under a numeric key *)

Lemma Number_blank (s : string) :
  JsNumber.blank s = true -> JsNumber.Number s = 0%float.
Proof.
  unfold JsNumber.blank, JsNumber.Number, JsNumber.trim.
  by destruct (JsNumber.trimStart s).
Qed.

(** C10. Under a numeric key, the empty string and any string made of
    white space only are not dropped: [Number] maps them to 0, which is
    finite, and the sanitised style holds the number 0 for the key. *)
Theorem C10_blank_string_becomes_zero (m : gmap string value) (k s : string) :
  k ∈ Style.numericStyleKeys -> m !! k = Some (VStr s) ->
  JsNumber.blank s = true ->
  Style.sanitizedStyle m !! k = Some (VNum 0).
Proof.
  intros Hk Hm Hblank.
  rewrite (sanitizedStyle_numeric_string m k s Hk Hm), (Number_blank s Hblank).
  reflexivity.
Qed.

Lemma C10_blank_string_witness :
  Style.sanitizedStyle {[ "paragraphSize" := VStr "" ]} !! "paragraphSize"
  = Some (VNum 0) /\
  Style.sanitizedStyle {[ "paragraphSize" := VStr blankText ]} !! "paragraphSize"
  = Some (VNum 0).
Proof.
  split.
  - apply (C10_blank_string_becomes_zero _ "paragraphSize" ""); by vm_compute.
  - apply (C10_blank_string_becomes_zero _ "paragraphSize" blankText); by vm_compute.
Defined.

(** ** C4: the output path *)

Lemma outputPath_absent (w : World) (flags : Flags) (inPath : string) :
  output flags = None \/ output flags = Some "" ->
  outputPath w flags inPath
  = Path.join [Path.dir (Path.parse inPath);
               Path.name (Path.parse inPath) +:+ ".docx"].
Proof. unfold outputPath, resolveOutputPath. by intros [-> | ->]. Qed.

Lemma outputPath_directory (w : World) (flags : Flags) (inPath d : string) :
  output flags = Some d -> d <> "" ->
  Str.endsWith "/" d = true \/ tryStat w d = Some IsDirectory ->
  outputPath w flags inPath
  = Path.join [d; Path.name (Path.parse inPath) +:+ ".docx"].
Proof.
  intros Ho Hd Hdir. unfold outputPath, resolveOutputPath. rewrite Ho.
  destruct d as [|c d]; [done |].
  destruct (tryStat w (String c d)) as [[| |]|] eqn:Hst;
    destruct Hdir as [Hend | Hst']; try done;
    change Path.sep with "/"; by rewrite Hend.
Qed.

Lemma outputPath_verbatim (w : World) (flags : Flags) (inPath d : string) :
  output flags = Some d -> d <> "" ->
  Str.endsWith "/" d = false -> tryStat w d <> Some IsDirectory ->
  outputPath w flags inPath = d.
Proof.
  intros Ho Hd Hend Hst. unfold outputPath, resolveOutputPath. rewrite Ho.
  destruct d as [|c d]; [done |].
  change Path.sep with "/". rewrite Hend.
  by destruct (tryStat w (String c d)) as [[| |]|].
Qed.

(** C4. The output path of [convert]. With no desired output (the flag
    absent or empty) it is the directory of the input joined with the
    input's base name and [.docx]. With a desired output that ends in the
    separator, or that is a directory on disk when [convert] looks, it is
    that directory joined with the input's base name and [.docx].
    Otherwise it is the desired output as given. For the input
    [notes/readme.md] these give [notes/readme.docx], [build/readme.docx]
    for [build/] (and for a directory [build]), and [out/final.docx]. *)
Theorem C4_output_path (w : World) (flags : Flags) (inPath : string) :
  (output flags = None \/ output flags = Some "" ->
     outputPath w flags inPath
     = Path.join [Path.dir (Path.parse inPath);
                  Path.name (Path.parse inPath) +:+ ".docx"]) /\
  (forall d, output flags = Some d -> d <> "" ->
     (Str.endsWith "/" d = true \/ tryStat w d = Some IsDirectory ->
        outputPath w flags inPath
        = Path.join [d; Path.name (Path.parse inPath) +:+ ".docx"]) /\
     (Str.endsWith "/" d = false -> tryStat w d <> Some IsDirectory ->
        outputPath w flags inPath = d)) /\
  outputPath w (outputFlag None) "notes/readme.md" = "notes/readme.docx" /\
  outputPath w (outputFlag (Some "build/")) "notes/readme.md" = "build/readme.docx" /\
  (tryStat w "build" = Some IsDirectory ->
     outputPath w (outputFlag (Some "build")) "notes/readme.md" = "build/readme.docx") /\
  (tryStat w "out/final.docx" <> Some IsDirectory ->
     outputPath w (outputFlag (Some "out/final.docx")) "notes/readme.md"
     = "out/final.docx").
Proof.
  split; [apply outputPath_absent |].
  split; [intros d Ho Hd; split;
          [by apply outputPath_directory | by apply outputPath_verbatim] |].
  split; [by rewrite outputPath_absent by (by left) |].
  split; [by rewrite (outputPath_directory w _ _ "build/") by (done || by left) |].
  split.
  - intros Hst. by rewrite (outputPath_directory w _ _ "build") by (done || by right).
  - intros Hst. by apply outputPath_verbatim.
Qed.

Lemma C4_output_path_witness :
  outputPath (sampleWorld false false) (outputFlag (Some "")) "notes/readme.md"
  = "notes/readme.docx" /\
  outputPath (sampleWorld false false) (outputFlag (Some "build")) "notes/readme.md"
  = "build/readme.docx" /\
  outputPath (sampleWorld false false) (outputFlag (Some "out/final.docx"))
             "notes/readme.md"
  = "out/final.docx".
Proof.
  pose proof (C4_output_path (sampleWorld false false) (outputFlag (Some ""))
                "notes/readme.md") as (H1 & _).
  pose proof (C4_output_path (sampleWorld false false) (outputFlag (Some "build"))
                "notes/readme.md") as (_ & H2 & _ & _ & H5 & _).
  pose proof (C4_output_path (sampleWorld false false)
                (outputFlag (Some "out/final.docx")) "notes/readme.md")
    as (_ & H3 & _ & _ & _ & H6).
  split; [|split].
  - rewrite H1 by (by right). reflexivity.
  - destruct (H2 "build" eq_refl ltac:(done)) as [Hdir _].
    rewrite Hdir by (by right). exact (H5 eq_refl).
  - destruct (H3 "out/final.docx" eq_refl ltac:(done)) as [_ Hverb].
    rewrite <- (Hverb eq_refl ltac:(done)) at 2. exact (H6 ltac:(done)).
Defined.

(** ** Two runs of the preparation, end to end *)

(** [doc.md] holding a title and a body, with [--toc --type report], no
    config file and no style file. *)
Example prepare_toc_report (w : World) :
  effectiveMarkdown tocRequested ("# Title" +:+ nl +:+ nl +:+ "Body")
  = nl +:+ "[TOC]" +:+ nl +:+ nl +:+ "# Title" +:+ nl +:+ nl +:+ "Body" /\
  options VUndefined VUndefined tocRequested
  = {| documentType := VStr "report"; styleOption := None |} /\
  outputPath w tocRequested "doc.md" = "doc.docx".
Proof. by vm_compute. Qed.

(** [--align CENTER] alone asks for a custom style: the fourteen numeric
    defaults come in, with the alignment on top; the style of the config
    file lies between the two. *)
Example prepare_align_center :
  Style.userWantsCustomStyle VUndefined VUndefined alignCenter = true /\
  (size <$> styleOption (options VUndefined VUndefined alignCenter)) = Some 15 /\
  (styleOption (options VUndefined VUndefined alignCenter)
     ≫= lookup "paragraphAlignment") = Some (VStr "CENTER") /\
  (styleOption (options VUndefined VUndefined alignCenter)
     ≫= lookup "titleSize") = Some (VNum 32) /\
  (styleOption (options readmeConfig VUndefined alignCenter)
     ≫= lookup "paragraphAlignment") = Some (VStr "CENTER") /\
  (styleOption (options readmeConfig VUndefined alignCenter)
     ≫= lookup "direction") = Some (VStr "LTR") /\
  (size <$> styleOption (options readmeConfig VUndefined Cli.nothingTyped))
  = Some 16 /\
  (styleOption (options readmeConfig VUndefined Cli.nothingTyped)
     ≫= lookup "paragraphAlignment") = Some (VStr "JUSTIFIED").
Proof. vm_compute. repeat split. Qed.

(** ** C7 and C1: the phases of [convert] *)

Ltac run_convert :=
  unfold runConvert, convert, convertBody, M.finally, M.try_catch, M.bind,
    M.lift, M.attempt, M.when, M.throw, M.ret, M.modify, M.get,
    setStatus, setStatusWith, setError, setBusy, setFileWatcher, call;
  simpl.

(** C7. When a phase before the write fails (the input is missing or is
    not a file, it cannot be read, the config file or the style file
    cannot be read or parsed, or the converter throws), [convert] makes no
    call that changes the world: no write to the output path, no open, no
    watcher; the phases after the failing one do not run, so the status
    stays the one of the failing phase, the error is the message of the
    failure, and [busy] is cleared. *)
Theorem C7_no_write_on_early_failure (w : World) (flags : Flags)
    (inPath : string) (failed : Status) (message : string) (s : Session) :
  PrePersistFailure w flags inPath failed message ->
  calls (runConvert w flags inPath s) = calls s /\
  fileWatcherRef (runConvert w flags inPath s) = fileWatcherRef s /\
  status (runConvert w flags inPath s) = Some failed /\
  error (runConvert w flags inPath s) = Some message /\
  busy (runConvert w flags inPath s) = false.
Proof.
  intros Hfail. destruct Hfail as
    [Hst | msg Hst Hrd | md msg Hst Hrd Hrc | md msg rc Hst Hrd Hrc Hsty
     | md msg rc sty Hst Hrd Hrc Hsty Hconv].
  - run_convert. destruct (tryStat w inPath) as [[| |]|]; done.
  - run_convert. rewrite Hst. simpl. by destruct Hrd as [-> | ->].
  - run_convert. rewrite Hst. simpl. rewrite Hrd, Hrc. done.
  - run_convert. rewrite Hst. simpl. rewrite Hrd, Hrc, Hsty. done.
  - run_convert. rewrite Hst. simpl. rewrite Hrd, Hrc, Hsty. simpl.
    rewrite Hconv. done.
Qed.

Lemma C7_no_write_witness :
  calls (runConvert (sampleWorld false true) openAndWatch "doc.md" initialSession) = [] /\
  error (runConvert (sampleWorld false true) openAndWatch "doc.md" initialSession)
  = Some "Invalid markdown" /\
  calls (runConvert (sampleWorld false false) openAndWatch "gone.md" initialSession) = [] /\
  error (runConvert (sampleWorld false false) openAndWatch "gone.md" initialSession)
  = Some "Input not found or not a file: gone.md".
Proof.
  assert (PrePersistFailure (sampleWorld false true) openAndWatch "doc.md"
            (convertingStatus openAndWatch (options VUndefined VUndefined openAndWatch))
            "Invalid markdown") as H1.
  { by apply (ConversionFailed _ _ _ ("# Title" +:+ nl +:+ nl +:+ "Body")). }
  assert (PrePersistFailure (sampleWorld false false) openAndWatch "gone.md"
            Validating (inputNotFound "gone.md")) as H2.
  { by apply InputNotFound. }
  destruct (C7_no_write_on_early_failure _ _ _ _ _ initialSession H1)
    as (Hc1 & _ & _ & He1 & _).
  destruct (C7_no_write_on_early_failure _ _ _ _ _ initialSession H2)
    as (Hc2 & _ & _ & He2 & _).
  exact (conj Hc1 (conj He1 (conj Hc2 He2))).
Defined.

(** C1, as the code has it. When every phase through the write has
    succeeded and the open flag is set, a failure of the file-open action
    leaves the write in place: the call that wrote the artifact to the
    output path was made and nothing undoes it. The failure itself is
    caught by the handler of the whole [try] block: its message becomes the
    error of the invocation, the status stays at the opening step, and the
    watcher that would come next is not installed. *)
Theorem C1_open_failure_after_persist (w : World) (flags : Flags)
    (inPath : string) (blob : Blob) (message : string) (s : Session) :
  Persisted w flags inPath blob ->
  on (open flags) = true ->
  openFile w (outputPath w flags inPath) = Some message ->
  calls (runConvert w flags inPath s)
  = (calls s ++ [CallWriteFile (outputPath w flags inPath) blob;
                CallOpenFile (outputPath w flags inPath)])%list /\
  error (runConvert w flags inPath s) = Some message /\
  status (runConvert w flags inPath s) = Some (Opening (outputPath w flags inPath)) /\
  fileWatcherRef (runConvert w flags inPath s) = fileWatcherRef s /\
  busy (runConvert w flags inPath s) = false.
Proof.
  intros [md rc sty b Hst Hrd Hrc Hsty Hconv Hwr] Hopen Hfail.
  run_convert. rewrite Hst. simpl. rewrite Hrd, Hrc, Hsty. simpl.
  rewrite Hconv. simpl. rewrite Hwr, Hopen. simpl. rewrite Hfail. simpl.
  by rewrite <- app_assoc.
Qed.

Lemma C1_open_failure_witness :
  calls (runConvert (sampleWorld true false) openAndWatch "doc.md" initialSession)
  = [CallWriteFile "doc.docx" "PK-docx"; CallOpenFile "doc.docx"] /\
  error (runConvert (sampleWorld true false) openAndWatch "doc.md" initialSession)
  = Some "spawn xdg-open ENOENT".
Proof.
  assert (Persisted (sampleWorld true false) openAndWatch "doc.md" "PK-docx") as Hp.
  { by apply (PersistedOk _ _ _ ("# Title" +:+ nl +:+ nl +:+ "Body")
                VUndefined VUndefined). }
  destruct (C1_open_failure_after_persist (sampleWorld true false) openAndWatch
              "doc.md" "PK-docx" "spawn xdg-open ENOENT" initialSession
              Hp eq_refl eq_refl) as (Hc & He & _).
  exact (conj Hc He).
Defined.

(** C1 as the specification states it fails: with [--open --watch], an
    input that converts and is written, and a file-open action that
    throws, the invocation ends with the failure as its error, exactly as
    after a fatal one, and the watcher that was asked for is not
    installed. *)
Lemma C1_open_failure_is_fatal :
  Persisted (sampleWorld true false) openAndWatch "doc.md" "PK-docx" /\
  on (open openAndWatch) = true /\
  on (watch openAndWatch) = true /\
  openFile (sampleWorld true false) "doc.docx" = Some "spawn xdg-open ENOENT" /\
  error (runConvert (sampleWorld true false) openAndWatch "doc.md" initialSession)
  <> None /\
  fileWatcherRef
    (runConvert (sampleWorld true false) openAndWatch "doc.md" initialSession)
  = None /\
  error (runConvert (sampleWorld false true) openAndWatch "doc.md" initialSession)
  <> None.
Proof.
  split; [|by vm_compute].
  by apply (PersistedOk _ _ _ ("# Title" +:+ nl +:+ nl +:+ "Body")
              VUndefined VUndefined).
Qed.

(** When nothing fails, the run ends watching, with the three calls made. *)
Example convert_succeeds :
  runConvert (sampleWorld false false) openAndWatch "doc.md" initialSession
  = {| status := Some (Watching (Some (Opening "doc.docx")));
       error := None; busy := false;
       fileWatcherRef := Some "doc.md"; debounceTimerRef := None;
       calls := [CallWriteFile "doc.docx" "PK-docx"; CallOpenFile "doc.docx";
                 CallWatchFile "doc.md"] |}.
Proof. by vm_compute. Qed.

(** ** C6: the document type *)

(** The expression [flags.type ?? rc?.documentType ?? "document"] by
    itself: a flag that is present wins, an absent one leaves the choice
    to the config file, then to the default. *)
Lemma documentType_precedence (rc styleFromFile : value) (flags : Flags) :
  documentType (options rc styleFromFile flags)
  = match type flags with
    | Some t => VStr t
    | None => nullish (get_opt rc "documentType") (VStr "document")
    end.
Proof. unfold options. simpl. by destruct (type flags). Qed.

(** C6. On the flags that the command line hands to [App] and to the
    wizard, the type flag is never absent: its declared default fills it.
    The document type passed to the converter is then the typed flag or
    ["document"], whatever the config file says. With the config file of
    the README ([documentType] is [report]) and no flag typed, the
    converter gets ["document"]; the same expression on flags without the
    default would give ["report"]. *)
Theorem C6_cli_default_hides_config_type (g : Cli.Given) (rc styleFromFile : value) :
  documentType (options rc styleFromFile (Cli.flags g))
  = VStr (default "document" (type (Cli.given g))) /\
  documentType (options readmeConfig VUndefined (Cli.flags onlyInput))
  = VStr "document" /\
  documentType (options readmeConfig VUndefined Cli.nothingTyped)
  = VStr "report".
Proof.
  rewrite !documentType_precedence. repeat split.
Qed.

(** The wizard starts from the same flags and only ever sets a type, so
    the flag is present at every step of it too. *)
Lemma wizard_keeps_type (a : Wizard.Action) (st : Wizard.State) :
  is_Some (type (Wizard.flags st)) ->
  is_Some (type (Wizard.flags (Wizard.dispatch a st))).
Proof.
  intros Hty. destruct st as [stp p f]. simpl in Hty.
  assert (forall st', Wizard.flags st' = f ->
                      is_Some (type (Wizard.flags (Wizard.goPrev st')))) as Hprev.
  { intros st' <-. unfold Wizard.goPrev. by destruct (_ !! _). }
  destruct a as [pos | full | v | | input esc]; simpl.
  - destruct stp; simpl; try done;
      do 5 (try destruct pos as [|pos]); simpl; try done;
      try (by apply Hprev); try (by eexists).
    all: try (destruct pos as [|pos]; simpl; try done).
    all: try (destruct pos as [|pos]; simpl; try done).
  - by destruct stp.
  - by destruct stp.
  - by destruct stp.
  - unfold Wizard.onKey.
    repeat (match goal with |- context [if ?b then _ else _] => destruct b end);
      simpl; try done; by apply Hprev.
Qed.

(** ** C9: cancel in the wizard *)



(** Other navigation of the wizard: back stops at welcome, and only r
    from confirm jumps to run. *)
Example wizard_navigation :
  Wizard.step (Wizard.goPrev (atStep Step.welcome)) = Step.welcome /\
  Wizard.step (Wizard.goPrev (atStep Step.toc)) = Step.pickType /\
  Wizard.step (Wizard.dispatch (Wizard.Key "R" false) (atStep Step.confirm)) = Step.run /\
  Wizard.step (Wizard.dispatch (Wizard.Key "r" false) (atStep Step.open)) = Step.open /\
  Wizard.step (Wizard.dispatch (Wizard.Key "Q" false) (atStep Step.run)) = Step.welcome /\
  Wizard.flags (Wizard.dispatch (Wizard.Edit "") midWizard)
  = Wizard.updateFlags (Wizard.SetOutput None) (Wizard.flags midWizard).
Proof. by vm_compute. Qed.

(** ** C8: the debounce timer *)

Lemma keepsTimer_ret {A} (a : A) : keepsTimer (M.ret a).
Proof. by intros s. Qed.

Lemma keepsTimer_throw {A} (e : string) : keepsTimer (@M.throw A e).
Proof. by intros s. Qed.

Lemma keepsTimer_bind {A B} (m : M.t A) (k : A -> M.t B) :
  keepsTimer m -> (forall a, keepsTimer (k a)) -> keepsTimer (M.bind m k).
Proof.
  intros Hm Hk s. unfold M.bind. specialize (Hm s).
  destruct (m s) as [s' [e|a]]; simpl in *; [done |].
  by rewrite Hk.
Qed.

Lemma keepsTimer_lift {A} (r : string + A) : keepsTimer (M.lift r).
Proof. by destruct r. Qed.

Lemma keepsTimer_attempt (r : option string) : keepsTimer (M.attempt r).
Proof. by destruct r. Qed.

Lemma keepsTimer_when (b : bool) (m : M.t unit) :
  keepsTimer m -> keepsTimer (M.when b m).
Proof. by destruct b. Qed.

Lemma keepsTimer_get : keepsTimer M.get.
Proof. by intros s. Qed.

Lemma keepsTimer_try_catch (m : M.t unit) (h : string -> M.t unit) :
  keepsTimer m -> (forall e, keepsTimer (h e)) -> keepsTimer (M.try_catch m h).
Proof.
  intros Hm Hh s. unfold M.try_catch. specialize (Hm s).
  destruct (m s) as [s' [e|a]]; simpl in *; [|done].
  by rewrite Hh.
Qed.

Lemma keepsTimer_finally (m cleanup : M.t unit) :
  keepsTimer m -> keepsTimer cleanup -> keepsTimer (M.finally m cleanup).
Proof.
  intros Hm Hc s. unfold M.finally. specialize (Hm s).
  destruct (m s) as [s' r]; simpl in *. by rewrite Hc.
Qed.

Ltac keeps_timer :=
  repeat first
    [ apply keepsTimer_bind; [|intros ?]
    | apply keepsTimer_try_catch; [|intros ?]
    | apply keepsTimer_finally
    | apply keepsTimer_when
    | apply keepsTimer_lift
    | apply keepsTimer_attempt
    | apply keepsTimer_get
    | apply keepsTimer_ret
    | apply keepsTimer_throw
    | by intros ?
    | match goal with
      | |- keepsTimer (match ?x with _ => _ end) => destruct x
      end ].

Lemma convert_keepsTimer (w : World) (flags : Flags) (inPath : string) :
  keepsTimer (convert w flags inPath).
Proof. unfold convert, convertBody. keeps_timer. Qed.

Lemma runConvert_debounceTimerRef (w : World) (flags : Flags) (inPath : string)
    (s : Session) :
  debounceTimerRef (runConvert w flags inPath s) = debounceTimerRef s.
Proof. apply convert_keepsTimer. Qed.

Section Debounce.

Variables (w : World) (flags : Flags) (inPath : string).

Local Abbreviation step := (Loop.step w flags inPath).
Local Abbreviation run := (Loop.run w flags inPath).
Local Abbreviation turn := (Loop.turn w flags inPath).


Lemma run_app (l : Loop.t) (a b : list Loop.Event) :
  run l (a ++ b) = run (run l a) b.
Proof. unfold Loop.run. apply foldl_app. Qed.
















Lemma ordered_app (a b : list Loop.Event) (from : Z) :
  Loop.ordered from (a ++ b) = true -> Loop.ordered from a = true.
Proof.
  revert from. induction a as [|e a IH]; intros from; simpl; [done |].
  rewrite !andb_true_iff. intros [? ?]. split; [done | by eapply IH].
Qed.


End Debounce.



(** Five notifications 10 ms apart: nothing runs up to 239 ms, one
    reconversion runs at the first turn from 240 ms on, none after it. *)
Example five_changes_one_reconversion :
  Loop.lastDue 200 fiveChanges = 240%Z /\
  Loop.reconversions
    (Loop.run (sampleWorld false false) openAndWatch "doc.md" watching
              (Loop.Change 0 :: fiveChanges)) = [] /\
  Loop.reconversions
    (Loop.run (sampleWorld false false) openAndWatch "doc.md" watching
              (Loop.Change 0 :: fiveChanges ++ [Loop.Turn 240; Loop.Turn 500]))
  = [240%Z] /\
  length (calls (Loop.session
    (Loop.run (sampleWorld false false) openAndWatch "doc.md" watching
              (Loop.Change 0 :: fiveChanges ++ [Loop.Turn 240; Loop.Turn 500]))))
  = 5.
Proof. by vm_compute. Qed.

(** * Further properties *)

(** ** The style merge, source by source *)

Lemma assign_lookup (entries : list (string * value)) (m : gmap string value)
    (k : string) :
  assign m entries !! k
  = match Layers.lastEntry k entries with
    | Some v => Some v
    | None => m !! k
    end.
Proof.
  revert m. induction entries as [|[k' v] rest IH]; intros m; [done |].
  change (assign m ((k', v) :: rest)) with (assign (<[k' := v]> m) rest).
  rewrite IH. simpl. destruct (Layers.lastEntry k rest); [done |].
  destruct (String.eqb_spec k k') as [-> | Hne].
  - by rewrite lookup_insert_eq.
  - by rewrite lookup_insert_ne.
Qed.

Lemma mergedRaw_lookup (rc styleFromFile : value) (flags : Flags) (k : string) :
  Style.mergedRaw rc styleFromFile flags !! k
  = Layers.firstOf k (Layers.sources rc styleFromFile flags).
Proof.
  unfold Style.mergedRaw, fromEntries, Layers.sources, Layers.firstOf.
  rewrite !assign_lookup, lookup_empty.
  destruct (on (rtl flags)); simpl.
  - destruct (String.eqb k "direction"); [done |].
    by destruct (align flags) as [[|c a]|].
  - by destruct (align flags) as [[|c a]|].
Qed.

(** X1. The merged style gives each key the value of the strongest source
    that has it: the rtl flag, then the align flag, then the style file,
    then the style block of the config file, then the numeric defaults;
    a key that no source has is absent. *)
Theorem mergedRaw_strongest_source (rc styleFromFile : value) (flags : Flags)
    (k : string) :
  Style.mergedRaw rc styleFromFile flags !! k
  = Layers.firstOf k (Layers.sources rc styleFromFile flags).
Proof. apply mergedRaw_lookup. Qed.

Lemma paragraphAlignment_is_string_key : "paragraphAlignment" ∈ Style.stringStyleKeys.
Proof. by vm_compute. Qed.

Lemma direction_is_string_key : "direction" ∈ Style.stringStyleKeys.
Proof. by vm_compute. Qed.

Lemma styleOption_lookup (rc styleFromFile : value) (flags : Flags)
    (k : string) (v : value) :
  Style.userWantsCustomStyle rc styleFromFile flags = true ->
  Style.sanitizedStyle (Style.mergedRaw rc styleFromFile flags) !! k = Some v ->
  exists s, styleOption (options rc styleFromFile flags) = Some s /\ s !! k = Some v.
Proof.
  intros Hcustom Hk. unfold options. simpl. rewrite Hcustom. simpl.
  destruct (Nat.eqb_spec
              (size (Style.sanitizedStyle (Style.mergedRaw rc styleFromFile flags))) 0)
    as [Hsize | Hsize]; simpl.
  - apply map_size_empty_iff in Hsize. rewrite Hsize in Hk.
    rewrite lookup_empty in Hk. discriminate Hk.
  - eexists. split; [reflexivity | exact Hk].
Qed.

Lemma string_entry_kept (m : gmap string value) (k : string)
    (c : ascii) (s : string) :
  k ∈ Style.stringStyleKeys -> m !! k = Some (VStr (String c s)) ->
  Style.sanitizedStyle m !! k = Some (VStr (String c s)).
Proof.
  intros Hk Hm. apply sanitizedStyle_lookup. exists (VStr (String c s)).
  rewrite (keep_string k _ Hk).
  rewrite (convert_entry_other k _ (string_not_numeric k Hk)).
  split; [exact Hm | split; reflexivity].
Qed.

(** X2. A non-empty align flag always reaches the converter: whatever the
    config file and the style file hold, the style passed holds
    [paragraphAlignment] with the value of the flag. Likewise the rtl flag
    puts [direction] at ["RTL"], over any direction the files give. *)
Theorem flags_reach_converter (rc styleFromFile : value) (flags : Flags) :
  (forall a, align flags = Some a -> a <> "" ->
     exists s, styleOption (options rc styleFromFile flags) = Some s /\
               s !! "paragraphAlignment" = Some (VStr a)) /\
  (on (rtl flags) = true ->
     exists s, styleOption (options rc styleFromFile flags) = Some s /\
               s !! "direction" = Some (VStr "RTL")).
Proof.
  split.
  - intros a Ha Hne. destruct a as [|c a]; [done |].
    apply styleOption_lookup.
    + unfold Style.userWantsCustomStyle. rewrite Ha. simpl.
      by rewrite orb_true_r.
    + apply (string_entry_kept _ _ c a paragraphAlignment_is_string_key).
      rewrite mergedRaw_lookup. unfold Layers.sources. rewrite Ha.
      simpl. by destruct (on (rtl flags)).
  - intros Hrtl. apply styleOption_lookup.
    + unfold Style.userWantsCustomStyle. rewrite Hrtl. by rewrite orb_true_r.
    + apply (string_entry_kept _ _ "R"%char "TL" direction_is_string_key).
      rewrite mergedRaw_lookup. unfold Layers.sources. rewrite Hrtl.
      reflexivity.
Qed.

Lemma flags_reach_converter_witness :
  (exists s, styleOption (options readmeConfig rivalStyleFile centerRtl) = Some s /\
             s !! "paragraphAlignment" = Some (VStr "CENTER")) /\
  (exists s, styleOption (options readmeConfig rivalStyleFile centerRtl) = Some s /\
             s !! "direction" = Some (VStr "RTL")).
Proof.
  destruct (flags_reach_converter readmeConfig rivalStyleFile centerRtl) as [Ha Hr].
  split.
  - exact (Ha "CENTER" eq_refl ltac:(discriminate)).
  - exact (Hr eq_refl).
Defined.

(** ** The sanitiser as a whole *)

Lemma kept_entry_stable (k : string) (v0 v : value) :
  Style.keep (k, v0) = true -> Style.convert_entry (k, v0) = (k, v) ->
  Style.keep (k, v) = true /\ Style.convert_entry (k, v) = (k, v).
Proof.
  unfold Style.keep, Style.convert_entry.
  destruct (Style.has Style.numericStyleKeys k).
  - intros Hfin Hconv. injection Hconv as <-.
    destruct (Number_isFinite_inv _ Hfin) as (n & Hn & Hn').
    rewrite Hn. simpl. split; [exact Hn' | reflexivity].
  - intros Hkeep Hconv. injection Hconv as <-. split; [exact Hkeep | reflexivity].
Qed.

(** X3. Sanitising is idempotent: a style that has been sanitised passes
    through a second time unchanged. *)
Theorem sanitizedStyle_idempotent (m : gmap string value) :
  Style.sanitizedStyle (Style.sanitizedStyle m) = Style.sanitizedStyle m.
Proof.
  apply map_eq. intros k.
  destruct (Style.sanitizedStyle m !! k) as [v|] eqn:Hk.
  - apply sanitizedStyle_lookup. exists v.
    pose proof Hk as (v0 & _ & Hkeep & Hconv)%sanitizedStyle_lookup.
    destruct (kept_entry_stable k v0 v Hkeep Hconv) as [Hkeep' Hconv'].
    split; [exact Hk | split; [exact Hkeep' | exact Hconv']].
  - apply sanitizedStyle_lookup_None. intros v Hv. rewrite Hk in Hv. discriminate Hv.
Qed.

(** X4. The sanitiser only removes and converts: every entry of the
    result comes from an entry of the merged style with the same key, and
    its value is that entry's value, unless the key is numeric and the
    value was a string, which is replaced by its number. *)
Theorem sanitizedStyle_from_input (m : gmap string value) (k : string) (v : value) :
  Style.sanitizedStyle m !! k = Some v ->
  exists v0, m !! k = Some v0 /\
    (v = v0 \/
     (k ∈ Style.numericStyleKeys /\
      exists s, v0 = VStr s /\ v = VNum (JsNumber.Number s))).
Proof.
  intros (v0 & Hm & _ & Hconv)%sanitizedStyle_lookup. exists v0.
  split; [exact Hm |]. unfold Style.convert_entry in Hconv.
  destruct (Style.has Style.numericStyleKeys k) eqn:Hnum.
  - injection Hconv as <-. destruct v0; try (left; reflexivity).
    right. split; [by apply has_true | eexists; split; reflexivity].
  - injection Hconv as <-. left. reflexivity.
Qed.

Lemma sanitizedStyle_from_input_witness :
  exists v0, sampleMergedStyle !! "titleSize" = Some v0 /\
    (VNum 24 = v0 \/
     ("titleSize" ∈ Style.numericStyleKeys /\
      exists s, v0 = VStr s /\ VNum 24 = VNum (JsNumber.Number s))).
Proof.
  apply (sanitizedStyle_from_input sampleMergedStyle "titleSize" (VNum 24)).
  by vm_compute.
Defined.

(** X5. Under a numeric key nothing but a string is coerced: a number is
    kept as it is when it is finite and dropped when it is NaN or an
    infinity, and a value of any other type ([true], [null], an array, an
    object) is dropped. *)
Theorem numeric_key_without_coercion (m : gmap string value) (k : string) (v : value) :
  k ∈ Style.numericStyleKeys -> m !! k = Some v ->
  (forall n, v = VNum n ->
     Style.sanitizedStyle m !! k
     = if JsNumber.isFinite n then Some (VNum n) else None) /\
  (typeof v <> TNumber -> typeof v <> TString ->
     Style.sanitizedStyle m !! k = None).
Proof.
  intros Hk Hm. split.
  - intros n ->. destruct (JsNumber.isFinite n) eqn:Hfin.
    + apply sanitizedStyle_lookup. exists (VNum n).
      rewrite (keep_numeric k _ Hk), (convert_entry_numeric k _ Hk).
      split; [exact Hm | split; [exact Hfin | reflexivity]].
    + apply sanitizedStyle_lookup_None. intros v Hv.
      rewrite Hm in Hv. injection Hv as <-.
      rewrite (keep_numeric k _ Hk). exact Hfin.
  - intros Hnum Hstr. apply sanitizedStyle_lookup_None. intros v' Hv.
    rewrite Hm in Hv. injection Hv as <-.
    rewrite (keep_numeric k _ Hk). destruct v; try reflexivity.
    + by destruct Hnum.
    + by destruct Hstr.
Qed.

Lemma numeric_key_without_coercion_witness :
  Style.sanitizedStyle mixedNumbers !! "titleSize" = Some (VNum 30) /\
  Style.sanitizedStyle mixedNumbers !! "headingSpacing" = None /\
  Style.sanitizedStyle mixedNumbers !! "paragraphSpacing" = None /\
  Style.sanitizedStyle mixedNumbers !! "lineSpacing" = None.
Proof.
  split; [|split; [|split]].
  - destruct (numeric_key_without_coercion mixedNumbers "titleSize" (VNum 30))
      as [H _]; [by vm_compute | by vm_compute |].
    exact (H 30%float eq_refl).
  - destruct (numeric_key_without_coercion mixedNumbers "headingSpacing"
                (VNum infinity)) as [H _]; [by vm_compute | by vm_compute |].
    exact (H infinity eq_refl).
  - destruct (numeric_key_without_coercion mixedNumbers "paragraphSpacing"
                (VBool true)) as [_ H]; [by vm_compute | by vm_compute |].
    apply H; discriminate.
  - destruct (numeric_key_without_coercion mixedNumbers "lineSpacing" VNull)
      as [_ H]; [by vm_compute | by vm_compute |].
    apply H; discriminate.
Defined.

(** ** [loadJsonIfExists] *)

(** X6. Loading an optional JSON file: with no path or an empty one, and
    with a path whose file does not exist, the result is [undefined] and
    never an error. An error comes only from a file that exists and cannot
    be read or parsed, and its message names the file and carries the
    message of the cause. *)
Theorem loadJsonIfExists_outcomes (w : World) (filePath : option string) :
  (Str.truthy filePath = false -> loadJsonIfExists w filePath = inr VUndefined) /\
  (forall p detail, filePath = Some p -> readFile w p = ReadNoEntry detail ->
     loadJsonIfExists w filePath = inr VUndefined) /\
  (forall message, loadJsonIfExists w filePath = inl message ->
     exists p detail,
       filePath = Some p /\ p <> "" /\
       message = "Failed to read or parse JSON: " +:+ p +:+ nl +:+ detail /\
       (readFile w p = ReadFailed detail \/
        exists text, readFile w p = ReadOk text /\ JSON_parse w text = inl detail)).
Proof.
  unfold loadJsonIfExists. split; [|split].
  - by destruct filePath as [[|c p]|].
  - intros p detail -> Hread. destruct p as [|c p]; [done |]. by rewrite Hread.
  - intros message. destruct filePath as [[|c p]|]; try done.
    destruct (readFile w (String c p)) as [text | d | d] eqn:Hread; try done.
    + destruct (JSON_parse w text) as [d | v] eqn:Hparse; [|done].
      intros [= <-]. exists (String c p), d.
      split; [done | split; [done | split; [done |]]].
      right. by exists text.
    + intros [= <-]. exists (String c p), d.
      split; [done | split; [done | split; [done |]]]. by left.
Qed.

Lemma loadJsonIfExists_witness :
  loadJsonIfExists (sampleWorld false false) (Some "") = inr VUndefined /\
  loadJsonIfExists (sampleWorld false false) (Some "style.json") = inr VUndefined /\
  (exists p detail,
     Some "doc.md" = Some p /\ p <> "" /\
     "Failed to read or parse JSON: doc.md" +:+ nl +:+ "Unexpected token"
     = "Failed to read or parse JSON: " +:+ p +:+ nl +:+ detail /\
     (readFile (sampleWorld false false) p = ReadFailed detail \/
      exists text, readFile (sampleWorld false false) p = ReadOk text /\
                   JSON_parse (sampleWorld false false) text = inl detail)).
Proof.
  destruct (loadJsonIfExists_outcomes (sampleWorld false false) (Some "")) as (H1 & _).
  destruct (loadJsonIfExists_outcomes (sampleWorld false false) (Some "style.json"))
    as (_ & H2 & _).
  destruct (loadJsonIfExists_outcomes (sampleWorld false false) (Some "doc.md"))
    as (_ & _ & H3).
  split; [exact (H1 eq_refl) |].
  split; [exact (H2 "style.json" _ eq_refl eq_refl) |].
  exact (H3 _ eq_refl).
Defined.

(** ** Runs of [convert] *)

Ltac convert_cases :=
  run_convert;
  repeat match goal with
  | |- context [tryStat ?w ?p] => destruct (tryStat w p) as [[| |]|]; simpl
  | |- context [readFile ?w ?p] => destruct (readFile w p); simpl
  | |- context [loadJsonIfExists ?w ?p] => destruct (loadJsonIfExists w p); simpl
  | |- context [convertMarkdownToDocx ?w ?a ?b] =>
      destruct (convertMarkdownToDocx w a b); simpl
  | |- context [writeFile ?w ?a ?b] => destruct (writeFile w a b); simpl
  | |- context [on (open ?f)] => destruct (on (open f)); simpl
  | |- context [openFile ?w ?a] => destruct (openFile w a); simpl
  | |- context [on (watch ?f)] => destruct (on (watch f)); simpl
  | |- context [bool_decide (is_Some (fileWatcherRef ?s))] =>
      destruct (fileWatcherRef s); simpl
  | |- context [watchFile ?w ?a] => destruct (watchFile w a); simpl
  end.

(** X7. A run in which nothing fails: when every phase through the write
    succeeds, the file-open action (if asked for) succeeds and the watcher
    (if one is to be set up) starts, the run ends without an error. Its
    calls are the write, then the open if asked for, then the watcher if
    the watch flag is set and none is installed yet. The status ends at
    the opening message when the open flag is set and at the done message
    otherwise, with the watching line appended when the watcher was set
    up in this run. *)
Theorem convert_success (w : World) (flags : Flags) (inPath : string)
    (blob : Blob) (s : Session) :
  Persisted w flags inPath blob ->
  (on (open flags) = true -> openFile w (outputPath w flags inPath) = None) ->
  (installsWatcher flags s = true -> watchFile w inPath = None) ->
  error (runConvert w flags inPath s) = None /\
  status (runConvert w flags inPath s)
  = Some (let reached := if on (open flags)
                         then Opening (outputPath w flags inPath)
                         else Done (outputPath w flags inPath) in
          if installsWatcher flags s then Watching (Some reached) else reached) /\
  fileWatcherRef (runConvert w flags inPath s)
  = (if installsWatcher flags s then Some inPath else fileWatcherRef s) /\
  calls (runConvert w flags inPath s)
  = (calls s ++ CallWriteFile (outputPath w flags inPath) blob
       :: (if on (open flags) then [CallOpenFile (outputPath w flags inPath)] else [])
       ++ (if installsWatcher flags s then [CallWatchFile inPath] else []))%list.
Proof.
  intros [md rc sty b Hst Hrd Hrc Hsty Hconv Hwr] Hopen Hwatch.
  unfold installsWatcher in *.
  run_convert. rewrite Hst. simpl. rewrite Hrd, Hrc, Hsty. simpl.
  rewrite Hconv. simpl. rewrite Hwr. simpl.
  destruct (on (open flags)); simpl.
  - rewrite (Hopen eq_refl). simpl.
    destruct (on (watch flags)); simpl in *; [|by rewrite <- !app_assoc].
    destruct (fileWatcherRef s); simpl in *; [by rewrite <- !app_assoc|].
    rewrite (Hwatch eq_refl). simpl. by rewrite <- !app_assoc.
  - destruct (on (watch flags)); simpl in *; [|done].
    destruct (fileWatcherRef s); simpl in *; [done|].
    rewrite (Hwatch eq_refl). simpl. by rewrite <- !app_assoc.
Qed.

Lemma convert_success_witness :
  error (runConvert (sampleWorld false false) openAndWatch "doc.md" initialSession)
  = None /\
  status (runConvert (sampleWorld false false) openAndWatch "doc.md" initialSession)
  = Some (Watching (Some (Opening "doc.docx"))) /\
  fileWatcherRef
    (runConvert (sampleWorld false false) openAndWatch "doc.md" initialSession)
  = Some "doc.md" /\
  calls (runConvert (sampleWorld false false) openAndWatch "doc.md" initialSession)
  = [CallWriteFile "doc.docx" "PK-docx"; CallOpenFile "doc.docx";
     CallWatchFile "doc.md"].
Proof.
  assert (Persisted (sampleWorld false false) openAndWatch "doc.md" "PK-docx") as Hp.
  { by apply (PersistedOk _ _ _ ("# Title" +:+ nl +:+ nl +:+ "Body")
                VUndefined VUndefined). }
  exact (convert_success (sampleWorld false false) openAndWatch "doc.md" "PK-docx"
           initialSession Hp (fun _ => eq_refl) (fun _ => eq_refl)).
Defined.

(** X8. A watcher that cannot be set up does not undo the conversion: the
    write (and the open, if asked for) has been made and stays. The run
    ends with the error ["Failed to start file watcher: "] followed by the
    message of the cause, with the status cleared and no watcher
    installed. *)
Theorem watcher_failure_keeps_artifact (w : World) (flags : Flags)
    (inPath : string) (blob : Blob) (message : string) (s : Session) :
  Persisted w flags inPath blob ->
  (on (open flags) = true -> openFile w (outputPath w flags inPath) = None) ->
  on (watch flags) = true -> fileWatcherRef s = None ->
  watchFile w inPath = Some message ->
  error (runConvert w flags inPath s)
  = Some ("Failed to start file watcher: " +:+ message) /\
  status (runConvert w flags inPath s) = None /\
  fileWatcherRef (runConvert w flags inPath s) = None /\
  calls (runConvert w flags inPath s)
  = (calls s ++ CallWriteFile (outputPath w flags inPath) blob
       :: (if on (open flags) then [CallOpenFile (outputPath w flags inPath)] else [])
       ++ [CallWatchFile inPath])%list.
Proof.
  intros [md rc sty b Hst Hrd Hrc Hsty Hconv Hwr] Hopen Hwatch Href Hfail.
  run_convert. rewrite Hst. simpl. rewrite Hrd, Hrc, Hsty. simpl.
  rewrite Hconv. simpl. rewrite Hwr, Hwatch. simpl.
  destruct (on (open flags)); simpl.
  - rewrite (Hopen eq_refl). simpl. rewrite Href. simpl. rewrite Hfail. simpl.
    by rewrite <- !app_assoc.
  - rewrite Href. simpl. rewrite Hfail. simpl. by rewrite <- !app_assoc.
Qed.

(** X9. At most one watcher: once a watcher is installed, a run of
    [convert] keeps it and does not call [watchFile] again, whatever the
    flags say and however the run ends. *)
Theorem watcher_installed_once (w : World) (flags : Flags) (inPath : string)
    (s : Session) (watched : string) :
  fileWatcherRef s = Some watched ->
  fileWatcherRef (runConvert w flags inPath s) = Some watched /\
  List.filter isWatchCall (calls (runConvert w flags inPath s))
  = List.filter isWatchCall (calls s).
Proof.
  intros Href. convert_cases; rewrite ?Href; simpl;
    rewrite ?List.filter_app; simpl; rewrite ?app_nil_r; done.
Qed.

(** X10. The calls of a run, for every world: a run adds to the calls
    made so far either nothing, or the write to the output path followed
    by at most the open of that path and then at most the watch of the
    input. Nothing is opened or watched that was not written first; the
    open only comes with the open flag, the watch only with the watch flag
    and no watcher installed. *)
Theorem convert_calls_in_order (w : World) (flags : Flags) (inPath : string)
    (s : Session) :
  exists new,
    calls (runConvert w flags inPath s) = (calls s ++ new)%list /\
    (new = [] \/
     exists blob (opened watched : bool),
       new = (CallWriteFile (outputPath w flags inPath) blob
                :: (if opened then [CallOpenFile (outputPath w flags inPath)] else [])
                ++ (if watched then [CallWatchFile inPath] else []))%list /\
       (opened = true -> on (open flags) = true) /\
       (watched = true -> on (watch flags) = true /\ fileWatcherRef s = None)).
Proof.
  convert_cases;
    first
      [ exists []; split; [by rewrite app_nil_r | by left]
      | eexists; split; [rewrite <- ?app_assoc; simpl; reflexivity |] ];
    first
      [ right; eexists _, true, true; split; [reflexivity | by split]
      | right; eexists _, true, false; split; [reflexivity | by split]
      | right; eexists _, false, true; split; [reflexivity | by split]
      | right; eexists _, false, false; split; [reflexivity | by split] ].
Qed.

(** X11. After every run of [convert], whatever the world answers, the
    working banner is gone and exactly one banner is on screen: the error
    banner with the message of the failure, or, when there is no error or
    its message is empty, the status banner with the last status (marked
    done when the status text starts with [Done:]). The ready banner is
    never shown after a run. *)
Theorem convert_shows_one_banner (w : World) (flags : Flags) (inPath : string)
    (s : Session) (pathValue : string) :
  busy (runConvert w flags inPath s) = false /\
  ((exists message,
      error (runConvert w flags inPath s) = Some message /\ message <> "" /\
      View.banners pathValue (runConvert w flags inPath s)
      = [View.ErrorBanner message]) \/
   (exists st,
      status (runConvert w flags inPath s) = Some st /\
      View.banners pathValue (runConvert w flags inPath s)
      = [View.Info (View.startsWithDone st) st])).
Proof.
  split; [convert_cases; reflexivity |].
  unfold View.banners.
  convert_cases;
    try (right; eexists; split; reflexivity);
    match goal with
    | |- context [Some ?m] =>
        first
          [ left; exists m; split; [reflexivity | split; [discriminate | reflexivity]]
          | destruct m as [|? ?];
            [ right; eexists; split; reflexivity
            | left; eexists; split; [reflexivity | split; [discriminate | reflexivity]] ] ]
    end.
Qed.

(** X12. Each run starts afresh: the outcome of [convert] does not depend
    on the status, the error or the busy flag left by an earlier run, only
    on the watcher, the timer and the calls already made. In particular an
    old error never survives into the result of a new run. *)
Theorem convert_starts_afresh (w : World) (flags : Flags) (inPath : string)
    (s1 s2 : Session) :
  fileWatcherRef s1 = fileWatcherRef s2 ->
  debounceTimerRef s1 = debounceTimerRef s2 ->
  calls s1 = calls s2 ->
  runConvert w flags inPath s1 = runConvert w flags inPath s2.
Proof.
  destruct s1 as [st1 e1 b1 fw1 dt1 c1], s2 as [st2 e2 b2 fw2 dt2 c2]. simpl.
  intros -> -> ->. convert_cases; reflexivity.
Qed.

(** X13. The live check of a typed path and the validation of [convert]
    agree: a path the check marks valid passes the validation phase, and a
    path it marks invalid makes [convert] stop there with the
    input-not-found error and no call made. The check always gives one of
    the two verdicts. *)
Theorem live_check_agrees_with_convert (w : World) (flags : Flags)
    (pathValue : string) (s : Session) :
  (PathEntry.pathIsValid (PathEntry.validate w pathValue) = Some true ->
     status (runConvert w flags pathValue s) <> Some Validating) /\
  (PathEntry.pathIsValid (PathEntry.validate w pathValue) = Some false ->
     error (runConvert w flags pathValue s)
     = Some ("Input not found or not a file: " +:+ pathValue) /\
     status (runConvert w flags pathValue s) = Some Validating /\
     calls (runConvert w flags pathValue s) = calls s) /\
  (PathEntry.pathIsValid (PathEntry.validate w pathValue) = Some true \/
   PathEntry.pathIsValid (PathEntry.validate w pathValue) = Some false).
Proof.
  unfold PathEntry.validate.
  split; [|split].
  - convert_cases; simpl; done.
  - convert_cases; simpl; done.
  - destruct (tryStat w pathValue) as [[| |]|]; simpl; auto.
Qed.

Lemma watcher_failure_witness :
  error (runConvert watchFailsWorld openAndWatch "doc.md" initialSession)
  = Some "Failed to start file watcher: EMFILE: too many open files" /\
  status (runConvert watchFailsWorld openAndWatch "doc.md" initialSession) = None /\
  fileWatcherRef (runConvert watchFailsWorld openAndWatch "doc.md" initialSession)
  = None /\
  calls (runConvert watchFailsWorld openAndWatch "doc.md" initialSession)
  = [CallWriteFile "doc.docx" "PK-docx"; CallOpenFile "doc.docx";
     CallWatchFile "doc.md"].
Proof.
  assert (Persisted watchFailsWorld openAndWatch "doc.md" "PK-docx") as Hp.
  { by apply (PersistedOk _ _ _ ("# Title" +:+ nl +:+ nl +:+ "Body")
                VUndefined VUndefined). }
  exact (watcher_failure_keeps_artifact watchFailsWorld openAndWatch "doc.md"
           "PK-docx" "EMFILE: too many open files" initialSession
           Hp (fun _ => eq_refl) eq_refl eq_refl eq_refl).
Defined.

Lemma watcher_installed_once_witness :
  fileWatcherRef
    (runConvert (sampleWorld false false) openAndWatch "doc.md"
       (runConvert (sampleWorld false false) openAndWatch "doc.md" initialSession))
  = Some "doc.md" /\
  List.filter isWatchCall
    (calls (runConvert (sampleWorld false false) openAndWatch "doc.md"
              (runConvert (sampleWorld false false) openAndWatch "doc.md"
                 initialSession)))
  = List.filter isWatchCall
      (calls (runConvert (sampleWorld false false) openAndWatch "doc.md"
                initialSession)).
Proof.
  exact (watcher_installed_once (sampleWorld false false) openAndWatch "doc.md"
           (runConvert (sampleWorld false false) openAndWatch "doc.md" initialSession)
           "doc.md" eq_refl).
Defined.

Lemma convert_starts_afresh_witness :
  runConvert (sampleWorld false true) openAndWatch "doc.md" staleSession
  = runConvert (sampleWorld false true) openAndWatch "doc.md" initialSession.
Proof.
  exact (convert_starts_afresh (sampleWorld false true) openAndWatch "doc.md"
           staleSession initialSession eq_refl eq_refl eq_refl).
Defined.

Lemma live_check_witness :
  status (runConvert (sampleWorld false false) openAndWatch "doc.md" initialSession)
  <> Some Validating /\
  error (runConvert (sampleWorld false false) openAndWatch "build" initialSession)
  = Some "Input not found or not a file: build".
Proof.
  destruct (live_check_agrees_with_convert (sampleWorld false false) openAndWatch
              "doc.md" initialSession) as (Hok & _).
  destruct (live_check_agrees_with_convert (sampleWorld false false) openAndWatch
              "build" initialSession) as (_ & Hbad & _).
  split; [exact (Hok eq_refl) | exact (proj1 (Hbad eq_refl))].
Defined.

(** ** Unmounting *)




(** ** The wizard, step by step *)

Ltac key_cases :=
  unfold Wizard.onKey;
  repeat match goal with
  | |- context [String.eqb ?a ?b] => destruct (String.eqb a b) eqn:?; simpl
  end.

Ltac select_cases pos :=
  do 8 (try (destruct pos as [|pos]; simpl)).



(** X16. Every action moves the wizard by at most one step, or back to
    welcome: after any action the step is the same, the next one in the
    step order, the one before, or welcome. The step named in each
    handler is the neighbour in the step order. *)
Theorem steps_are_adjacent (a : Wizard.Action) (st : Wizard.State) :
  let i := WizardView.stepIndex st in
  let i' := WizardView.stepIndex (Wizard.dispatch a st) in
  (i' = i \/ i' = i + 1 \/ i' = Z.max 0 (i - 1) \/ i' = 0)%Z.
Proof.
  destruct st as [stp p f].
  destruct a as [pos | full | v | | input esc]; simpl.
  - destruct stp; simpl; try (by left); select_cases pos; vm_compute; auto 6.
  - destruct stp; vm_compute; auto 6.
  - destruct stp; vm_compute; auto 6.
  - destruct stp; vm_compute; auto 6.
  - destruct esc; key_cases; destruct stp; vm_compute; auto 6.
Qed.

(** X17. The run step is entered from confirm only, and only by
    submitting the confirm field or by the key r (in either case): no
    other action at no other step leads to run. *)
Theorem run_only_from_confirm (a : Wizard.Action) (st : Wizard.State) :
  Wizard.step (Wizard.dispatch a st) = Step.run ->
  Wizard.step st <> Step.run ->
  Wizard.step st = Step.confirm /\
  (a = Wizard.Submit \/
   exists input, a = Wizard.Key input false /\ Wizard.toLowerCase input = "r").
Proof.
  destruct st as [stp p f].
  destruct a as [pos | full | v | | input esc]; simpl.
  - destruct stp; simpl; try done; select_cases pos; done.
  - destruct stp; done.
  - destruct stp; done.
  - destruct stp; try done. intros _ _. split; [done | by left].
  - unfold Wizard.onKey.
    destruct (esc || String.eqb (Wizard.toLowerCase input) "b") eqn:Hb; simpl.
    { destruct stp; done. }
    destruct (String.eqb (Wizard.toLowerCase input) "c"
              || String.eqb (Wizard.toLowerCase input) "q"); simpl; [done |].
    destruct (String.eqb_spec (Wizard.toLowerCase input) "r") as [Hr | Hr]; simpl;
      [|done].
    destruct stp; simpl; try done. intros _ _. split; [done |]. right.
    exists input. split; [|done].
    apply orb_false_iff in Hb as [-> _]. done.
Qed.

Lemma run_only_from_confirm_witness :
  Wizard.step (atStep Step.confirm) = Step.confirm /\
  (Wizard.Key "R" false = Wizard.Submit \/
   exists input, Wizard.Key "R" false = Wizard.Key input false /\
                 Wizard.toLowerCase input = "r").
Proof.
  apply (run_only_from_confirm (Wizard.Key "R" false) (atStep Step.confirm)).
  - reflexivity.
  - discriminate.
Defined.

(** X18. A full pass through the wizard hands [App] exactly what was
    chosen: the file that was picked, and flags that hold the entry chosen
    at each menu and the texts left in the two text fields (an empty text
    leaves the flag absent), whatever the flags were at the start; only
    [compact], which is not asked, is kept from the start. *)
Theorem full_walk_hands_over_choices (c : WizardView.Choices)
    (initialInputPath : option string) (initialFlags : Flags) :
  WizardView.alignEntry c < 5 ->
  WizardView.handsOver
    (WizardView.after (WizardView.walk c)
       (Wizard.initial initialInputPath initialFlags))
  = Some (WizardView.pick c, WizardView.chosen c initialFlags).
Proof.
  destruct c as [pk rep t r al sty out wa ve op].
  unfold WizardView.alignEntry. intros Hal.
  destruct al as [|[|[|[|[|al]]]]]; [| | | | |lia];
    destruct rep, t, r, wa, ve, op; vm_compute; reflexivity.
Qed.

Lemma full_walk_witness :
  WizardView.handsOver
    (WizardView.after (WizardView.walk samplePass)
       (Wizard.initial None (Cli.flags onlyInput)))
  = Some ("notes/readme.md",
          {| output := Some "build/"; type := Some "report"; toc := Some true;
             rtl := Some false; align := Some "CENTER"; style := None;
             open := Some true; watch := Some false; verbose := Some false;
             compact := Some false |}).
Proof.
  exact (full_walk_hands_over_choices samplePass None (Cli.flags onlyInput)
           ltac:(vm_compute; lia)).
Defined.

Lemma dispatch_keeps_inputPath (a : Wizard.Action) (st : Wizard.State) :
  (exists full, a = Wizard.PickFile full /\ Wizard.step st = Step.welcome /\
                Wizard.inputPath (Wizard.dispatch a st) = full) \/
  (Wizard.inputPath (Wizard.dispatch a st) = Wizard.inputPath st /\
   (Wizard.step st = Step.welcome -> Wizard.step (Wizard.dispatch a st) = Step.welcome)).
Proof.
  destruct st as [stp p f].
  destruct a as [pos | full | v | | input esc]; simpl.
  - right. destruct stp; simpl; try done; select_cases pos; done.
  - destruct stp; [left; by exists full | right; done ..].
  - right. by destruct stp.
  - right. by destruct stp.
  - right. destruct esc; key_cases; destruct stp; done.
Qed.

Lemma picked_or_kept (actions : list Wizard.Action) (st : Wizard.State) :
  Wizard.step (WizardView.after actions st) <> Step.welcome ->
  (Wizard.step st <> Step.welcome /\
   Wizard.inputPath (WizardView.after actions st) = Wizard.inputPath st) \/
  exists full, In (Wizard.PickFile full) actions /\
               Wizard.inputPath (WizardView.after actions st) = full.
Proof.
  revert st. induction actions as [|a rest IH]; intros st Hleft.
  - left. done.
  - change (WizardView.after (a :: rest) st)
      with (WizardView.after rest (Wizard.dispatch a st)) in *.
    destruct (IH _ Hleft) as [[Hstep Hpath] | [full [Hin Hpath]]].
    + destruct (dispatch_keeps_inputPath a st)
        as [[full (-> & _ & Hfull)] | [Hsame Hstay]].
      * right. exists full. split; [by left | congruence].
      * left. split; [intros Hw; by apply Hstep, Hstay | congruence].
    + right. exists full. split; [by right | done].
Qed.

(** X19. The wizard never runs a conversion on a path that was not
    picked: whatever the actions and whatever input path it was started
    with, the path it hands to [App] at the run step is one that the file
    picker submitted during those actions. *)
Theorem file_picked_before_run (actions : list Wizard.Action)
    (initialInputPath : option string) (initialFlags : Flags)
    (handedPath : string) (handedFlags : Flags) :
  WizardView.handsOver
    (WizardView.after actions (Wizard.initial initialInputPath initialFlags))
  = Some (handedPath, handedFlags) ->
  In (Wizard.PickFile handedPath) actions.
Proof.
  unfold WizardView.handsOver.
  destruct (Wizard.step (WizardView.after actions _)) eqn:Hstep; try done.
  intros [= <- _].
  destruct (picked_or_kept actions (Wizard.initial initialInputPath initialFlags))
    as [[Hstart _] | [full [Hin <-]]]; [by rewrite Hstep | done | done].
Qed.

Lemma file_picked_witness :
  In (Wizard.PickFile "notes/readme.md") (WizardView.walk samplePass).
Proof.
  apply (file_picked_before_run (WizardView.walk samplePass) (Some "typed.md")
           (Cli.flags onlyInput) "notes/readme.md"
           (WizardView.chosen samplePass (Cli.flags onlyInput))).
  by vm_compute.
Defined.

(** X20. The progress shown by the wizard stays within its bounds: the
    current step number is at least 1 and at most the total, the total is
    11, and the number is the position of the step in the step order,
    counted from 1, for every step but run. *)
Theorem progress_within_bounds (st : Wizard.State) :
  (1 <= (WizardView.progress st).1 <= (WizardView.progress st).2)%Z /\
  (WizardView.progress st).2 = 11%Z /\
  (Wizard.step st <> Step.run ->
     (WizardView.progress st).1 = (WizardView.stepIndex st + 1)%Z).
Proof. destruct st as [[] p f]; vm_compute; repeat split; congruence. Qed.

Lemma after_keeps_type (actions : list Wizard.Action) (st : Wizard.State) :
  is_Some (type (Wizard.flags st)) ->
  is_Some (type (Wizard.flags (WizardView.after actions st))).
Proof.
  revert st. induction actions as [|a rest IH]; intros st Hty; [done |].
  apply IH. by apply wizard_keeps_type.
Qed.

(** X21. Through the wizard too the type flag is always present: started
    on the flags of the command line, after any actions the flags hold a
    type, and the document type passed to the converter is that type,
    whatever [documentType] the config file gives. *)
Theorem wizard_never_consults_config_type (g : Cli.Given)
    (actions : list Wizard.Action) (rc styleFromFile : value) :
  exists t,
    type (Wizard.flags
            (WizardView.after actions (Wizard.initial (Cli.input g) (Cli.flags g))))
    = Some t /\
    documentType
      (options rc styleFromFile
         (Wizard.flags
            (WizardView.after actions (Wizard.initial (Cli.input g) (Cli.flags g)))))
    = VStr t.
Proof.
  destruct (after_keeps_type actions (Wizard.initial (Cli.input g) (Cli.flags g)))
    as [t Ht]; [by eexists |].
  exists t. split; [done |]. by rewrite documentType_precedence, Ht.
Qed.

(** * The file picker *)

(** [path.dirname] on a few paths. *)
Example dirname_samples :
  PathDir.dirname "/a/b" = "/a" /\ PathDir.dirname "/a" = "/" /\
  PathDir.dirname "a" = "." /\ PathDir.dirname "a/b/" = "a" /\
  PathDir.dirname "//a" = "//" /\ PathDir.dirname "" = "." /\
  PathDir.dirname "/" = "/" /\ PathDir.dirname "a//b" = "a/" /\
  PathDir.dirname "/home/user/docs/" = "/home/user" /\
  PathDir.dirname "a/b" = "a".
Proof. vm_compute. repeat split. Qed.

(** The line split of the preview and the Markdown test of the filter on
    a few inputs. *)
Example splitLines_samples :
  FilePicker.splitLines "" = [""] /\
  FilePicker.splitLines ("a" +:+ nl +:+ "b") = ["a"; "b"] /\
  FilePicker.splitLines ("a" +:+ Str.utf8 [13; 10] +:+ "b" +:+ nl) = ["a"; "b"; ""] /\
  FilePicker.splitLines (Str.utf8 [13; 13; 10]) = [Str.utf8 [13]; ""] /\
  FilePicker.splitLines (Str.utf8 [97; 13; 98]) = [Str.utf8 [97; 13; 98]] /\
  FilePicker.isMarkdown "README.MD" = true /\
  FilePicker.isMarkdown "notes.mdx" = true /\
  FilePicker.isMarkdown "a.markdown" = true /\
  FilePicker.isMarkdown "a.md.txt" = false /\
  FilePicker.isMarkdown "md" = false /\
  FilePicker.isMarkdown ".md" = true.
Proof. vm_compute. repeat split. Qed.

Lemma isAbsolute_inv (p : string) :
  Path.isAbsolute p = true -> exists rest, p = String "/"%char rest.
Proof.
  destruct p as [|c rest]; [done |]. simpl. unfold Path.is_sep.
  intros ->%Ascii.eqb_eq. by eexists.
Qed.

Lemma normalize_absolute (p : string) :
  Path.isAbsolute p = true -> Path.isAbsolute (Path.normalize p) = true.
Proof.
  intros [rest ->]%isAbsolute_inv. unfold Path.normalize.
  change (String.eqb (String "/" rest) "") with false.
  change (Path.isAbsolute (String "/" rest)) with true. cbv iota.
  by destruct (String.eqb _ "").
Qed.

Lemma concat_absolute (a : string) (rest : list string) :
  Path.isAbsolute a = true ->
  Path.isAbsolute (String.concat Path.sep (a :: rest)) = true.
Proof.
  intros [a' ->]%isAbsolute_inv. by destruct rest.
Qed.

Lemma join_absolute (a : string) (rest : list string) :
  Path.isAbsolute a = true -> Path.isAbsolute (Path.join (a :: rest)) = true.
Proof.
  intros Ha. destruct (isAbsolute_inv a Ha) as [a' ->].
  unfold Path.join.
  change (List.filter _ (String "/" a' :: rest))
    with (String "/" a' :: List.filter (fun a => negb (String.eqb a "")) rest).
  cbv iota. by apply normalize_absolute, concat_absolute.
Qed.

Lemma dirname_absolute (p : string) :
  Path.isAbsolute p = true -> Path.isAbsolute (PathDir.dirname p) = true.
Proof.
  intros [rest ->]%isAbsolute_inv. unfold PathDir.dirname.
  change (Path.chars (String "/" rest)) with ("/"%char :: Path.chars rest).
  cbv iota beta zeta.
  destruct (Path.take_until _ _) as [rbase [|c rdir]]; [done |].
  by destruct rdir.
Qed.

Lemma parse_dir_absolute (p : string) :
  Path.isAbsolute p = true -> Path.isAbsolute (Path.dir (Path.parse p)) = true.
Proof.
  intros Hp. unfold Path.parse. rewrite Hp.
  destruct (Path.take_until _ _) as [rbase rrest].
  destruct (Path.split_ext rbase) as [nm ex]. simpl.
  by destruct rrest.
Qed.

Lemma startingDir_absolute (env : FilePicker.Env) (initialPath : option string) :
  Path.isAbsolute (FilePicker.cwd env) = true ->
  Path.isAbsolute (FilePicker.startingDir env initialPath) = true.
Proof.
  intros Hcwd. unfold FilePicker.startingDir.
  destruct initialPath as [[|c p]|]; try done.
  destruct (Path.isAbsolute (String c p)) eqn:Hp.
  - pose proof (parse_dir_absolute _ Hp) as Hd.
    by destruct (Path.dir (Path.parse (String c p))).
  - by apply join_absolute.
Qed.

Lemma refresh_currentDir (env : FilePicker.Env) (st : FilePicker.State) :
  FilePicker.currentDir (FilePicker.refresh env st) = FilePicker.currentDir st.
Proof. unfold FilePicker.refresh. by destruct (FilePicker.readdir env _). Qed.

Lemma settle_currentDir (env : FilePicker.Env) (before after : FilePicker.State) :
  FilePicker.currentDir (FilePicker.settle env before after)
  = FilePicker.currentDir after.
Proof.
  unfold FilePicker.settle. destruct (_ && _); [done | apply refresh_currentDir].
Qed.

Lemma resolveTyped_absolute (st : FilePicker.State) :
  Path.isAbsolute (FilePicker.currentDir st) = true ->
  Path.isAbsolute (FilePicker.resolveTyped st) = true.
Proof.
  intros Hcur. unfold FilePicker.resolveTyped.
  destruct (Path.isAbsolute (FilePicker.tempPath st)) eqn:Ht; [done |].
  by apply join_absolute.
Qed.

Lemma onSelect_absolute (v : string) (st : FilePicker.State) :
  Path.isAbsolute (FilePicker.currentDir st) = true ->
  Path.isAbsolute (FilePicker.currentDir (FilePicker.onSelect v st).1) = true /\
  (forall p, (FilePicker.onSelect v st).2 = Some p -> Path.isAbsolute p = true).
Proof.
  intros Hcur. unfold FilePicker.onSelect.
  repeat match goal with
         | |- context [if ?b then _ else _] => destruct b
         end; simpl; split; try done;
    try (by apply join_absolute); try (by apply dirname_absolute).
  intros p [= <-]. by apply join_absolute.
Qed.

Lemma handle_absolute (env : FilePicker.Env) (a : FilePicker.Action)
    (st st' : FilePicker.State) (submitted : option string) :
  Path.isAbsolute (FilePicker.currentDir st) = true ->
  FilePicker.handle env a st = Some (st', submitted) ->
  Path.isAbsolute (FilePicker.currentDir st') = true /\
  (forall p, submitted = Some p -> Path.isAbsolute p = true).
Proof.
  intros Hcur. unfold FilePicker.handle.
  destruct a as [position | position | text |].
  - destruct (FilePicker.enteringDir st || FilePicker.enteringFile st).
    { by intros [= <- <-]. }
    destruct (FilePicker.entries st !! position) as [item|]; [|done].
    destruct (onSelect_absolute (FilePicker.value item) st Hcur) as [H1 H2].
    destruct (FilePicker.onSelect (FilePicker.value item) st) as [st1 sub].
    by intros [= <- <-].
  - destruct (FilePicker.enteringDir st || FilePicker.enteringFile st);
      intros [= <- <-]; [done |].
    split; [|done]. unfold FilePicker.onHighlight.
    destruct (String.prefix "file:" _); [|done].
    by destruct (FilePicker.readText env _).
  - by destruct (FilePicker.enteringDir st || FilePicker.enteringFile st);
      intros [= <- <-].
  - unfold FilePicker.onSubmitText.
    destruct (FilePicker.enteringDir st).
    { intros [= <- <-]. split; [by apply resolveTyped_absolute | done]. }
    destruct (FilePicker.enteringFile st); intros [= <- <-]; [|done].
    split; [done |]. intros p [= <-]. by apply resolveTyped_absolute.
Qed.

Lemma dispatch_absolute (env : FilePicker.Env) (a : FilePicker.Action)
    (st st' : FilePicker.State) (submitted : option string) :
  Path.isAbsolute (FilePicker.currentDir st) = true ->
  FilePicker.dispatch env a st = Some (st', submitted) ->
  Path.isAbsolute (FilePicker.currentDir st') = true /\
  (forall p, submitted = Some p -> Path.isAbsolute p = true).
Proof.
  intros Hcur. unfold FilePicker.dispatch.
  destruct (FilePicker.handle env a st) as [[st1 sub]|] eqn:Hh; [|done].
  intros [= <- <-]. rewrite settle_currentDir.
  by apply (handle_absolute env a st).
Qed.

Lemma run_snoc (env : FilePicker.Env) (actions : list FilePicker.Action)
    (a : FilePicker.Action) (st : FilePicker.State) :
  FilePicker.run env (actions ++ [a]) st
  = match FilePicker.run env actions st with
    | Some (st0, paths) =>
        match FilePicker.dispatch env a st0 with
        | Some (st', submitted) =>
            Some (st', (paths ++ match submitted with
                                 | Some p => [p]
                                 | None => []
                                 end)%list)
        | None => None
        end
    | None => None
    end.
Proof. unfold FilePicker.run. by rewrite foldl_app. Qed.

(** X22. Started in an absolute working directory, the picker only ever
    shows an absolute current directory and only ever submits absolute
    paths, whatever starting path it was given and whatever the user
    selects, types or confirms, as long as no handler has thrown. *)
Theorem picker_paths_are_absolute (env : FilePicker.Env)
    (initialPath : option string) (actions : list FilePicker.Action)
    (st : FilePicker.State) (paths : list string) :
  Path.isAbsolute (FilePicker.cwd env) = true ->
  FilePicker.run env actions (FilePicker.mounted env initialPath) = Some (st, paths) ->
  Path.isAbsolute (FilePicker.currentDir st) = true /\
  (forall p, In p paths -> Path.isAbsolute p = true).
Proof.
  intros Hcwd. revert st paths.
  induction actions as [|a actions IH] using rev_ind; intros st paths.
  - intros [= <- <-]. split; [|done]. unfold FilePicker.mounted.
    rewrite refresh_currentDir. by apply startingDir_absolute.
  - rewrite run_snoc.
    destruct (FilePicker.run env actions _) as [[st0 paths0]|]; [|done].
    destruct (IH st0 paths0 eq_refl) as [IHdir IHsub].
    destruct (FilePicker.dispatch env a st0) as [[st1 sub]|] eqn:Hd; [|done].
    intros [= <- <-].
    destruct (dispatch_absolute env a st0 st1 sub IHdir Hd) as [Hdir Hsub].
    split; [done |]. intros p [Hin | Hin]%in_app_or; [by apply IHsub |].
    destruct sub as [q|]; simpl in Hin; [|done].
    destruct Hin as [<- | []]. by apply Hsub.
Qed.

Lemma picker_paths_witness :
  exists st,
    FilePicker.run sampleEnv pickFirstFile (FilePicker.mounted sampleEnv None)
    = Some (st, ["/home/user/CHANGES.MD"]) /\
    Path.isAbsolute (FilePicker.currentDir st) = true /\
    (forall p, In p ["/home/user/CHANGES.MD"] -> Path.isAbsolute p = true).
Proof.
  eexists. split; [vm_compute; reflexivity |].
  apply (picker_paths_are_absolute sampleEnv None pickFirstFile);
    [reflexivity | vm_compute; reflexivity].
Defined.

Lemma fileItem_name (a b : FilePicker.Dirent) :
  FilePicker.fileItem a = FilePicker.fileItem b ->
  FilePicker.name a = FilePicker.name b.
Proof.
  intros H. apply (f_equal FilePicker.value) in H.
  change ("file:" +:+ FilePicker.name a = "file:" +:+ FilePicker.name b) in H.
  rewrite !append_cons in H. by injection H.
Qed.

(** X23. What a refreshed listing holds, sorting being a rearrangement: the
    four fixed entries, one entry for each directory whose name does not
    start with a dot, and one for each regular file whose name does not
    start with a dot and, while the filter is on, ends in [.md], [.mdx] or
    [.markdown]; nothing else. When the directory cannot be read the list
    is empty and the error is its message. *)
Theorem listing_shows_visible_entries (env : FilePicker.Env) (st : FilePicker.State) :
  (forall l, Permutation (FilePicker.sortByLabel env l) l) ->
  (forall dirents item,
     FilePicker.readdir env (FilePicker.currentDir st) = inr dirents ->
     In item (FilePicker.entries (FilePicker.refresh env st)) <->
     In item (FilePicker.specials (FilePicker.onlyMarkdown st)) \/
     (exists d, In d dirents /\ FilePicker.isDirectory d = true /\
                FilePicker.visible d = true /\ item = FilePicker.dirItem d) \/
     (exists d, In d dirents /\ FilePicker.isFile d = true /\
                FilePicker.visible d = true /\
                (FilePicker.onlyMarkdown st = true ->
                   FilePicker.isMarkdown (FilePicker.name d) = true) /\
                item = FilePicker.fileItem d)) /\
  (forall message,
     FilePicker.readdir env (FilePicker.currentDir st) = inl message ->
     FilePicker.entries (FilePicker.refresh env st) = [] /\
     FilePicker.error (FilePicker.refresh env st) = Some message).
Proof.
  intros Hsort. split.
  - intros dirents item Hread. unfold FilePicker.refresh. rewrite Hread.
    cbn [FilePicker.entries]. rewrite !in_app_iff. unfold FilePicker.dirs, FilePicker.files.
    assert (forall l x, In x (FilePicker.sortByLabel env l) <-> In x l) as Hin.
    { intros l x. split; apply Permutation_in; [apply Hsort | symmetry; apply Hsort]. }
    rewrite !Hin, !in_map_iff.
    split.
    + intros [Hs | [[d [<- Hd]] | [d [<- Hd]]]].
      * by left.
      * right. left. apply filter_In in Hd as [Hd Hp].
        apply andb_true_iff in Hp as [Hp1 Hp2]. by exists d.
      * right. right. apply filter_In in Hd as [Hd Hmd].
        apply filter_In in Hd as [Hd Hp].
        apply andb_true_iff in Hp as [Hp1 Hp2].
        exists d. repeat split; try done. intros Hon. by rewrite Hon in Hmd.
    + intros [Hs | [(d & Hd & Hdir & Hvis & ->) | (d & Hd & Hfile & Hvis & Hmd & ->)]].
      * by left.
      * right. left. exists d. split; [done |]. apply filter_In.
        split; [done |]. by rewrite Hdir, Hvis.
      * right. right. exists d. split; [done |]. apply filter_In. split.
        -- apply filter_In. split; [done |]. by rewrite Hfile, Hvis.
        -- destruct (FilePicker.onlyMarkdown st); [by apply Hmd | done].
  - intros message Hread. unfold FilePicker.refresh. by rewrite Hread.
Qed.

Lemma listing_witness :
  In (FilePicker.fileItem readmeFile)
     (FilePicker.entries (FilePicker.mounted sampleEnv None)) /\
  In (FilePicker.dirItem docsFolder)
     (FilePicker.entries (FilePicker.mounted sampleEnv None)) /\
  ~ In (FilePicker.fileItem todoFile)
       (FilePicker.entries (FilePicker.mounted sampleEnv None)).
Proof.
  destruct (listing_shows_visible_entries sampleEnv
              (FilePicker.initial sampleEnv None)
              (fun l => Permutation_refl l)) as [H _].
  specialize (H sampleDirents).
  split; [|split].
  - apply (H _ eq_refl). right. right. exists readmeFile.
    repeat split. simpl. tauto.
  - apply (H _ eq_refl). right. left. exists docsFolder.
    repeat split. simpl. tauto.
  - intros Hin. apply (H _ eq_refl) in Hin.
    destruct Hin as [Hs | [(d & _ & _ & _ & Hd) | (d & _ & _ & _ & Hmd & Hd)]].
    + simpl in Hs. by destruct Hs as [Hs | [Hs | [Hs | [Hs | []]]]].
    + discriminate Hd.
    + apply fileItem_name in Hd. specialize (Hmd eq_refl).
      rewrite <- Hd in Hmd. discriminate Hmd.
Defined.

Lemma onSelect_dir (n : string) (st : FilePicker.State) :
  FilePicker.onSelect ("dir:" +:+ n) st
  = (FilePicker.setCurrentDir (Path.join [FilePicker.currentDir st; n]) st, None).
Proof.
  unfold FilePicker.onSelect.
  by rewrite (proj2 (prefix_spec "dir:" ("dir:" +:+ n))) by (by exists n).
Qed.

Lemma onSelect_file (n : string) (st : FilePicker.State) :
  FilePicker.onSelect ("file:" +:+ n) st
  = (st, Some (Path.join [FilePicker.currentDir st; n])).
Proof.
  unfold FilePicker.onSelect.
  change (String.prefix "dir:" ("file:" +:+ n)) with false.
  change (String.eqb ("file:" +:+ n) "parent") with false.
  change (String.eqb ("file:" +:+ n) "changeDir") with false.
  change (String.eqb ("file:" +:+ n) "enterFile") with false.
  change (String.eqb ("file:" +:+ n) "toggleFilter") with false.
  by rewrite (proj2 (prefix_spec "file:" ("file:" +:+ n))) by (by exists n).
Qed.

Lemma settle_same (env : FilePicker.Env) (st : FilePicker.State) :
  FilePicker.settle env st st = st.
Proof.
  unfold FilePicker.settle.
  by rewrite String.eqb_refl, Bool.eqb_reflx.
Qed.

(** X24. The value of an entry leads back to the name it was made from,
    whatever the name is: selecting the entry of a directory moves the
    picker into that directory and submits nothing, selecting the entry of
    a file submits the file's path under the current directory and leaves
    the picker as it is. *)
Theorem selecting_an_entry_acts_on_it (env : FilePicker.Env)
    (st : FilePicker.State) (position : nat) (d : FilePicker.Dirent) :
  FilePicker.enteringDir st = false -> FilePicker.enteringFile st = false ->
  (FilePicker.entries st !! position = Some (FilePicker.dirItem d) ->
     exists st',
       FilePicker.dispatch env (FilePicker.Select position) st = Some (st', None) /\
       FilePicker.currentDir st'
       = Path.join [FilePicker.currentDir st; FilePicker.name d]) /\
  (FilePicker.entries st !! position = Some (FilePicker.fileItem d) ->
     FilePicker.dispatch env (FilePicker.Select position) st
     = Some (st, Some (Path.join [FilePicker.currentDir st; FilePicker.name d]))).
Proof.
  intros Hd Hf. unfold FilePicker.dispatch, FilePicker.handle.
  rewrite Hd, Hf. simpl. split.
  - intros ->. change (FilePicker.value (FilePicker.dirItem d))
      with ("dir:" +:+ FilePicker.name d).
    rewrite onSelect_dir. eexists. split; [reflexivity |].
    by rewrite settle_currentDir.
  - intros ->. change (FilePicker.value (FilePicker.fileItem d))
      with ("file:" +:+ FilePicker.name d).
    rewrite onSelect_file. by rewrite settle_same.
Qed.

Lemma selecting_witness :
  (exists st',
     FilePicker.dispatch sampleEnv (FilePicker.Select 4)
       (FilePicker.mounted sampleEnv None) = Some (st', None) /\
     FilePicker.currentDir st' = "/home/user/docs") /\
  FilePicker.dispatch sampleEnv (FilePicker.Select 6)
    (FilePicker.mounted sampleEnv None)
  = Some (FilePicker.mounted sampleEnv None, Some "/home/user/README.md").
Proof.
  split.
  - apply (selecting_an_entry_acts_on_it sampleEnv
             (FilePicker.mounted sampleEnv None) 4 docsFolder);
      reflexivity.
  - apply (selecting_an_entry_acts_on_it sampleEnv
             (FilePicker.mounted sampleEnv None) 6 readmeFile);
      reflexivity.
Defined.

Lemma dispatch_stuck (env : FilePicker.Env) (a : FilePicker.Action)
    (st st' : FilePicker.State) (submitted : option string) :
  FilePicker.entries st = [] ->
  FilePicker.enteringDir st = false -> FilePicker.enteringFile st = false ->
  FilePicker.dispatch env a st = Some (st', submitted) ->
  FilePicker.currentDir st' = FilePicker.currentDir st /\
  FilePicker.entries st' = [] /\
  FilePicker.error st' = FilePicker.error st /\
  FilePicker.enteringDir st' = false /\ FilePicker.enteringFile st' = false /\
  submitted = None.
Proof.
  intros He Hd Hf. unfold FilePicker.dispatch, FilePicker.handle.
  destruct a as [position | position | text |].
  - rewrite Hd, Hf, He. simpl. done.
  - rewrite Hd, Hf, He. simpl.
    change (FilePicker.onHighlight env "" st) with (FilePicker.setPreview "" st).
    unfold FilePicker.settle. simpl.
    rewrite String.eqb_refl, Bool.eqb_reflx. by intros [= <- <-].
  - rewrite Hd, Hf. simpl. rewrite settle_same. by intros [= <- <-].
  - unfold FilePicker.onSubmitText. rewrite Hd, Hf, settle_same.
    by intros [= <- <-].
Qed.

(** X25. Once a listing has failed, the picker offers no way on: the list
    is empty, so there is no entry for the parent directory, for typing a
    directory or for typing a file; every action that does not throw keeps
    the directory, the empty list and the error and submits nothing, and
    confirming a selection throws, since [onSelect] reads the value of an
    item that is not there. *)
Theorem failed_listing_is_a_dead_end (env : FilePicker.Env)
    (st0 st : FilePicker.State) (message : string)
    (actions : list FilePicker.Action) (paths : list string) :
  FilePicker.readdir env (FilePicker.currentDir st0) = inl message ->
  FilePicker.enteringDir st0 = false -> FilePicker.enteringFile st0 = false ->
  FilePicker.run env actions (FilePicker.refresh env st0) = Some (st, paths) ->
  FilePicker.currentDir st = FilePicker.currentDir st0 /\
  FilePicker.entries st = [] /\
  FilePicker.error st = Some message /\
  paths = [] /\
  (forall position,
     FilePicker.dispatch env (FilePicker.Select position) st = None).
Proof.
  intros Hread Hd Hf.
  assert (FilePicker.currentDir st = FilePicker.currentDir st0 /\
          FilePicker.entries st = [] /\
          FilePicker.error st = Some message /\
          FilePicker.enteringDir st = false /\
          FilePicker.enteringFile st = false /\ paths = [] ->
          FilePicker.currentDir st = FilePicker.currentDir st0 /\
          FilePicker.entries st = [] /\
          FilePicker.error st = Some message /\
          paths = [] /\
          (forall position,
             FilePicker.dispatch env (FilePicker.Select position) st = None))
    as Hend.
  { intros (H1 & H2 & H3 & H4 & H5 & H6). repeat split; try done.
    intros position. unfold FilePicker.dispatch, FilePicker.handle.
    by rewrite H4, H5, H2. }
  intros Hrun. apply Hend. clear Hend. revert st paths Hrun.
  induction actions as [|a actions IH] using rev_ind; intros st paths.
  - intros [= <- <-]. unfold FilePicker.refresh. rewrite Hread. by simpl.
  - rewrite run_snoc.
    destruct (FilePicker.run env actions _) as [[st1 paths1]|]; [|done].
    destruct (IH st1 paths1 eq_refl) as (H1 & H2 & H3 & H4 & H5 & ->).
    destruct (FilePicker.dispatch env a st1) as [[st2 sub]|] eqn:Hdis; [|done].
    intros [= <- <-].
    destruct (dispatch_stuck env a st1 st2 sub H2 H4 H5 Hdis)
      as (G1 & G2 & G3 & G4 & G5 & ->).
    by rewrite G1, G3.
Qed.

Lemma dead_end_witness :
  FilePicker.run sampleEnv intoMissingFolder (FilePicker.mounted sampleEnv None)
  = Some (FilePicker.refresh sampleEnv inMissingFolder, []) /\
  exists st,
    FilePicker.run sampleEnv keysAfterFailure
      (FilePicker.refresh sampleEnv inMissingFolder) = Some (st, []) /\
    FilePicker.currentDir st = "/home/user/missing" /\
    FilePicker.entries st = [] /\
    FilePicker.error st = Some "ENOENT: no such file or directory, scandir" /\
    [] = @nil string /\
    (forall position,
       FilePicker.dispatch sampleEnv (FilePicker.Select position) st = None).
Proof.
  split; [vm_compute; reflexivity |].
  eexists. split; [vm_compute; reflexivity |].
  apply (failed_listing_is_a_dead_end sampleEnv inMissingFolder _
           "ENOENT: no such file or directory, scandir" keysAfterFailure []);
    vm_compute; reflexivity.
Defined.


Lemma splitLines_nonempty (t : string) : FilePicker.splitLines t <> [].
Proof.
  induction t as [|c rest IH]; [done |]. simpl.
  destruct (FilePicker.isLF c); [done |].
  destruct rest as [|c2 rest2]; [done |].
  destruct (FilePicker.isCR c && FilePicker.isLF c2); [done |].
  unfold FilePicker.startLine. by destruct (FilePicker.splitLines (String c2 rest2)).
Qed.

Lemma concat_startLine (c : ascii) (lines : list string) :
  lines <> [] ->
  String.concat nl (FilePicker.startLine c lines) = String c (String.concat nl lines).
Proof. destruct lines as [|l [|l2 ls]]; done. Qed.

Lemma concat_empty_first (lines : list string) :
  lines <> [] ->
  String.concat nl ("" :: lines) = nl +:+ String.concat nl lines.
Proof. by destruct lines. Qed.

Lemma isLF_eq (c : ascii) : FilePicker.isLF c = true -> String c "" = nl.
Proof. unfold FilePicker.isLF. by intros ->%Ascii.eqb_eq. Qed.

(** Splitting into lines and joining with line feeds gives the text back
    when no carriage return stands before a line feed. *)
Lemma join_splitLines (t : string) :
  Str.includes crlf t = false -> String.concat nl (FilePicker.splitLines t) = t.
Proof.
  induction t as [|c rest IH]; [done |].
  rewrite includes_cons. intros [Hhere Hrest]%orb_false_iff.
  specialize (IH Hrest).
  change (FilePicker.splitLines (String c rest))
    with (if FilePicker.isLF c then "" :: FilePicker.splitLines rest
          else match rest with
               | String c2 rest2 =>
                   if FilePicker.isCR c && FilePicker.isLF c2
                   then "" :: FilePicker.splitLines rest2
                   else FilePicker.startLine c (FilePicker.splitLines rest)
               | EmptyString => [String c EmptyString]
               end).
  destruct (FilePicker.isLF c) eqn:Hlf.
  - rewrite concat_empty_first by apply splitLines_nonempty.
    rewrite IH. by rewrite <- (isLF_eq c Hlf).
  - destruct rest as [|c2 rest2]; [done |].
    destruct (FilePicker.isCR c && FilePicker.isLF c2) eqn:Hcrlf.
    + exfalso. apply andb_true_iff in Hcrlf as [Hcr Hl].
      unfold FilePicker.isCR in Hcr. apply Ascii.eqb_eq in Hcr as ->.
      unfold FilePicker.isLF in Hl. apply Ascii.eqb_eq in Hl as ->.
      rewrite (proj2 (prefix_spec crlf _)) in Hhere by (by exists rest2).
      discriminate Hhere.
    + rewrite concat_startLine by apply splitLines_nonempty. by rewrite IH.
Qed.

Lemma append_nil_r (s : string) : s +:+ "" = s.
Proof. induction s as [|c s IH]; [done |]. by rewrite append_cons, IH. Qed.

Lemma append_assoc (a b c : string) : (a +:+ b) +:+ c = a +:+ (b +:+ c).
Proof. induction a as [|x a IH]; [done |]. by rewrite !append_cons, IH. Qed.

Lemma concat_take_prefix (n : nat) (lines : list string) :
  exists r, String.concat nl lines = String.concat nl (take n lines) +:+ r.
Proof.
  revert n. induction lines as [|l ls IH]; intros n.
  - exists "". by destruct n.
  - destruct n as [|n]; [by eexists |].
    destruct (IH n) as [r Hr]. simpl take.
    destruct ls as [|l2 ls].
    + exists "". rewrite take_nil. simpl. by rewrite append_nil_r.
    + destruct n as [|n].
      * exists (nl +:+ String.concat nl (l2 :: ls)). done.
      * exists r. simpl take in *.
        change (String.concat nl (l :: l2 :: ls))
          with (l +:+ nl +:+ String.concat nl (l2 :: ls)).
        change (String.concat nl (l :: l2 :: take n ls))
          with (l +:+ nl +:+ String.concat nl (l2 :: take n ls)).
        rewrite Hr. by rewrite !append_assoc.
Qed.

Lemma occurrences_nl_cons (c : ascii) (s : string) :
  Str.occurrences nl (String c s)
  = (if FilePicker.isLF c then 1 else 0) + Str.occurrences nl s.
Proof.
  rewrite occurrences_cons. f_equal.
  unfold FilePicker.isLF.
  destruct (Ascii.eqb_spec c (ascii_of_nat 10)) as [-> | Hne].
  - by rewrite (proj2 (prefix_spec nl _)) by (by exists s).
  - destruct (String.prefix nl (String c s)) eqn:Hp; [|done].
    apply prefix_spec in Hp as [r Hr]. by injection Hr as -> _.
Qed.

Lemma occurrences_nl_app (a b : string) :
  Str.occurrences nl (a +:+ b) = Str.occurrences nl a + Str.occurrences nl b.
Proof.
  induction a as [|c a IH].
  - change ("" +:+ b) with b. by destruct b.
  - rewrite append_cons, !occurrences_nl_cons, IH. lia.
Qed.

Lemma occurrences_nl_concat (lines : list string) :
  Forall (fun l => Str.occurrences nl l = 0) lines ->
  Str.occurrences nl (String.concat nl lines) = pred (length lines).
Proof.
  induction 1 as [|l ls Hl Hls IH]; [done |].
  destruct ls as [|l2 ls]; [done |].
  change (String.concat nl (l :: l2 :: ls))
    with (l +:+ nl +:+ String.concat nl (l2 :: ls)).
  rewrite !occurrences_nl_app, Hl, IH. done.
Qed.

Lemma splitLines_no_LF_bounded (n : nat) (t : string) :
  String.length t <= n ->
  Forall (fun l => Str.occurrences nl l = 0) (FilePicker.splitLines t).
Proof.
  revert t. induction n as [|n IH]; intros t Hlen.
  - destruct t; [by repeat constructor | simpl in Hlen; lia].
  - destruct t as [|c rest]; [by repeat constructor |].
    simpl in Hlen.
    change (FilePicker.splitLines (String c rest))
      with (if FilePicker.isLF c then "" :: FilePicker.splitLines rest
            else match rest with
                 | String c2 rest2 =>
                     if FilePicker.isCR c && FilePicker.isLF c2
                     then "" :: FilePicker.splitLines rest2
                     else FilePicker.startLine c (FilePicker.splitLines rest)
                 | EmptyString => [String c EmptyString]
                 end).
    destruct (FilePicker.isLF c) eqn:Hlf.
    + constructor; [done | apply IH; lia].
    + destruct rest as [|c2 rest2].
      * constructor; [|done]. by rewrite occurrences_nl_cons, Hlf.
      * destruct (FilePicker.isCR c && FilePicker.isLF c2).
        -- constructor; [done | apply IH; simpl in Hlen; lia].
        -- assert (Forall (fun l => Str.occurrences nl l = 0)
                     (FilePicker.splitLines (String c2 rest2))) as Hrest
             by (apply IH; lia).
           unfold FilePicker.startLine.
           destruct Hrest as [|l ls Hl Hls].
           ++ constructor; [|done]. by rewrite occurrences_nl_cons, Hlf.
           ++ constructor; [|done]. by rewrite occurrences_nl_cons, Hlf, Hl.
Qed.

(** X26. The preview of a file holds at most twenty lines, so at most
    nineteen line feeds. For a text with no carriage return before a line
    feed it is a prefix of the text, and the whole text when that has at
    most twenty lines. *)
Theorem preview_is_first_lines (txt : string) :
  Str.occurrences nl (FilePicker.firstLines txt) <= 19 /\
  (Str.includes crlf txt = false ->
     String.prefix (FilePicker.firstLines txt) txt = true /\
     (length (FilePicker.splitLines txt) <= 20 -> FilePicker.firstLines txt = txt)).
Proof.
  unfold FilePicker.firstLines. split.
  - rewrite occurrences_nl_concat.
    + rewrite length_take. lia.
    + apply Forall_take. by apply (splitLines_no_LF_bounded (String.length txt)).
  - intros Hcr. split.
    + apply prefix_spec.
      destruct (concat_take_prefix 20 (FilePicker.splitLines txt)) as [r Hr].
      exists r. by rewrite <- Hr, join_splitLines.
    + intros Hlen. rewrite take_ge by done. by apply join_splitLines.
Qed.

(** * The command line, the wizard and the picker together *)

Lemma append_nonempty_l (a b : string) : a <> "" -> a +:+ b <> "".
Proof. destruct a; [done |]. intros _. by rewrite append_cons. Qed.

Lemma normalize_nonempty (p : string) : Path.normalize p <> "".
Proof.
  unfold Path.normalize.
  destruct (String.eqb p ""); [done |].
  destruct (String.eqb (Path.normalizeString p _) "") eqn:He.
  - destruct (Path.isAbsolute p); [done |]. by destruct (Str.endsWith Path.sep p).
  - apply String.eqb_neq in He.
    destruct (Path.isAbsolute p).
    + by rewrite append_cons.
    + change ("" +:+ ?x) with x. by apply append_nonempty_l.
Qed.

Lemma join_nonempty (args : list string) : Path.join args <> "".
Proof.
  unfold Path.join. destruct (List.filter _ args); [done |].
  apply normalize_nonempty.
Qed.

Lemma handle_submits_nonempty (env : FilePicker.Env) (a : FilePicker.Action)
    (st st' : FilePicker.State) (p : string) :
  FilePicker.handle env a st = Some (st', Some p) -> p <> "".
Proof.
  unfold FilePicker.handle.
  destruct a as [position | position | text |].
  - destruct (_ || _); [done |].
    destruct (FilePicker.entries st !! position) as [item|]; [|done].
    unfold FilePicker.onSelect.
    repeat match goal with
           | |- context [if ?b then _ else _] => destruct b
           end; try done.
    intros [= _ <-]. apply join_nonempty.
  - by destruct (_ || _).
  - by destruct (_ || _).
  - unfold FilePicker.onSubmitText.
    destruct (FilePicker.enteringDir st); [done |].
    destruct (FilePicker.enteringFile st); [|done].
    intros [= _ <-]. unfold FilePicker.resolveTyped.
    destruct (Path.isAbsolute (FilePicker.tempPath st)) eqn:Ha.
    + by destruct (FilePicker.tempPath st).
    + apply join_nonempty.
Qed.

Lemma dispatch_submits_nonempty (env : FilePicker.Env) (a : FilePicker.Action)
    (st st' : FilePicker.State) (p : string) :
  FilePicker.dispatch env a st = Some (st', Some p) -> p <> "".
Proof.
  unfold FilePicker.dispatch.
  destruct (FilePicker.handle env a st) as [[st1 sub]|] eqn:Hh; [|done].
  intros [= _ ->]. by apply (handle_submits_nonempty env a st st1).
Qed.

Lemma atWelcome_spec (w : Wizard.State) :
  Interactive.atWelcome w = true <-> Wizard.step w = Step.welcome.
Proof. unfold Interactive.atWelcome. by destruct (Wizard.step w). Qed.

Lemma rendered_absolute (env : FilePicker.Env) (before : Interactive.State)
    (w : Wizard.State) (kept : option FilePicker.State) (ps : FilePicker.State) :
  Path.isAbsolute (FilePicker.cwd env) = true ->
  (forall ps0, kept = Some ps0 ->
     Path.isAbsolute (FilePicker.currentDir ps0) = true) ->
  Interactive.rendered env before w kept = Some ps ->
  Path.isAbsolute (FilePicker.currentDir ps) = true.
Proof.
  intros Hcwd Hkept. unfold Interactive.rendered.
  destruct (Interactive.atWelcome w); [|done].
  destruct (Interactive.atWelcome (Interactive.wizard before)).
  - apply Hkept.
  - intros [= <-]. unfold Interactive.mount, FilePicker.mounted.
    rewrite refresh_currentDir. by apply startingDir_absolute.
Qed.

Section Picked.

Variable env : FilePicker.Env.

Lemma start_sound (initialInputPath : option string) (initialFlags : Flags) :
  Interactive.sound env (Interactive.start env initialInputPath initialFlags).
Proof.
  split; [done |]. intros ps [= <-] Hcwd.
  unfold Interactive.mount, FilePicker.mounted.
  rewrite refresh_currentDir. by apply startingDir_absolute.
Qed.

Lemma step_sound (a : Interactive.Action) (s s' : Interactive.State) :
  Interactive.sound env s -> Interactive.step env a s = Some s' ->
  Interactive.sound env s'.
Proof.
  intros Hs. pose proof Hs as [Hpath Hpick].
  destruct a as [pa | wa]; unfold Interactive.step.
  - destruct (Interactive.picker s) as [ps|] eqn:Hps;
      [|intros [= <-]; exact Hs].
    destruct (FilePicker.dispatch env pa ps) as [[ps' [p|]]|] eqn:Hd; [| |done].
    + intros [= <-]. split; simpl.
      * intros Hleft.
        destruct (Wizard.step (Interactive.wizard s)) eqn:Hstep;
          try (apply Hpath; by rewrite <- Hleft; unfold Interactive.atWelcome;
               rewrite Hstep).
        simpl. split; [by apply (dispatch_submits_nonempty env pa ps ps') |].
        intros Hcwd.
        by apply (proj2 (dispatch_absolute env pa ps ps' (Some p)
                           (Hpick ps eq_refl Hcwd) Hd)).
      * intros ps1 Hr Hcwd. apply (rendered_absolute _ _ _ _ _ Hcwd) in Hr; [done |].
        intros ps0 [= <-].
        exact (proj1 (dispatch_absolute env pa ps ps' (Some p)
                        (Hpick ps eq_refl Hcwd) Hd)).
    + intros [= <-]. split; [done |]. simpl. intros ps1 [= <-] Hcwd.
      exact (proj1 (dispatch_absolute env pa ps ps' None
                      (Hpick ps eq_refl Hcwd) Hd)).
  - assert (forall w,
              w = Wizard.dispatch wa (Interactive.wizard s) ->
              (forall p, wa <> Wizard.PickFile p) ->
              Interactive.sound env
                {| Interactive.wizard := w;
                       Interactive.picker :=
                         Interactive.rendered env s w (Interactive.picker s) |})
      as Hother.
    { intros w -> Hwa. split; simpl.
      - intros Hleft.
        destruct (dispatch_keeps_inputPath wa (Interactive.wizard s))
          as [[full (-> & _)] | [-> Hstay]]; [by destruct (Hwa full) |].
        apply Hpath.
        destruct (Interactive.atWelcome (Interactive.wizard s)) eqn:Hw; [|done].
        apply atWelcome_spec, Hstay, atWelcome_spec in Hw. congruence.
      - intros ps1 Hr Hcwd. apply (rendered_absolute _ _ _ _ _ Hcwd) in Hr; [done |].
        intros ps0 Hps0. by apply Hpick. }
    destruct wa; try (intros [= <-]; by apply Hother).
    intros [= <-]. exact Hs.
Qed.

Lemma run_sound (actions : list Interactive.Action) (s s' : Interactive.State) :
  Interactive.sound env s -> Interactive.run env actions s = Some s' ->
  Interactive.sound env s'.
Proof.
  intros Hs. revert s'. unfold Interactive.run.
  induction actions as [|a actions IH] using rev_ind; intros s'.
  - by intros [= <-].
  - rewrite foldl_app. simpl.
    destruct (foldl _ _ actions) as [s0|]; [|done].
    by apply step_sound, IH.
Qed.

End Picked.

(** X27. Started from the command line, [App] never asks for a path:
    the entry renders [App] only on a non-empty input, and the wizard, at
    the end of any session with its file picker, hands [App] a non-empty
    path that the picker submitted (an absolute one when the working
    directory is absolute). So the path field of [App] and its live check
    are never shown, and the conversion starts on mount. *)
Theorem app_never_asks_for_path (env : FilePicker.Env) (g : Cli.Given) :
  match Entry.render g with
  | Entry.RootApp inputPath _ => Entry.asksForPath inputPath = false
  | Entry.RootWizard initialInputPath initialFlags =>
      forall actions s handedPath handedFlags,
        Interactive.run env actions
          (Interactive.start env initialInputPath initialFlags) = Some s ->
        WizardView.handsOver (Interactive.wizard s) = Some (handedPath, handedFlags) ->
        Entry.asksForPath (Some handedPath) = false /\
        (Path.isAbsolute (FilePicker.cwd env) = true ->
           Path.isAbsolute handedPath = true)
  end.
Proof.
  unfold Entry.render, Cli.shouldUseWizard.
  destruct (default false (Cli.interactive g) || negb (Str.truthy (Cli.input g)))
    eqn:Hw.
  - intros actions s handedPath handedFlags Hrun.
    apply run_sound in Hrun as [Hpath _]; [|apply start_sound].
    unfold WizardView.handsOver. unfold Interactive.atWelcome in Hpath.
    destruct (Wizard.step (Interactive.wizard s)); try done.
    intros [= <- _]. destruct (Hpath eq_refl) as [Hne Habs].
    split; [|done]. unfold Entry.asksForPath.
    by destruct (Wizard.inputPath (Interactive.wizard s)).
  - apply orb_false_iff in Hw as [_ Hin]. unfold Entry.asksForPath.
    by rewrite Hin.
Qed.

Lemma app_never_asks_witness :
  (forall s handedPath handedFlags,
     Interactive.run sampleEnv sampleSession
       (Interactive.start sampleEnv None (Cli.flags interactiveOnly)) = Some s ->
     WizardView.handsOver (Interactive.wizard s) = Some (handedPath, handedFlags) ->
     Entry.asksForPath (Some handedPath) = false /\
     (Path.isAbsolute (FilePicker.cwd sampleEnv) = true ->
        Path.isAbsolute handedPath = true)) /\
  (exists s,
     Interactive.run sampleEnv sampleSession
       (Interactive.start sampleEnv None (Cli.flags interactiveOnly)) = Some s /\
     WizardView.handsOver (Interactive.wizard s)
     = Some ("/home/user/README.md",
             WizardView.chosen samplePass (Cli.flags interactiveOnly))) /\
  Entry.asksForPath (Cli.input onlyInput) = false.
Proof.
  split; [|split].
  - exact (app_never_asks_for_path sampleEnv interactiveOnly sampleSession).
  - eexists. split; vm_compute; reflexivity.
  - exact (app_never_asks_for_path sampleEnv onlyInput).
Defined.
